(** * DrmRenderer: a shallow embedding of
      app/streaming/video/ffmpeg-renderers/drm.cpp

    The renderer talks to the kernel mode-setting interface, to an optional
    backend renderer and to the EGL import layer.  Those collaborators are
    modelled as an environment whose answers may depend on everything that
    happened before (the trace of calls made so far); every call the renderer
    makes is appended to that trace together with its result, so that the
    order of kernel operations can be stated and proved. *)

From Stdlib Require Import ZArith List String Bool Lia.
From stdpp Require Import base list.
Import ListNotations.
Local Open Scope string_scope.
Local Open Scope list_scope.
Local Open Scope Z_scope.

(** ** Machine integers *)

Definition to_u32 (z : Z) : Z := z mod 2 ^ 32.
Definition to_i32 (z : Z) : Z := (z + 2 ^ 31) mod 2 ^ 32 - 2 ^ 31.

(** ** Constants of the headers the file includes *)

(* libdrm: drm_mode.h, drm_fourcc.h *)
Definition DRM_MODE_OBJECT_CONNECTOR : Z := 0xc0c0c0c0.
Definition DRM_MODE_OBJECT_PLANE : Z := 0xeeeeeeee.
Definition DRM_MODE_FB_MODIFIERS : Z := 2.
Definition DRM_FORMAT_MOD_INVALID : Z := 0x00ffffffffffffff.

(* Limelight.h *)
Definition COLORSPACE_REC_601 : Z := 0.
Definition COLORSPACE_REC_709 : Z := 1.
Definition COLORSPACE_REC_2020 : Z := 2.

(* EGL/egl.h, EGL/eglext.h *)
Definition EGL_NONE : Z := 0x3038.
Definition EGL_HEIGHT : Z := 0x3056.
Definition EGL_WIDTH : Z := 0x3057.
Definition EGL_LINUX_DRM_FOURCC_EXT : Z := 0x3271.
Definition EGL_DMA_BUF_PLANE0_FD_EXT : Z := 0x3272.
Definition EGL_DMA_BUF_PLANE0_OFFSET_EXT : Z := 0x3273.
Definition EGL_DMA_BUF_PLANE0_PITCH_EXT : Z := 0x3274.
Definition EGL_DMA_BUF_PLANE1_FD_EXT : Z := 0x3275.
Definition EGL_DMA_BUF_PLANE1_OFFSET_EXT : Z := 0x3276.
Definition EGL_DMA_BUF_PLANE1_PITCH_EXT : Z := 0x3277.
Definition EGL_DMA_BUF_PLANE2_FD_EXT : Z := 0x3278.
Definition EGL_DMA_BUF_PLANE2_OFFSET_EXT : Z := 0x3279.
Definition EGL_DMA_BUF_PLANE2_PITCH_EXT : Z := 0x327A.
Definition EGL_YUV_COLOR_SPACE_HINT_EXT : Z := 0x327B.
Definition EGL_SAMPLE_RANGE_HINT_EXT : Z := 0x327C.
Definition EGL_ITU_REC601_EXT : Z := 0x327F.
Definition EGL_ITU_REC709_EXT : Z := 0x3280.
Definition EGL_ITU_REC2020_EXT : Z := 0x3281.
Definition EGL_YUV_FULL_RANGE_EXT : Z := 0x3282.
Definition EGL_YUV_NARROW_RANGE_EXT : Z := 0x3283.
Definition EGL_DMA_BUF_PLANE3_FD_EXT : Z := 0x3440.
Definition EGL_DMA_BUF_PLANE3_OFFSET_EXT : Z := 0x3441.
Definition EGL_DMA_BUF_PLANE3_PITCH_EXT : Z := 0x3442.
Definition EGL_DMA_BUF_PLANE0_MODIFIER_LO_EXT : Z := 0x3443.
Definition EGL_DMA_BUF_PLANE0_MODIFIER_HI_EXT : Z := 0x3444.
Definition EGL_DMA_BUF_PLANE1_MODIFIER_LO_EXT : Z := 0x3445.
Definition EGL_DMA_BUF_PLANE1_MODIFIER_HI_EXT : Z := 0x3446.
Definition EGL_DMA_BUF_PLANE2_MODIFIER_LO_EXT : Z := 0x3447.
Definition EGL_DMA_BUF_PLANE2_MODIFIER_HI_EXT : Z := 0x3448.
Definition EGL_DMA_BUF_PLANE3_MODIFIER_LO_EXT : Z := 0x3449.
Definition EGL_DMA_BUF_PLANE3_MODIFIER_HI_EXT : Z := 0x344A.

(** ** Data model *)

(* libavutil/hwcontext_drm.h.  The C arrays objects[], layers[] and planes[]
   have AV_DRM_MAX_PLANES = 4 slots; they are lists here, read with a zero
   element as default, and the nb_* counters are kept as separate fields as
   in the C structs. *)
Record AVDRMObjectDescriptor := mkObject {
  obj_fd : Z;
  obj_size : Z;
  format_modifier : Z
}.

Record AVDRMPlaneDescriptor := mkPlane {
  object_index : Z;
  plane_offset : Z;
  plane_pitch : Z
}.

Record AVDRMLayerDescriptor := mkLayer {
  layer_format : Z;
  nb_planes : Z;
  planes : list AVDRMPlaneDescriptor
}.

Record AVDRMFrameDescriptor := mkDescriptor {
  nb_objects : Z;
  objects : list AVDRMObjectDescriptor;
  nb_layers : Z;
  layers : list AVDRMLayerDescriptor
}.

Definition zeroObject : AVDRMObjectDescriptor := mkObject 0 0 0.
Definition zeroPlane : AVDRMPlaneDescriptor := mkPlane 0 0 0.
Definition zeroLayer : AVDRMLayerDescriptor := mkLayer 0 0 [].

Definition layerAt (d : AVDRMFrameDescriptor) (i : nat) : AVDRMLayerDescriptor :=
  nth i (layers d) zeroLayer.
Definition planeAt (l : AVDRMLayerDescriptor) (i : nat) : AVDRMPlaneDescriptor :=
  nth i (planes l) zeroPlane.
Definition objectAt (d : AVDRMFrameDescriptor) (i : Z) : AVDRMObjectDescriptor :=
  nth (Z.to_nat i) (objects d) zeroObject.

(* The fields of AVFrame the renderer reads.  data0 is what frame->data[0]
   points to when the frame is a DRM PRIME frame. *)
Record AVFrame := mkFrame {
  frame_format : Z;
  frame_width : Z;
  frame_height : Z;
  frame_colorspace : Z;
  frame_color_range : Z;
  data0 : AVDRMFrameDescriptor
}.

Record SDL_Rect := mkRect { rect_x : Z; rect_y : Z; rect_w : Z; rect_h : Z }.

(* xf86drmMode.h: drmModePropertyRes with its enum table; count_enums is the
   length of the table. *)
Record drm_mode_property_enum := mkEnum { enum_value : Z; enum_name : string }.

Record drmModePropertyRes := mkProp {
  prop_id : Z;
  prop_name : string;
  enums : list drm_mode_property_enum
}.

(* Limelight.h: SS_HDR_METADATA *)
Record SS_HDR_METADATA := mkSsHdr {
  displayPrimaries : list (Z * Z);
  whitePoint : Z * Z;
  maxDisplayLuminance : Z;
  minDisplayLuminance : Z;
  maxContentLightLevel : Z;
  maxFrameAverageLightLevel : Z
}.

Definition zeroHdrMetadata : SS_HDR_METADATA :=
  mkSsHdr [(0, 0); (0, 0); (0, 0)] (0, 0) 0 0 0 0.

(* DrmDefs::hdr_output_metadata with its hdmi_metadata_type1 member inlined *)
Record hdr_output_metadata := mkOutputMetadata {
  metadata_type : Z;
  hdmi_eotf : Z;
  hdmi_metadata_type : Z;
  display_primaries : list (Z * Z);
  white_point : Z * Z;
  max_display_mastering_luminance : Z;
  min_display_mastering_luminance : Z;
  max_cll : Z;
  max_fall : Z
}.

(** The members of DrmRenderer that drm.cpp reads or writes.  Pointers are
    options (nullptr is None); the backend renderer pointer is reduced to
    whether it is set, its methods being part of the environment. *)
Record DrmRenderer := mkDrmRenderer {
  m_BackendRenderer : bool;
  m_DrmFd : Z;
  m_SdlOwnsDrmFd : bool;
  m_SupportsDirectRendering : bool;
  m_Main10Hdr : bool;
  m_ConnectorId : Z;
  m_EncoderId : Z;
  m_CrtcId : Z;
  m_PlaneId : Z;
  m_CurrentFbId : Z;
  m_LastFullRange : bool;
  m_LastColorSpace : Z;
  m_ColorEncodingProp : option drmModePropertyRes;
  m_ColorRangeProp : option drmModePropertyRes;
  m_HdrOutputMetadataProp : option drmModePropertyRes;
  m_HdrOutputMetadataBlobId : Z;
  m_OutputRect : SDL_Rect;
  m_EGLExtDmaBuf : bool;
  m_eglCreateImage : bool;
  m_eglCreateImageKHR : bool;
  m_eglDestroyImage : bool;
  m_eglDestroyImageKHR : bool
}.

(* DrmRenderer::DrmRenderer.  m_OutputRect has no initializer in the
   constructor; it is the zero rectangle here. *)
Definition DrmRenderer_new (backendRenderer : bool) : DrmRenderer :=
  {| m_BackendRenderer := backendRenderer;
     m_DrmFd := -1;
     m_SdlOwnsDrmFd := false;
     m_SupportsDirectRendering := false;
     m_Main10Hdr := false;
     m_ConnectorId := 0;
     m_EncoderId := 0;
     m_CrtcId := 0;
     m_PlaneId := 0;
     m_CurrentFbId := 0;
     m_LastFullRange := false;
     m_LastColorSpace := -1;
     m_ColorEncodingProp := None;
     m_ColorRangeProp := None;
     m_HdrOutputMetadataProp := None;
     m_HdrOutputMetadataBlobId := 0;
     m_OutputRect := mkRect 0 0 0 0;
     m_EGLExtDmaBuf := false;
     m_eglCreateImage := false;
     m_eglCreateImageKHR := false;
     m_eglDestroyImage := false;
     m_eglDestroyImageKHR := false |}.

Definition set_CurrentFbId (v : Z) (r : DrmRenderer) : DrmRenderer :=
  {| m_BackendRenderer := m_BackendRenderer r; m_DrmFd := m_DrmFd r;
     m_SdlOwnsDrmFd := m_SdlOwnsDrmFd r;
     m_SupportsDirectRendering := m_SupportsDirectRendering r;
     m_Main10Hdr := m_Main10Hdr r; m_ConnectorId := m_ConnectorId r;
     m_EncoderId := m_EncoderId r; m_CrtcId := m_CrtcId r;
     m_PlaneId := m_PlaneId r; m_CurrentFbId := v;
     m_LastFullRange := m_LastFullRange r;
     m_LastColorSpace := m_LastColorSpace r;
     m_ColorEncodingProp := m_ColorEncodingProp r;
     m_ColorRangeProp := m_ColorRangeProp r;
     m_HdrOutputMetadataProp := m_HdrOutputMetadataProp r;
     m_HdrOutputMetadataBlobId := m_HdrOutputMetadataBlobId r;
     m_OutputRect := m_OutputRect r; m_EGLExtDmaBuf := m_EGLExtDmaBuf r;
     m_eglCreateImage := m_eglCreateImage r;
     m_eglCreateImageKHR := m_eglCreateImageKHR r;
     m_eglDestroyImage := m_eglDestroyImage r;
     m_eglDestroyImageKHR := m_eglDestroyImageKHR r |}.

Definition set_LastFullRange (v : bool) (r : DrmRenderer) : DrmRenderer :=
  {| m_BackendRenderer := m_BackendRenderer r; m_DrmFd := m_DrmFd r;
     m_SdlOwnsDrmFd := m_SdlOwnsDrmFd r;
     m_SupportsDirectRendering := m_SupportsDirectRendering r;
     m_Main10Hdr := m_Main10Hdr r; m_ConnectorId := m_ConnectorId r;
     m_EncoderId := m_EncoderId r; m_CrtcId := m_CrtcId r;
     m_PlaneId := m_PlaneId r; m_CurrentFbId := m_CurrentFbId r;
     m_LastFullRange := v;
     m_LastColorSpace := m_LastColorSpace r;
     m_ColorEncodingProp := m_ColorEncodingProp r;
     m_ColorRangeProp := m_ColorRangeProp r;
     m_HdrOutputMetadataProp := m_HdrOutputMetadataProp r;
     m_HdrOutputMetadataBlobId := m_HdrOutputMetadataBlobId r;
     m_OutputRect := m_OutputRect r; m_EGLExtDmaBuf := m_EGLExtDmaBuf r;
     m_eglCreateImage := m_eglCreateImage r;
     m_eglCreateImageKHR := m_eglCreateImageKHR r;
     m_eglDestroyImage := m_eglDestroyImage r;
     m_eglDestroyImageKHR := m_eglDestroyImageKHR r |}.

Definition set_LastColorSpace (v : Z) (r : DrmRenderer) : DrmRenderer :=
  {| m_BackendRenderer := m_BackendRenderer r; m_DrmFd := m_DrmFd r;
     m_SdlOwnsDrmFd := m_SdlOwnsDrmFd r;
     m_SupportsDirectRendering := m_SupportsDirectRendering r;
     m_Main10Hdr := m_Main10Hdr r; m_ConnectorId := m_ConnectorId r;
     m_EncoderId := m_EncoderId r; m_CrtcId := m_CrtcId r;
     m_PlaneId := m_PlaneId r; m_CurrentFbId := m_CurrentFbId r;
     m_LastFullRange := m_LastFullRange r;
     m_LastColorSpace := v;
     m_ColorEncodingProp := m_ColorEncodingProp r;
     m_ColorRangeProp := m_ColorRangeProp r;
     m_HdrOutputMetadataProp := m_HdrOutputMetadataProp r;
     m_HdrOutputMetadataBlobId := m_HdrOutputMetadataBlobId r;
     m_OutputRect := m_OutputRect r; m_EGLExtDmaBuf := m_EGLExtDmaBuf r;
     m_eglCreateImage := m_eglCreateImage r;
     m_eglCreateImageKHR := m_eglCreateImageKHR r;
     m_eglDestroyImage := m_eglDestroyImage r;
     m_eglDestroyImageKHR := m_eglDestroyImageKHR r |}.

Definition set_HdrOutputMetadataBlobId (v : Z) (r : DrmRenderer) : DrmRenderer :=
  {| m_BackendRenderer := m_BackendRenderer r; m_DrmFd := m_DrmFd r;
     m_SdlOwnsDrmFd := m_SdlOwnsDrmFd r;
     m_SupportsDirectRendering := m_SupportsDirectRendering r;
     m_Main10Hdr := m_Main10Hdr r; m_ConnectorId := m_ConnectorId r;
     m_EncoderId := m_EncoderId r; m_CrtcId := m_CrtcId r;
     m_PlaneId := m_PlaneId r; m_CurrentFbId := m_CurrentFbId r;
     m_LastFullRange := m_LastFullRange r;
     m_LastColorSpace := m_LastColorSpace r;
     m_ColorEncodingProp := m_ColorEncodingProp r;
     m_ColorRangeProp := m_ColorRangeProp r;
     m_HdrOutputMetadataProp := m_HdrOutputMetadataProp r;
     m_HdrOutputMetadataBlobId := v;
     m_OutputRect := m_OutputRect r; m_EGLExtDmaBuf := m_EGLExtDmaBuf r;
     m_eglCreateImage := m_eglCreateImage r;
     m_eglCreateImageKHR := m_eglCreateImageKHR r;
     m_eglDestroyImage := m_eglDestroyImage r;
     m_eglDestroyImageKHR := m_eglDestroyImageKHR r |}.

(** ** Calls that leave the renderer, and their results *)

Inductive LogLevel := LogDebug | LogInfo | LogWarn | LogError.

(* A call that returns an error code and may store a 32-bit identifier
   through a pointer argument. *)
Definition OutResult : Type := Z * option Z.

Definition storeOut (old : Z) (r : OutResult) : Z :=
  match snd r with Some v => v | None => old end.

Inductive Event :=
| EvLog (lvl : LogLevel) (fmt : string) (args : list string)
| EvMapDrmPrimeFrame (frame : AVFrame) (res : option AVDRMFrameDescriptor)
| EvUnmapDrmPrimeFrame (d : AVDRMFrameDescriptor)
| EvPrimeFDToHandle (fd primeFd : Z) (res : OutResult)
| EvAddFB2WithModifiers (fd width height pixelFormat : Z)
    (handles pitches offsets : list Z) (modifiers : option (list Z))
    (flags : Z) (res : OutResult)
| EvRmFB (fd fbId : Z)
| EvObjectSetProperty (fd objectId objectType propertyId value : Z) (err : Z)
| EvSetPlane (fd planeId crtcId fbId flags : Z)
    (crtc_x crtc_y crtc_w crtc_h src_x src_y src_w src_h : Z) (err : Z)
| EvGetHdrMetadata (res : option SS_HDR_METADATA)
| EvCreatePropertyBlob (fd : Z) (data : hdr_output_metadata) (res : OutResult)
| EvDestroyPropertyBlob (fd blobId : Z)
| EvCreateImage (khr : bool) (attribs : list Z) (image : Z)
| EvDestroyImage (khr : bool) (image : Z).

(** The environment: what each outside call answers, given the calls made
    so far and the arguments of this one. *)
Record Env := mkEnv {
  env_mapDrmPrimeFrame : list Event -> AVFrame -> option AVDRMFrameDescriptor;
  env_drmPrimeFDToHandle : list Event -> Z -> Z -> OutResult;
  env_drmModeAddFB2WithModifiers :
    list Event -> Z -> Z -> Z -> Z -> list Z -> list Z -> list Z ->
    option (list Z) -> Z -> OutResult;
  env_drmModeObjectSetProperty : list Event -> Z -> Z -> Z -> Z -> Z -> Z;
  env_drmModeSetPlane :
    list Event -> Z -> Z -> Z -> Z -> Z -> Z -> Z -> Z -> Z -> Z -> Z -> Z ->
    Z -> Z;
  env_LiGetHdrMetadata : list Event -> option SS_HDR_METADATA;
  env_drmModeCreatePropertyBlob : list Event -> Z -> hdr_output_metadata -> OutResult;
  env_eglCreateImage : list Event -> bool -> list Z -> Z
}.

(** ** The renderer monad: renderer members and the trace *)

Record St := mkSt { self : DrmRenderer; trace : list Event }.

Definition M (A : Type) : Type := St -> A * St.

Definition ret {A : Type} (a : A) : M A := fun s => (a, s).

Definition bind {A B : Type} (m : M A) (k : A -> M B) : M B :=
  fun s => let (a, s') := m s in k a s'.

Declare Scope drm_scope.
Delimit Scope drm_scope with drm.
Notation "x <- c1 ;; c2" := (bind c1 (fun x => c2))
  (at level 100, c1 at next level, right associativity) : drm_scope.
Notation "c1 ;; c2" := (bind c1 (fun _ => c2))
  (at level 100, right associativity) : drm_scope.
Local Open Scope drm_scope.

Definition this : M DrmRenderer := fun s => (self s, s).

Definition modify (f : DrmRenderer -> DrmRenderer) : M unit :=
  fun s => (tt, mkSt (f (self s)) (trace s)).

Definition history : M (list Event) := fun s => (trace s, s).

Definition emit (e : Event) : M unit :=
  fun s => (tt, mkSt (self s) (trace s ++ [e])).

Definition when (b : bool) (m : M unit) : M unit := if b then m else ret tt.

Definition SDL_Log (lvl : LogLevel) (fmt : string) (args : list string) : M unit :=
  emit (EvLog lvl fmt args).

(** ** The renderer's methods *)

Section Renderer.

Variable env : Env.

(* IFFmpegRenderer::getFrameColorspace, IFFmpegRenderer::isFrameFullRange
   and StreamUtils::scaleSourceToDestinationSurface are defined in other
   files of the application; the renderer is parametric in them.  The last
   one receives both rectangles by pointer and hands both back. *)
Variable getFrameColorspace : AVFrame -> Z.
Variable isFrameFullRange : AVFrame -> bool.
Variable scaleSourceToDestinationSurface : SDL_Rect -> SDL_Rect -> SDL_Rect * SDL_Rect.

(** *** Outside calls, recorded in the trace *)

Definition mapDrmPrimeFrame (frame : AVFrame) : M (option AVDRMFrameDescriptor) :=
  h <- history;;
  let r := env_mapDrmPrimeFrame env h frame in
  emit (EvMapDrmPrimeFrame frame r);; ret r.

Definition unmapDrmPrimeFrame (d : AVDRMFrameDescriptor) : M unit :=
  emit (EvUnmapDrmPrimeFrame d).

Definition drmPrimeFDToHandle (fd primeFd : Z) : M OutResult :=
  h <- history;;
  let r := env_drmPrimeFDToHandle env h fd primeFd in
  emit (EvPrimeFDToHandle fd primeFd r);; ret r.

Definition drmModeAddFB2WithModifiers (fd width height pixelFormat : Z)
    (handles pitches offsets : list Z) (modifiers : option (list Z))
    (flags : Z) : M OutResult :=
  h <- history;;
  let r := env_drmModeAddFB2WithModifiers env h fd width height pixelFormat
             handles pitches offsets modifiers flags in
  emit (EvAddFB2WithModifiers fd width height pixelFormat
          handles pitches offsets modifiers flags r);; ret r.

Definition drmModeRmFB (fd fbId : Z) : M unit := emit (EvRmFB fd fbId).

Definition drmModeObjectSetProperty (fd objectId objectType propertyId value : Z) : M Z :=
  h <- history;;
  let err := env_drmModeObjectSetProperty env h fd objectId objectType propertyId value in
  emit (EvObjectSetProperty fd objectId objectType propertyId value err);; ret err.

Definition drmModeSetPlane (fd planeId crtcId fbId flags
    crtc_x crtc_y crtc_w crtc_h src_x src_y src_w src_h : Z) : M Z :=
  h <- history;;
  let err := env_drmModeSetPlane env h fd planeId crtcId fbId flags
               crtc_x crtc_y crtc_w crtc_h src_x src_y src_w src_h in
  emit (EvSetPlane fd planeId crtcId fbId flags
          crtc_x crtc_y crtc_w crtc_h src_x src_y src_w src_h err);; ret err.

Definition LiGetHdrMetadata : M (option SS_HDR_METADATA) :=
  h <- history;;
  let r := env_LiGetHdrMetadata env h in
  emit (EvGetHdrMetadata r);; ret r.

Definition drmModeCreatePropertyBlob (fd : Z) (data : hdr_output_metadata) : M OutResult :=
  h <- history;;
  let r := env_drmModeCreatePropertyBlob env h fd data in
  emit (EvCreatePropertyBlob fd data r);; ret r.

Definition drmModeDestroyPropertyBlob (fd blobId : Z) : M unit :=
  emit (EvDestroyPropertyBlob fd blobId).

Definition eglCreateImage (khr : bool) (attribs : list Z) : M Z :=
  h <- history;;
  let img := env_eglCreateImage env h khr attribs in
  emit (EvCreateImage khr attribs img);; ret img.

Definition eglDestroyImage (khr : bool) (image : Z) : M unit :=
  emit (EvDestroyImage khr image).

(** *** DrmRenderer::initialize *)

Definition initialize {PDECODER_PARAMETERS : Type} (params : PDECODER_PARAMETERS) : M bool :=
  ret false.

(** *** DrmRenderer::needsTestFrame, isDirectRenderingSupported *)

Definition needsTestFrame : bool := true.

Definition isDirectRenderingSupported : M bool :=
  me <- this;; ret (m_SupportsDirectRendering me).

(** *** DrmRenderer::getDrmColorEncodingValue, getDrmColorRangeValue
    A const char* result is an option: NULL is None. *)

Definition getDrmColorEncodingValue (frame : AVFrame) : option string :=
  let cs := getFrameColorspace frame in
  if cs =? COLORSPACE_REC_601 then Some "ITU-R BT.601 YCbCr"
  else if cs =? COLORSPACE_REC_709 then Some "ITU-R BT.709 YCbCr"
  else if cs =? COLORSPACE_REC_2020 then Some "ITU-R BT.2020 YCbCr"
  else None.

Definition getDrmColorRangeValue (frame : AVFrame) : option string :=
  Some (if isFrameFullRange frame then "YCbCr full range" else "YCbCr limited range").

(* lines 178-190: the hdr_output_metadata filled from the session's
   metadata; the loop copies the three display primaries *)
Definition fillOutputMetadata (sunshineHdrMetadata : SS_HDR_METADATA)
    : hdr_output_metadata :=
  {| metadata_type := 0; (* HDMI_STATIC_METADATA_TYPE1 *)
     hdmi_eotf := 2; (* SMPTE ST 2084 *)
     hdmi_metadata_type := 0; (* Static Metadata Type 1 *)
     display_primaries :=
       map (fun i => nth i (displayPrimaries sunshineHdrMetadata) (0, 0))
           [0; 1; 2]%nat;
     white_point := whitePoint sunshineHdrMetadata;
     max_display_mastering_luminance := maxDisplayLuminance sunshineHdrMetadata;
     min_display_mastering_luminance := minDisplayLuminance sunshineHdrMetadata;
     max_cll := maxContentLightLevel sunshineHdrMetadata;
     max_fall := maxFrameAverageLightLevel sunshineHdrMetadata |}.

(** *** DrmRenderer::setHdrMode
    The errno argument of the error messages is not part of the model;
    only the string arguments of a log call are recorded. *)

Definition setHdrMode (enabled : bool) : M unit :=
  me <- this;;
  match m_HdrOutputMetadataProp me with
  | Some prop =>
      when (negb (m_HdrOutputMetadataBlobId me =? 0))
        (drmModeDestroyPropertyBlob (m_DrmFd me) (m_HdrOutputMetadataBlobId me);;
         modify (set_HdrOutputMetadataBlobId 0));;
      when enabled
        (got <- LiGetHdrMetadata;;
         (* Sunshine will have HDR metadata but GFE will not *)
         let sunshineHdrMetadata :=
           match got with Some m => m | None => zeroHdrMetadata end in
         let outputMetadata := fillOutputMetadata sunshineHdrMetadata in
         me <- this;;
         r <- drmModeCreatePropertyBlob (m_DrmFd me) outputMetadata;;
         modify (set_HdrOutputMetadataBlobId (storeOut (m_HdrOutputMetadataBlobId me) r));;
         when (fst r <? 0)
           (modify (set_HdrOutputMetadataBlobId 0);;
            SDL_Log LogError "drmModeCreatePropertyBlob() failed: %d" []));;
      me <- this;;
      err <- drmModeObjectSetProperty (m_DrmFd me) (m_ConnectorId me)
               DRM_MODE_OBJECT_CONNECTOR (prop_id prop)
               (if enabled then m_HdrOutputMetadataBlobId me else 0);;
      if err =? 0 then
        SDL_Log LogInfo "Set display HDR mode: %s"
                [if enabled then "enabled" else "disabled"]
      else
        SDL_Log LogError "drmModeObjectSetProperty(%s) failed: %d" [prop_name prop]
  | None =>
      when enabled
        (SDL_Log LogWarn
           "HDR_OUTPUT_METADATA is unavailable on this display. Unable to enter HDR mode!" [])
  end.

(** *** DrmRenderer::renderFrame *)

(* handles[4], pitches[4], offsets[4], modifiers[4] and flags *)
Record FbArrays := mkFbArrays {
  fb_handles : list Z;
  fb_pitches : list Z;
  fb_offsets : list Z;
  fb_modifiers : list Z;
  fb_flags : Z
}.

Definition zeroFbArrays : FbArrays :=
  mkFbArrays (replicate 4 0) (replicate 4 0) (replicate 4 0) (replicate 4 0) 0.

(* The loop over the planes of the layer: [n] iterations are left and [i]
   is the loop counter.  None is the early return out of renderFrame.
   A store at an index outside the four-element arrays is undefined in C
   and leaves the list unchanged here. *)
Fixpoint resolvePlanes (drmFrame : AVDRMFrameDescriptor) (layer : AVDRMLayerDescriptor)
    (n i : nat) (a : FbArrays) : M (option FbArrays) :=
  match n with
  | O => ret (Some a)
  | S n' =>
      me <- this;;
      let object := objectAt drmFrame (object_index (planeAt layer i)) in
      r <- drmPrimeFDToHandle (m_DrmFd me) (obj_fd object);;
      let handles := <[i := storeOut (nth i (fb_handles a) 0) r]> (fb_handles a) in
      if fst r <? 0 then
        SDL_Log LogError "drmPrimeFDToHandle() failed: %d" [];;
        when (m_BackendRenderer me) (unmapDrmPrimeFrame drmFrame);;
        ret None
      else
        let pitches := <[i := to_u32 (plane_pitch (planeAt layer i))]> (fb_pitches a) in
        let offsets := <[i := to_u32 (plane_offset (planeAt layer i))]> (fb_offsets a) in
        let modifiers := <[i := format_modifier object]> (fb_modifiers a) in
        (* Pass along the modifiers to DRM if there are some in the descriptor *)
        let flags :=
          if format_modifier object =? DRM_FORMAT_MOD_INVALID then fb_flags a
          else Z.lor (fb_flags a) DRM_MODE_FB_MODIFIERS in
        resolvePlanes drmFrame layer n' (S i)
          (mkFbArrays handles pitches offsets modifiers flags)
  end.

(* for (i = 0; i < count_enums; i++) if (!strcmp(desiredValue, enums[i].name)) ... break;
   the first entry whose name is the desired string, if there is one *)
Fixpoint findEnum (desiredValue : string) (es : list drm_mode_property_enum)
    : option drm_mode_property_enum :=
  match es with
  | [] => None
  | e :: es' =>
      if String.eqb desiredValue (enum_name e) then Some e
      else findEnum desiredValue es'
  end.

(* lines 318-358: the color range block *)
Definition updateColorRange (frame : AVFrame) : M unit :=
  me <- this;;
  let colorspace := getFrameColorspace frame in
  let fullRange := isFrameFullRange frame in
  if negb (Bool.eqb fullRange (m_LastFullRange me))
     || negb (colorspace =? m_LastColorSpace me) then
    let desiredValue := getDrmColorRangeValue frame in
    match m_ColorRangeProp me, desiredValue with
    | Some prop, Some desired =>
        match findEnum desired (enums prop) with
        | Some e =>
            err <- drmModeObjectSetProperty (m_DrmFd me) (m_PlaneId me)
                     DRM_MODE_OBJECT_PLANE (prop_id prop) (enum_value e);;
            if err =? 0 then
              SDL_Log LogInfo "%s: %s" [prop_name prop; desired]
            else
              SDL_Log LogError "drmModeObjectSetProperty(%s) failed: %d" [prop_name prop]
        | None =>
            SDL_Log LogWarn
              "Unable to find matching COLOR_RANGE value for '%s'. Colors may be inaccurate!"
              [desired]
        end
    | None, Some _ =>
        SDL_Log LogWarn
          "COLOR_RANGE property does not exist on output plane. Colors may be inaccurate!" []
    | _, None => ret tt
    end;;
    modify (set_LastFullRange fullRange)
  else ret tt.

(* lines 360-400: the color encoding block *)
Definition updateColorEncoding (frame : AVFrame) : M unit :=
  me <- this;;
  let colorspace := getFrameColorspace frame in
  if negb (colorspace =? m_LastColorSpace me) then
    let desiredValue := getDrmColorEncodingValue frame in
    match m_ColorEncodingProp me, desiredValue with
    | Some prop, Some desired =>
        match findEnum desired (enums prop) with
        | Some e =>
            err <- drmModeObjectSetProperty (m_DrmFd me) (m_PlaneId me)
                     DRM_MODE_OBJECT_PLANE (prop_id prop) (enum_value e);;
            if err =? 0 then
              SDL_Log LogInfo "%s: %s" [prop_name prop; desired]
            else
              SDL_Log LogError "drmModeObjectSetProperty(%s) failed: %d" [prop_name prop]
        | None =>
            SDL_Log LogWarn
              "Unable to find matching COLOR_ENCODING value for '%s'. Colors may be inaccurate!"
              [desired]
        end
    | None, Some _ =>
        SDL_Log LogWarn
          "COLOR_ENCODING property does not exist on output plane. Colors may be inaccurate!" []
    | _, None => ret tt
    end;;
    modify (set_LastColorSpace colorspace)
  else ret tt.

(* lines 288-420: from the creation of the framebuffer to the end *)
Definition presentFrame (frame : AVFrame) (drmFrame : AVDRMFrameDescriptor)
    (dst : SDL_Rect) (a : FbArrays) : M unit :=
  me <- this;;
  (* Remember the last FB object we created so we can free it
     when we are finished rendering this one (if successful). *)
  let lastFbId := m_CurrentFbId me in
  r <- drmModeAddFB2WithModifiers (m_DrmFd me) (frame_width frame) (frame_height frame)
         (layer_format (layerAt drmFrame 0))
         (fb_handles a) (fb_pitches a) (fb_offsets a)
         (if Z.land (fb_flags a) DRM_MODE_FB_MODIFIERS =? 0 then None
          else Some (fb_modifiers a))
         (fb_flags a);;
  modify (set_CurrentFbId (storeOut lastFbId r));;
  when (m_BackendRenderer me) (unmapDrmPrimeFrame drmFrame);;
  if fst r <? 0 then
    SDL_Log LogError "drmModeAddFB2WithModifiers() failed: %d" [];;
    modify (set_CurrentFbId lastFbId)
  else
    updateColorRange frame;;
    updateColorEncoding frame;;
    (* Update the overlay *)
    me <- this;;
    err <- drmModeSetPlane (m_DrmFd me) (m_PlaneId me) (m_CrtcId me) (m_CurrentFbId me) 0
             (rect_x dst) (rect_y dst) (rect_w dst) (rect_h dst)
             0 0
             (to_u32 (Z.shiftl (frame_width frame) 16))
             (to_u32 (Z.shiftl (frame_height frame) 16));;
    if err <? 0 then
      SDL_Log LogError "drmModeSetPlane() failed: %d" [];;
      drmModeRmFB (m_DrmFd me) (m_CurrentFbId me);;
      modify (set_CurrentFbId lastFbId)
    else
      (* Free the previous FB object which has now been superseded *)
      drmModeRmFB (m_DrmFd me) lastFbId.

Definition renderFrame (frame : AVFrame) : M unit :=
  SDL_Log LogDebug "1" [];;
  me <- this;;
  (* If we are acting as the frontend renderer, we'll need to have the backend
     map this frame into a DRM PRIME descriptor that we can render. *)
  mapped <- (if m_BackendRenderer me then mapDrmPrimeFrame frame
             else ret (Some (data0 frame)));;
  match mapped with
  | None => ret tt
  | Some drmFrame =>
      let src := mkRect 0 0 (frame_width frame) (frame_height frame) in
      let dst := snd (scaleSourceToDestinationSurface src (m_OutputRect me)) in
      let layer := layerAt drmFrame 0 in
      resolved <- resolvePlanes drmFrame layer (Z.to_nat (nb_planes layer)) 0 zeroFbArrays;;
      match resolved with
      | None => ret tt
      | Some a => presentFrame frame drmFrame dst a
      end
  end.

(** *** DrmRenderer::testRenderFrame *)

Definition testRenderFrame (frame : AVFrame) : M bool :=
  me <- this;;
  if m_BackendRenderer me then
    mapped <- mapDrmPrimeFrame frame;;
    match mapped with
    | None => ret false
    | Some drmDescriptor => unmapDrmPrimeFrame drmDescriptor;; ret true
    end
  else ret true.

(** *** DrmRenderer::exportEGLImages, freeEGLImages
    EGLAttrib is intptr_t, taken as 64 bits wide; the values stored without
    a cast fit.  attribs[] has MAX_ATTRIB_COUNT slots, zero after the six
    initializers, and attribIndex is the next free slot. *)

Definition MAX_ATTRIB_COUNT : nat := 30 * 2.
Definition EGL_MAX_PLANES : nat := 4.

Record AttribList := mkAttribList { attribs : list Z; attribIndex : nat }.

(* attribs[attribIndex++] = v *)
Definition putAttrib (v : Z) (a : AttribList) : AttribList :=
  mkAttribList (<[attribIndex a := v]> (attribs a)) (S (attribIndex a)).

(* the body shared by the four cases of the switch, which differ in the
   attribute names only *)
Definition putPlane (me : DrmRenderer) (fdKey offsetKey pitchKey modLoKey modHiKey : Z)
    (plane : AVDRMPlaneDescriptor) (object : AVDRMObjectDescriptor)
    (a : AttribList) : AttribList :=
  let a := putAttrib fdKey a in
  let a := putAttrib (obj_fd object) a in
  let a := putAttrib offsetKey a in
  let a := putAttrib (plane_offset plane) a in
  let a := putAttrib pitchKey a in
  let a := putAttrib (plane_pitch plane) a in
  if m_EGLExtDmaBuf me && negb (format_modifier object =? DRM_FORMAT_MOD_INVALID) then
    let a := putAttrib modLoKey a in
    let a := putAttrib (to_i32 (Z.land (format_modifier object) 0xFFFFFFFF)) a in
    let a := putAttrib modHiKey a in
    let a := putAttrib (to_i32 (Z.shiftr (format_modifier object) 32)) a in
    a
  else a.

(* the loop over the planes; [n] iterations are left, [i] is the counter.
   The default case of the switch is Q_UNREACHABLE() and adds nothing. *)
Fixpoint exportPlanes (me : DrmRenderer) (drmFrame : AVDRMFrameDescriptor)
    (n i : nat) (a : AttribList) : AttribList :=
  match n with
  | O => a
  | S n' =>
      let plane := planeAt (layerAt drmFrame 0) i in
      let object := objectAt drmFrame (object_index plane) in
      let a :=
        match i with
        | 0%nat => putPlane me EGL_DMA_BUF_PLANE0_FD_EXT EGL_DMA_BUF_PLANE0_OFFSET_EXT
                     EGL_DMA_BUF_PLANE0_PITCH_EXT EGL_DMA_BUF_PLANE0_MODIFIER_LO_EXT
                     EGL_DMA_BUF_PLANE0_MODIFIER_HI_EXT plane object a
        | 1%nat => putPlane me EGL_DMA_BUF_PLANE1_FD_EXT EGL_DMA_BUF_PLANE1_OFFSET_EXT
                     EGL_DMA_BUF_PLANE1_PITCH_EXT EGL_DMA_BUF_PLANE1_MODIFIER_LO_EXT
                     EGL_DMA_BUF_PLANE1_MODIFIER_HI_EXT plane object a
        | 2%nat => putPlane me EGL_DMA_BUF_PLANE2_FD_EXT EGL_DMA_BUF_PLANE2_OFFSET_EXT
                     EGL_DMA_BUF_PLANE2_PITCH_EXT EGL_DMA_BUF_PLANE2_MODIFIER_LO_EXT
                     EGL_DMA_BUF_PLANE2_MODIFIER_HI_EXT plane object a
        | 3%nat => putPlane me EGL_DMA_BUF_PLANE3_FD_EXT EGL_DMA_BUF_PLANE3_OFFSET_EXT
                     EGL_DMA_BUF_PLANE3_PITCH_EXT EGL_DMA_BUF_PLANE3_MODIFIER_LO_EXT
                     EGL_DMA_BUF_PLANE3_MODIFIER_HI_EXT plane object a
        | _ => a
        end in
      exportPlanes me drmFrame n' (S i) a
  end.

(* lines 536-637: the attribute array and the index after the sentinel *)
Definition exportAttribs (me : DrmRenderer) (frame : AVFrame) : AttribList :=
  let drmFrame := data0 frame in
  let a :=
    mkAttribList
      ([EGL_LINUX_DRM_FOURCC_EXT; layer_format (layerAt drmFrame 0);
        EGL_WIDTH; frame_width frame;
        EGL_HEIGHT; frame_height frame] ++ replicate (MAX_ATTRIB_COUNT - 6) 0)
      6 in
  let a := exportPlanes me drmFrame (Z.to_nat (nb_planes (layerAt drmFrame 0))) 0 a in
  (* Add colorspace metadata *)
  let cs := getFrameColorspace frame in
  let a :=
    if cs =? COLORSPACE_REC_601 then
      putAttrib EGL_ITU_REC601_EXT (putAttrib EGL_YUV_COLOR_SPACE_HINT_EXT a)
    else if cs =? COLORSPACE_REC_709 then
      putAttrib EGL_ITU_REC709_EXT (putAttrib EGL_YUV_COLOR_SPACE_HINT_EXT a)
    else if cs =? COLORSPACE_REC_2020 then
      putAttrib EGL_ITU_REC2020_EXT (putAttrib EGL_YUV_COLOR_SPACE_HINT_EXT a)
    else a in
  (* Add color range metadata *)
  let a := putAttrib EGL_SAMPLE_RANGE_HINT_EXT a in
  let a := putAttrib (if isFrameFullRange frame then EGL_YUV_FULL_RANGE_EXT
                      else EGL_YUV_NARROW_RANGE_EXT) a in
  (* Terminate the attribute list *)
  putAttrib EGL_NONE a.

Definition freeEGLImages (images : list Z) : M unit :=
  me <- this;;
  if m_eglDestroyImage me then eglDestroyImage false (nth 0 images 0)
  else eglDestroyImage true (nth 0 images 0).

(* the result is the return value together with the images[] array *)
Definition exportEGLImages (frame : AVFrame) : M (Z * list Z) :=
  me <- this;;
  let images := replicate EGL_MAX_PLANES 0 in
  let a := exportAttribs me frame in
  (* Our EGLImages are non-planar, so we only populate the first entry *)
  image <- (if m_eglCreateImage me then eglCreateImage false (attribs a)
            else eglCreateImage true (map to_i32 (attribs a)));;
  let images := <[0%nat := image]> images in
  if image =? 0 then
    SDL_Log LogError
      (if m_eglCreateImage me then "eglCreateImage() Failed: %d"
       else "eglCreateImageKHR() Failed: %d") [];;
    freeEGLImages images;;
    ret (-1, images)
  else ret (1, images).

End Renderer.

Arguments initialize {PDECODER_PARAMETERS} params.
Arguments fillOutputMetadata : simpl never.

(** ** The methods around the render path

    The pixel format queries, the capability negotiation and setup of the
    GPU image path, and the destructor. *)

Definition set_EGL (dmaBuf createImage createImageKHR destroyImage destroyImageKHR : bool)
    (r : DrmRenderer) : DrmRenderer :=
  {| m_BackendRenderer := m_BackendRenderer r; m_DrmFd := m_DrmFd r;
     m_SdlOwnsDrmFd := m_SdlOwnsDrmFd r;
     m_SupportsDirectRendering := m_SupportsDirectRendering r;
     m_Main10Hdr := m_Main10Hdr r; m_ConnectorId := m_ConnectorId r;
     m_EncoderId := m_EncoderId r; m_CrtcId := m_CrtcId r;
     m_PlaneId := m_PlaneId r; m_CurrentFbId := m_CurrentFbId r;
     m_LastFullRange := m_LastFullRange r;
     m_LastColorSpace := m_LastColorSpace r;
     m_ColorEncodingProp := m_ColorEncodingProp r;
     m_ColorRangeProp := m_ColorRangeProp r;
     m_HdrOutputMetadataProp := m_HdrOutputMetadataProp r;
     m_HdrOutputMetadataBlobId := m_HdrOutputMetadataBlobId r;
     m_OutputRect := m_OutputRect r; m_EGLExtDmaBuf := dmaBuf;
     m_eglCreateImage := createImage;
     m_eglCreateImageKHR := createImageKHR;
     m_eglDestroyImage := destroyImage;
     m_eglDestroyImageKHR := destroyImageKHR |}.

(* what the destructor hands back after its kernel calls, in this order:
   property descriptors (drmModeFreeProperty), the hardware context
   (av_buffer_unref) and the device handle (close) *)
Inductive Release :=
| RelFreeProperty (prop : drmModePropertyRes)
| RelBufferUnref
| RelClose (fd : Z).

Section Surroundings.

Variable env : Env.

(* The two queries of the backend renderer that are forwarded, as functions
   of their arguments; AV_PIX_FMT_DRM_PRIME of libavutil/pixfmt.h, whose
   number depends on the library version; the process environment read by
   qgetenv; EGLExtensions::isSupported, and whether eglGetProcAddress
   resolves a name. *)
Variable backend_getPreferredPixelFormat : Z -> Z.
Variable backend_isPixelFormatSupported : Z -> Z -> bool.
Variable AV_PIX_FMT_DRM_PRIME : Z.
Variable qgetenv : string -> string.
Variable ext_isSupported : string -> bool.
Variable eglGetProcAddress : string -> bool.

(** *** DrmRenderer::~DrmRenderer
    m_HwContext is not among the members of the record; whether it is set
    is the argument.  The kernel calls go to the trace, and what is released
    after them is the result. *)

Definition DrmRenderer_delete (hwContext : bool) : M (list Release) :=
  (* Ensure we're out of HDR mode *)
  setHdrMode env false;;
  me <- this;;
  when (negb (m_CurrentFbId me =? 0)) (drmModeRmFB (m_DrmFd me) (m_CurrentFbId me));;
  when (negb (m_HdrOutputMetadataBlobId me =? 0))
    (drmModeDestroyPropertyBlob (m_DrmFd me) (m_HdrOutputMetadataBlobId me));;
  ret ((match m_ColorEncodingProp me with Some p => [RelFreeProperty p] | None => [] end)
       ++ (match m_ColorRangeProp me with Some p => [RelFreeProperty p] | None => [] end)
       ++ (match m_HdrOutputMetadataProp me with Some p => [RelFreeProperty p] | None => [] end)
       ++ (if hwContext then [RelBufferUnref] else [])
       ++ (if negb (m_SdlOwnsDrmFd me) && negb (m_DrmFd me =? -1)
           then [RelClose (m_DrmFd me)] else [])).

(** *** DrmRenderer::getPreferredPixelFormat, isPixelFormatSupported,
        getEGLImagePixelFormat
    isPixelFormatSupported returns the preferred format as a bool: the
    enumerator is converted, zero to false and anything else to true. *)

Definition getPreferredPixelFormat (videoFormat : Z) : M Z :=
  me <- this;;
  (* DRM PRIME buffers, or whatever the backend renderer wants *)
  if m_BackendRenderer me then ret (backend_getPreferredPixelFormat videoFormat)
  else ret AV_PIX_FMT_DRM_PRIME.

Definition isPixelFormatSupported (videoFormat pixelFormat : Z) : M bool :=
  me <- this;;
  if m_BackendRenderer me then
    ret (backend_isPixelFormatSupported videoFormat pixelFormat)
  else
    preferred <- getPreferredPixelFormat videoFormat;;
    ret (negb (preferred =? 0)).

Definition getEGLImagePixelFormat : Z := AV_PIX_FMT_DRM_PRIME.

(** *** DrmRenderer::canExportEGL *)

Definition canExportEGL : M bool :=
  if String.eqb (qgetenv "DRM_FORCE_DIRECT") "1" then
    SDL_Log LogInfo "Using direct rendering due to environment variable" [];;
    ret false
  else if String.eqb (qgetenv "DRM_FORCE_EGL") "1" then
    SDL_Log LogInfo "Using EGL rendering due to environment variable" [];;
    ret true
  else
    me <- this;;
    if m_SupportsDirectRendering me && m_Main10Hdr me then
      SDL_Log LogInfo "Using direct rendering for HDR support" [];;
      ret false
    else
      SDL_Log LogInfo "DRM backend supports exporting EGLImage" [];;
      ret true.

(** *** DrmRenderer::initializeEGL *)

Definition initializeEGL : M bool :=
  if negb (ext_isSupported "EGL_EXT_image_dma_buf_import") then
    SDL_Log LogError "DRM-EGL: DMABUF unsupported" [];;
    ret false
  else
    modify (set_EGL (ext_isSupported "EGL_EXT_image_dma_buf_import_modifiers")
              (eglGetProcAddress "eglCreateImage")
              (eglGetProcAddress "eglCreateImageKHR")
              (eglGetProcAddress "eglDestroyImage")
              (eglGetProcAddress "eglDestroyImageKHR"));;
    me <- this;;
    if negb (m_eglCreateImage me && m_eglDestroyImage me)
       && negb (m_eglCreateImageKHR me && m_eglDestroyImageKHR me) then
      SDL_Log LogError "Missing eglCreateImage()/eglDestroyImage() in EGL driver" [];;
      ret false
    else ret true.

End Surroundings.

(* one render call per frame, in order *)
Fixpoint renderFrames (env : Env) (getFrameColorspace : AVFrame -> Z)
    (isFrameFullRange : AVFrame -> bool)
    (scaleSourceToDestinationSurface : SDL_Rect -> SDL_Rect -> SDL_Rect * SDL_Rect)
    (frames : list AVFrame) : M unit :=
  match frames with
  | [] => ret tt
  | frame :: frames' =>
      renderFrame env getFrameColorspace isFrameFullRange
        scaleSourceToDestinationSurface frame;;
      renderFrames env getFrameColorspace isFrameFullRange
        scaleSourceToDestinationSurface frames'
  end.

(** ** What a trace says about the device

    The kernel objects that exist after a trace, read off the calls in it:
    a successful creation adds the identifier the kernel stored, a
    destruction removes it, a successful commit changes what the plane
    shows. *)

Definition owned (id : Z) : list Z := if id =? 0 then [] else [id].

Definition removeId (id : Z) (live : list Z) : list Z :=
  List.filter (fun x => negb (x =? id)) live.

Definition fbStep (live : list Z) (e : Event) : list Z :=
  match e with
  | EvAddFB2WithModifiers _ _ _ _ _ _ _ _ _ (err, Some id) =>
      if err <? 0 then live else id :: live
  | EvRmFB _ id => removeId id live
  | _ => live
  end.

Definition liveFramebuffers (tr : list Event) : list Z := fold_left fbStep tr [].

Definition planeStep (shown : Z) (e : Event) : Z :=
  match e with
  | EvSetPlane _ _ _ fb _ _ _ _ _ _ _ _ _ err => if err <? 0 then shown else fb
  | _ => shown
  end.

Definition planeFramebuffer (tr : list Event) : Z := fold_left planeStep tr 0.

Definition blobStep (live : list Z) (e : Event) : list Z :=
  match e with
  | EvCreatePropertyBlob _ _ (err, Some id) => if err <? 0 then live else id :: live
  | EvDestroyPropertyBlob _ id => removeId id live
  | _ => live
  end.

Definition liveBlobs (tr : list Event) : list Z := fold_left blobStep tr [].

(* [live] is exactly what a renderer holding identifier [v] may have alive *)
Definition heldExactly (v : Z) (live : list Z) : bool :=
  match live with
  | [] => v =? 0
  | [x] => (x =? v) && negb (v =? 0)
  | _ => false
  end.

(* The blob discipline, checked along a trace that starts with [live] blobs
   alive: never more than one live blob, a blob is created only when none
   is alive, and the connector property is set to a value only when no
   other blob is alive. *)
Fixpoint hdrTraceOk (live : list Z) (evs : list Event) : bool :=
  (length live <=? 1)%nat &&
  match evs with
  | [] => true
  | e :: evs' =>
      match e with
      | EvCreatePropertyBlob _ _ _ =>
          match live with [] => true | _ => false end
      | EvObjectSetProperty _ _ ty _ v _ =>
          negb (ty =? DRM_MODE_OBJECT_CONNECTOR) || heldExactly v live
      | _ => true
      end && hdrTraceOk (blobStep live e) evs'
  end.

(* the events a call added to the trace *)
Definition emitted (before after : St) : list Event :=
  drop (length (trace before)) (trace after).

Definition countb (p : Event -> bool) (evs : list Event) : nat :=
  length (List.filter p evs).

(** Classes of events *)

Definition isMapOk (e : Event) : bool :=
  match e with EvMapDrmPrimeFrame _ (Some _) => true | _ => false end.
Definition isMap (e : Event) : bool :=
  match e with EvMapDrmPrimeFrame _ _ => true | _ => false end.
Definition isUnmap (e : Event) : bool :=
  match e with EvUnmapDrmPrimeFrame _ => true | _ => false end.
Definition isPrimeOk (e : Event) : bool :=
  match e with EvPrimeFDToHandle _ _ r => negb (fst r <? 0) | _ => false end.
Definition isAddFb (e : Event) : bool :=
  match e with EvAddFB2WithModifiers _ _ _ _ _ _ _ _ _ _ => true | _ => false end.
Definition isAddFbOk (e : Event) : bool :=
  match e with
  | EvAddFB2WithModifiers _ _ _ _ _ _ _ _ _ r => negb (fst r <? 0)
  | _ => false
  end.
Definition isAddFbFail (e : Event) : bool :=
  match e with
  | EvAddFB2WithModifiers _ _ _ _ _ _ _ _ _ r => fst r <? 0
  | _ => false
  end.
Definition isRmFb (e : Event) : bool :=
  match e with EvRmFB _ _ => true | _ => false end.
Definition isSetPlane (e : Event) : bool :=
  match e with EvSetPlane _ _ _ _ _ _ _ _ _ _ _ _ _ _ => true | _ => false end.
Definition isSetPlaneFail (e : Event) : bool :=
  match e with EvSetPlane _ _ _ _ _ _ _ _ _ _ _ _ _ err => err <? 0 | _ => false end.
Definition isSetProperty (e : Event) : bool :=
  match e with EvObjectSetProperty _ _ _ _ _ _ => true | _ => false end.
Definition isCreateBlob (e : Event) : bool :=
  match e with EvCreatePropertyBlob _ _ _ => true | _ => false end.
Definition isColorEvent (e : Event) : bool :=
  match e with
  | EvObjectSetProperty _ _ ty _ _ _ => ty =? DRM_MODE_OBJECT_PLANE
  | EvLog LogInfo _ _ | EvLog LogWarn _ _ | EvLog LogError _ _ => true
  | _ => false
  end.

(* every call of the trace that can fail did not: the mapping gave a
   descriptor, and handle resolution, framebuffer creation and plane commit
   returned no negative code (a property write may fail, that is not fatal) *)
Definition callOk (e : Event) : bool :=
  match e with
  | EvMapDrmPrimeFrame _ None => false
  | EvPrimeFDToHandle _ _ r => negb (fst r <? 0)
  | EvAddFB2WithModifiers _ _ _ _ _ _ _ _ _ r => negb (fst r <? 0)
  | EvSetPlane _ _ _ _ _ _ _ _ _ _ _ _ _ err => negb (err <? 0)
  | _ => true
  end.

(* the kernel's side of framebuffer creation: a successful call stores a
   nonzero identifier that is not in use *)
Definition freshFb (live : list Z) (e : Event) : bool :=
  match e with
  | EvAddFB2WithModifiers _ _ _ _ _ _ _ _ _ (err, out) =>
      (err <? 0) ||
      match out with
      | Some id => negb (id =? 0) && negb (existsb (Z.eqb id) live)
      | None => false
      end
  | _ => true
  end.

(* the kernel's side of blob creation: a successful call stores a nonzero
   identifier *)
Definition blobStored (e : Event) : bool :=
  match e with
  | EvCreatePropertyBlob _ _ (err, out) =>
      (err <? 0) || match out with Some id => negb (id =? 0) | None => false end
  | _ => true
  end.

(* the (object, property, value) triples written to plane properties, and
   the warnings logged *)
Definition planePropertyWrites (evs : list Event) : list (Z * Z * Z) :=
  flat_map (fun e =>
    match e with
    | EvObjectSetProperty _ obj ty prop v _ =>
        if ty =? DRM_MODE_OBJECT_PLANE then [(obj, prop, v)] else []
    | _ => []
    end) evs.

Definition warnings (evs : list Event) : list string :=
  flat_map (fun e =>
    match e with EvLog LogWarn fmt _ => [fmt] | _ => [] end) evs.

(* a session of HDR mode switches *)
Fixpoint setHdrModes (env : Env) (calls : list bool) : M unit :=
  match calls with
  | [] => ret tt
  | enabled :: calls' => setHdrMode env enabled;; setHdrModes env calls'
  end.

(** ** The vocabulary of the statements *)

(* the framebuffer identifier in m_CurrentFbId after a creation call *)
Definition storedFb (lastFbId : Z) (e : Event) : Z :=
  match e with
  | EvAddFB2WithModifiers _ _ _ _ _ _ _ _ _ r => storeOut lastFbId r
  | _ => lastFbId
  end.

(* what a frontend renderer adds to the trace around its use of the mapped
   descriptor [d]; a backend renderer maps and unmaps nothing *)
Definition mapEvents (me : DrmRenderer) (frame : AVFrame) (d : AVDRMFrameDescriptor)
    : list Event :=
  if m_BackendRenderer me then [EvMapDrmPrimeFrame frame (Some d)] else [].

Definition unmapEvents (me : DrmRenderer) (d : AVDRMFrameDescriptor) : list Event :=
  if m_BackendRenderer me then [EvUnmapDrmPrimeFrame d] else [].

(* the commit of framebuffer [fb]: at the destination rectangle, with the
   whole frame as source, in 16.16 fixed point *)
Definition commitEvent (me : DrmRenderer) (dst : SDL_Rect) (frame : AVFrame)
    (fb err : Z) : Event :=
  EvSetPlane (m_DrmFd me) (m_PlaneId me) (m_CrtcId me) fb 0
    (rect_x dst) (rect_y dst) (rect_w dst) (rect_h dst) 0 0
    (to_u32 (Z.shiftl (frame_width frame) 16))
    (to_u32 (Z.shiftl (frame_height frame) 16)) err.

(* a render call up to the framebuffer creation: the debug line, the
   mapping and the handle resolutions; and between creation and commit: the
   unmapping and the color blocks *)
Definition prelude (me : DrmRenderer) (frame : AVFrame) (d : AVDRMFrameDescriptor)
    (primes : list Event) : list Event :=
  [EvLog LogDebug "1" []] ++ mapEvents me frame d ++ primes.

Definition interlude (me : DrmRenderer) (d : AVDRMFrameDescriptor)
    (colors : list Event) : list Event :=
  unmapEvents me d ++ colors.

(* events that neither create, destroy nor commit a framebuffer *)
Definition isInert (e : Event) : bool :=
  negb (isAddFb e || isRmFb e || isSetPlane e).

(* events that write no plane property and log no warning *)
Definition isSilent (e : Event) : bool :=
  match e with
  | EvObjectSetProperty _ _ _ _ _ _ => false
  | EvLog LogWarn _ _ => false
  | _ => true
  end.

(* neither a mapping nor an unmapping *)
Definition isPlain (e : Event) : bool := negb (isMap e || isUnmap e).

(* exactly one mapping was asked for; there are as many unmappings as
   successful mappings; and a successful mapping is followed by the
   unmapping of the descriptor it gave, with no other unmapping around *)
Definition MapUnmapPaired (frame : AVFrame) (evs : list Event) : Prop :=
  countb isMap evs = 1%nat
  /\ countb isUnmap evs = countb isMapOk evs
  /\ forall d,
       In (EvMapDrmPrimeFrame frame (Some d)) evs ->
       exists pre mid post,
         evs = pre ++ EvMapDrmPrimeFrame frame (Some d) :: mid
               ++ EvUnmapDrmPrimeFrame d :: post
         /\ countb isUnmap pre = 0%nat
         /\ countb isUnmap mid = 0%nat
         /\ countb isUnmap post = 0%nat.

(* the device handle is bound when it is no longer the constructor's -1 *)
Definition deviceBound (r : DrmRenderer) : Prop := m_DrmFd r <> -1.

(* the modifier words of an object, as the casts to EGLint leave them *)
Definition modifierLo (o : AVDRMObjectDescriptor) : Z :=
  to_i32 (Z.land (format_modifier o) 0xFFFFFFFF).
Definition modifierHi (o : AVDRMObjectDescriptor) : Z :=
  to_i32 (Z.shiftr (format_modifier o) 32).

(* more classes of events *)
Definition isPrime (e : Event) : bool :=
  match e with EvPrimeFDToHandle _ _ _ => true | _ => false end.
Definition isPrimeFail (e : Event) : bool :=
  match e with EvPrimeFDToHandle _ _ r => fst r <? 0 | _ => false end.
Definition isDestroyBlob (e : Event) : bool :=
  match e with EvDestroyPropertyBlob _ _ => true | _ => false end.
Definition isCreateImage (e : Event) : bool :=
  match e with EvCreateImage _ _ _ => true | _ => false end.
Definition isDestroyImage (e : Event) : bool :=
  match e with EvDestroyImage _ _ => true | _ => false end.

(* the kernel hands out unused framebuffer identifiers all along a trace
   that starts with [live] framebuffers alive *)
Fixpoint fbTraceFresh (live : list Z) (evs : list Event) : bool :=
  match evs with
  | [] => true
  | e :: evs' => freshFb live e && fbTraceFresh (fbStep live e) evs'
  end.

(* never more than [n] framebuffers are alive along the trace *)
Fixpoint fbBounded (n : nat) (live : list Z) (evs : list Event) : bool :=
  (length live <=? n)%nat &&
  match evs with
  | [] => true
  | e :: evs' => fbBounded n (fbStep live e) evs'
  end.

(* the entry point an image call went through had been resolved *)
Definition entryPointResolved (r : DrmRenderer) (e : Event) : bool :=
  match e with
  | EvCreateImage khr _ _ => if khr then m_eglCreateImageKHR r else m_eglCreateImage r
  | EvDestroyImage khr _ => if khr then m_eglDestroyImageKHR r else m_eglDestroyImage r
  | _ => true
  end.

(* the handle in handles[i] after a lookup, and the descriptor's side of
   plane [i]: its DMA file descriptor, and whether its object has a
   modifier *)
Definition storedHandle (e : Event) : Z :=
  match e with EvPrimeFDToHandle _ _ r => storeOut 0 r | _ => 0 end.

Definition planeFd (d : AVDRMFrameDescriptor) (i : nat) : Z :=
  obj_fd (objectAt d (object_index (planeAt (layerAt d 0) i))).

Definition planeModifier (d : AVDRMFrameDescriptor) (i : nat) : Z :=
  format_modifier (objectAt d (object_index (planeAt (layerAt d 0) i))).

Definition hasModifier (d : AVDRMFrameDescriptor) (i : nat) : bool :=
  negb (planeModifier d i =? DRM_FORMAT_MOD_INVALID).

(* a four-slot array whose first slots hold [f 0 .. f (n-1)] *)
Definition filled (f : nat -> Z) (n : nat) : list Z :=
  map f (seq 0 n) ++ replicate (4 - n) 0.

(* events that leave the framebuffers and the plane alone: the inert ones
   and a failed creation *)
Definition isNeutral (e : Event) : bool := isInert e || isAddFbFail e.

(* the DMA file descriptor a lookup was made for *)
Definition lookedUp (e : Event) : Z :=
  match e with EvPrimeFDToHandle _ primeFd _ => primeFd | _ => 0 end.

(* the pitch and the offset of plane [i] as the 32-bit arrays hold them,
   and the flags after [n] planes *)
Definition planePitch (d : AVDRMFrameDescriptor) (i : nat) : Z :=
  to_u32 (plane_pitch (planeAt (layerAt d 0) i)).

Definition planeOffset (d : AVDRMFrameDescriptor) (i : nat) : Z :=
  to_u32 (plane_offset (planeAt (layerAt d 0) i)).

Definition flagsFor (d : AVDRMFrameDescriptor) (n : nat) : Z :=
  if existsb (hasModifier d) (seq 0 n) then DRM_MODE_FB_MODIFIERS else 0.

(* the arrays after the lookups [lookups] of the first planes *)
Definition ResolvedTo (d : AVDRMFrameDescriptor) (lookups : list Event) (a : FbArrays)
    : Prop :=
  fb_handles a = map storedHandle lookups ++ replicate (4 - length lookups) 0
  /\ fb_pitches a = filled (planePitch d) (length lookups)
  /\ fb_offsets a = filled (planeOffset d) (length lookups)
  /\ fb_modifiers a = filled (planeModifier d) (length lookups)
  /\ fb_flags a = flagsFor d (length lookups).

(* an attribute array of full length whose next free slot is at most [k]
   and whose slots from the next free one on are still zero *)
Definition AttribsWithin (k : nat) (a : AttribList) : Prop :=
  length (attribs a) = MAX_ATTRIB_COUNT
  /\ (attribIndex a <= k)%nat
  /\ forall j, (attribIndex a <= j)%nat -> nth j (attribs a) 0 = 0.

(* the renderer has one complete pair of image entry points *)
Definition hasImageEntryPoints (r : DrmRenderer) : bool :=
  (m_eglCreateImage r && m_eglDestroyImage r)
  || (m_eglCreateImageKHR r && m_eglDestroyImageKHR r).

(** ** Sample devices and frames *)

Module Sample.

(* an NV12 frame: one object, one layer, two planes *)
Definition nv12Descriptor : AVDRMFrameDescriptor :=
  mkDescriptor 1 [mkObject 7 3110400 0] 1
    [mkLayer 0x3231564e 2 [mkPlane 0 0 1920; mkPlane 0 2073600 1920]].

Definition frame709 : AVFrame := mkFrame 179 1920 1080 1 1 nv12Descriptor.
Definition frame2020 : AVFrame := mkFrame 179 1920 1080 9 1 nv12Descriptor.
Definition frame709full : AVFrame := mkFrame 179 1920 1080 1 2 nv12Descriptor.

(* the frame helpers of the application, on the AVFrame fields:
   AVCOL_SPC_BT709 = 1, AVCOL_SPC_SMPTE170M = 6, AVCOL_SPC_BT2020_NCL = 9,
   AVCOL_RANGE_JPEG = 2 *)
Definition colorspaceOf (frame : AVFrame) : Z :=
  if frame_colorspace frame =? 1 then COLORSPACE_REC_709
  else if frame_colorspace frame =? 6 then COLORSPACE_REC_601
  else if frame_colorspace frame =? 9 then COLORSPACE_REC_2020
  else 3.
Definition fullRangeOf (frame : AVFrame) : bool := frame_color_range frame =? 2.
Definition scale (src dst : SDL_Rect) : SDL_Rect * SDL_Rect := (src, dst).

(* a device on which everything works; new identifiers count the calls
   made so far, so they are never zero and never repeat *)
Definition freshId (h : list Event) : Z := Z.of_nat (S (length h)).

Definition goodEnv : Env :=
  {| env_mapDrmPrimeFrame := fun _ frame => Some (data0 frame);
     env_drmPrimeFDToHandle := fun _ _ primeFd => (0, Some (primeFd + 100));
     env_drmModeAddFB2WithModifiers :=
       fun h _ _ _ _ _ _ _ _ _ => (0, Some (freshId h));
     env_drmModeObjectSetProperty := fun _ _ _ _ _ _ => 0;
     env_drmModeSetPlane := fun _ _ _ _ _ _ _ _ _ _ _ _ _ _ => 0;
     env_LiGetHdrMetadata := fun _ => None;
     env_drmModeCreatePropertyBlob := fun h _ _ => (0, Some (freshId h));
     env_eglCreateImage := fun _ _ _ => 1 |}.

(* framebuffer creation fails *)
Definition noFbEnv : Env :=
  {| env_mapDrmPrimeFrame := env_mapDrmPrimeFrame goodEnv;
     env_drmPrimeFDToHandle := env_drmPrimeFDToHandle goodEnv;
     env_drmModeAddFB2WithModifiers := fun _ _ _ _ _ _ _ _ _ _ => (-22, None);
     env_drmModeObjectSetProperty := env_drmModeObjectSetProperty goodEnv;
     env_drmModeSetPlane := env_drmModeSetPlane goodEnv;
     env_LiGetHdrMetadata := env_LiGetHdrMetadata goodEnv;
     env_drmModeCreatePropertyBlob := env_drmModeCreatePropertyBlob goodEnv;
     env_eglCreateImage := env_eglCreateImage goodEnv |}.

(* the plane commit fails *)
Definition noCommitEnv : Env :=
  {| env_mapDrmPrimeFrame := env_mapDrmPrimeFrame goodEnv;
     env_drmPrimeFDToHandle := env_drmPrimeFDToHandle goodEnv;
     env_drmModeAddFB2WithModifiers := env_drmModeAddFB2WithModifiers goodEnv;
     env_drmModeObjectSetProperty := env_drmModeObjectSetProperty goodEnv;
     env_drmModeSetPlane := fun _ _ _ _ _ _ _ _ _ _ _ _ _ _ => -13;
     env_LiGetHdrMetadata := env_LiGetHdrMetadata goodEnv;
     env_drmModeCreatePropertyBlob := env_drmModeCreatePropertyBlob goodEnv;
     env_eglCreateImage := env_eglCreateImage goodEnv |}.

Definition colorRangeProp : drmModePropertyRes :=
  mkProp 40 "COLOR_RANGE"
    [mkEnum 0 "YCbCr limited range"; mkEnum 1 "YCbCr full range"].
Definition colorEncodingProp : drmModePropertyRes :=
  mkProp 41 "COLOR_ENCODING"
    [mkEnum 0 "ITU-R BT.601 YCbCr"; mkEnum 1 "ITU-R BT.709 YCbCr";
     mkEnum 2 "ITU-R BT.2020 YCbCr"].
Definition hdrProp : drmModePropertyRes := mkProp 42 "HDR_OUTPUT_METADATA" [].

(* a renderer as a full initialization would leave it, on a plane with or
   without the two color properties *)
Definition rendererOn (backend colorProps : bool) : DrmRenderer :=
  {| m_BackendRenderer := backend;
     m_DrmFd := 5;
     m_SdlOwnsDrmFd := false;
     m_SupportsDirectRendering := true;
     m_Main10Hdr := false;
     m_ConnectorId := 30;
     m_EncoderId := 31;
     m_CrtcId := 32;
     m_PlaneId := 33;
     m_CurrentFbId := 0;
     m_LastFullRange := false;
     m_LastColorSpace := -1;
     m_ColorEncodingProp := if colorProps then Some colorEncodingProp else None;
     m_ColorRangeProp := if colorProps then Some colorRangeProp else None;
     m_HdrOutputMetadataProp := Some hdrProp;
     m_HdrOutputMetadataBlobId := 0;
     m_OutputRect := mkRect 0 0 1920 1080;
     m_EGLExtDmaBuf := true;
     m_eglCreateImage := true;
     m_eglCreateImageKHR := false;
     m_eglDestroyImage := true;
     m_eglDestroyImageKHR := false |}.

Definition boundRenderer (backend : bool) : DrmRenderer := rendererOn backend true.

Definition start (backend : bool) : St := mkSt (boundRenderer backend) [].

(* the same on a plane that has neither COLOR_RANGE nor COLOR_ENCODING *)
Definition startPlain : St := mkSt (rendererOn false false) [].

(* a constructed renderer that was never bound to a device *)
Definition unbound (backend : bool) : St := mkSt (DrmRenderer_new backend) [].

(* the backend cannot map frames *)
Definition noMapEnv : Env :=
  {| env_mapDrmPrimeFrame := fun _ _ => None;
     env_drmPrimeFDToHandle := env_drmPrimeFDToHandle goodEnv;
     env_drmModeAddFB2WithModifiers := env_drmModeAddFB2WithModifiers goodEnv;
     env_drmModeObjectSetProperty := env_drmModeObjectSetProperty goodEnv;
     env_drmModeSetPlane := env_drmModeSetPlane goodEnv;
     env_LiGetHdrMetadata := env_LiGetHdrMetadata goodEnv;
     env_drmModeCreatePropertyBlob := env_drmModeCreatePropertyBlob goodEnv;
     env_eglCreateImage := env_eglCreateImage goodEnv |}.

(* the second handle lookup of a call fails: a lookup is refused when the
   last call before it was a lookup too *)
Definition noHandleEnv : Env :=
  {| env_mapDrmPrimeFrame := env_mapDrmPrimeFrame goodEnv;
     env_drmPrimeFDToHandle :=
       fun h _ primeFd =>
         match last h with
         | Some (EvPrimeFDToHandle _ _ _) => (-9, None)
         | _ => (0, Some (primeFd + 100))
         end;
     env_drmModeAddFB2WithModifiers := env_drmModeAddFB2WithModifiers goodEnv;
     env_drmModeObjectSetProperty := env_drmModeObjectSetProperty goodEnv;
     env_drmModeSetPlane := env_drmModeSetPlane goodEnv;
     env_LiGetHdrMetadata := env_LiGetHdrMetadata goodEnv;
     env_drmModeCreatePropertyBlob := env_drmModeCreatePropertyBlob goodEnv;
     env_eglCreateImage := env_eglCreateImage goodEnv |}.

(* a driver that has the two extensions and only the KHR entry points, and
   a process environment with no variable set *)
Definition khrDriver (name : string) : bool :=
  String.eqb name "eglCreateImageKHR" || String.eqb name "eglDestroyImageKHR".
Definition allExtensions (name : string) : bool := true.
Definition emptyEnvironment (name : string) : string := EmptyString.

(* a frame with AVCOL_SPC_UNSPECIFIED (2) *)
Definition frameUnspecified : AVFrame := mkFrame 179 1920 1080 2 1 nv12Descriptor.

End Sample.

(** ** Verification

    Everything below holds for any environment and for any frame helpers
    of the application. *)

Section Verification.

Variable env : Env.
Variable getFrameColorspace : AVFrame -> Z.
Variable isFrameFullRange : AVFrame -> bool.
Variable scaleSourceToDestinationSurface : SDL_Rect -> SDL_Rect -> SDL_Rect * SDL_Rect.

Local Abbreviation render :=
  (renderFrame env getFrameColorspace isFrameFullRange scaleSourceToDestinationSurface).
Local Abbreviation colorRange := (updateColorRange env getFrameColorspace isFrameFullRange).
Local Abbreviation colorEncoding := (updateColorEncoding env getFrameColorspace).

(* the conditions of the two color blocks, on the cached color state *)
Definition rangeChanged (me : DrmRenderer) (frame : AVFrame) : bool :=
  negb (Bool.eqb (isFrameFullRange frame) (m_LastFullRange me))
  || negb (getFrameColorspace frame =? m_LastColorSpace me).

Definition colorspaceChanged (me : DrmRenderer) (frame : AVFrame) : bool :=
  negb (getFrameColorspace frame =? m_LastColorSpace me).

Definition rangeName (frame : AVFrame) : string :=
  if isFrameFullRange frame then "YCbCr full range" else "YCbCr limited range".

(* the write a range evaluation makes: the value of the enum entry named
   like the range string, if the property and such an entry exist *)
Definition rangeWrite (me : DrmRenderer) (frame : AVFrame) : list (Z * Z * Z) :=
  match m_ColorRangeProp me with
  | Some prop =>
      match findEnum (rangeName frame) (enums prop) with
      | Some e => [(m_PlaneId me, prop_id prop, enum_value e)]
      | None => []
      end
  | None => []
  end.

Definition rangeWarning (me : DrmRenderer) (frame : AVFrame) : list string :=
  match m_ColorRangeProp me with
  | Some prop =>
      match findEnum (rangeName frame) (enums prop) with
      | Some _ => []
      | None =>
          ["Unable to find matching COLOR_RANGE value for '%s'. Colors may be inaccurate!"]
      end
  | None =>
      ["COLOR_RANGE property does not exist on output plane. Colors may be inaccurate!"]
  end.

Definition encodingWrite (me : DrmRenderer) (frame : AVFrame) : list (Z * Z * Z) :=
  match m_ColorEncodingProp me, getDrmColorEncodingValue getFrameColorspace frame with
  | Some prop, Some desired =>
      match findEnum desired (enums prop) with
      | Some e => [(m_PlaneId me, prop_id prop, enum_value e)]
      | None => []
      end
  | _, _ => []
  end.

Definition encodingWarning (me : DrmRenderer) (frame : AVFrame) : list string :=
  match m_ColorEncodingProp me, getDrmColorEncodingValue getFrameColorspace frame with
  | Some prop, Some desired =>
      match findEnum desired (enums prop) with
      | Some _ => []
      | None =>
          ["Unable to find matching COLOR_ENCODING value for '%s'. Colors may be inaccurate!"]
      end
  | None, Some _ =>
      ["COLOR_ENCODING property does not exist on output plane. Colors may be inaccurate!"]
  | _, None => []
  end.

(* the destination rectangle of the commit: the output rectangle as the
   scaling helper leaves it for a source of the frame's size *)
Definition destination (me : DrmRenderer) (frame : AVFrame) : SDL_Rect :=
  snd (scaleSourceToDestinationSurface
         (mkRect 0 0 (frame_width frame) (frame_height frame)) (m_OutputRect me)).

(* the renderer once both color blocks have run *)
Definition afterColor (frame : AVFrame) (me : DrmRenderer) : DrmRenderer :=
  set_LastColorSpace (getFrameColorspace frame)
    (set_LastFullRange (isFrameFullRange frame) me).

(* what the two color blocks add to the trace *)
Definition ColorEvents (me : DrmRenderer) (frame : AVFrame) (evs : list Event) : Prop :=
  forallb isColorEvent evs = true
  /\ planePropertyWrites evs
     = (if rangeChanged me frame then rangeWrite me frame else [])
       ++ (if colorspaceChanged me frame then encodingWrite me frame else [])
  /\ warnings evs
     = (if rangeChanged me frame then rangeWarning me frame else [])
       ++ (if colorspaceChanged me frame then encodingWarning me frame else []).

(** The five ways a render call can go, with the renderer and the trace
    each one leaves behind. *)
Inductive RenderRun (st : St) (frame : AVFrame) : St -> Prop :=
| RunMapFailed :
    m_BackendRenderer (self st) = true ->
    RenderRun st frame
      (mkSt (self st)
         (trace st ++ [EvLog LogDebug "1" []; EvMapDrmPrimeFrame frame None]))
| RunResolveFailed (d : AVDRMFrameDescriptor) (primes : list Event) (fd pfd : Z)
    (r : OutResult) :
    forallb isPrimeOk primes = true ->
    (fst r <? 0) = true ->
    RenderRun st frame
      (mkSt (self st)
         (trace st ++ prelude (self st) frame d primes
          ++ [EvPrimeFDToHandle fd pfd r;
              EvLog LogError "drmPrimeFDToHandle() failed: %d" []]
          ++ unmapEvents (self st) d))
| RunCreateFailed (d : AVDRMFrameDescriptor) (primes : list Event) (addfb : Event) :
    forallb isPrimeOk primes = true ->
    isAddFbFail addfb = true ->
    RenderRun st frame
      (mkSt (self st)
         (trace st ++ prelude (self st) frame d primes ++ [addfb]
          ++ unmapEvents (self st) d
          ++ [EvLog LogError "drmModeAddFB2WithModifiers() failed: %d" []]))
| RunCommitFailed (d : AVDRMFrameDescriptor) (primes : list Event) (addfb : Event)
    (colors : list Event) (err : Z) :
    forallb isPrimeOk primes = true ->
    isAddFbOk addfb = true ->
    ColorEvents (self st) frame colors ->
    (err <? 0) = true ->
    RenderRun st frame
      (mkSt (afterColor frame (self st))
         (trace st ++ prelude (self st) frame d primes ++ [addfb]
          ++ interlude (self st) d colors
          ++ [commitEvent (self st) (destination (self st) frame) frame
                (storedFb (m_CurrentFbId (self st)) addfb) err;
              EvLog LogError "drmModeSetPlane() failed: %d" [];
              EvRmFB (m_DrmFd (self st)) (storedFb (m_CurrentFbId (self st)) addfb)]))
| RunCommitted (d : AVDRMFrameDescriptor) (primes : list Event) (addfb : Event)
    (colors : list Event) (err : Z) :
    forallb isPrimeOk primes = true ->
    isAddFbOk addfb = true ->
    ColorEvents (self st) frame colors ->
    (err <? 0) = false ->
    RenderRun st frame
      (mkSt (set_CurrentFbId (storedFb (m_CurrentFbId (self st)) addfb)
               (afterColor frame (self st)))
         (trace st ++ prelude (self st) frame d primes ++ [addfb]
          ++ interlude (self st) d colors
          ++ [commitEvent (self st) (destination (self st) frame) frame
                (storedFb (m_CurrentFbId (self st)) addfb) err;
              EvRmFB (m_DrmFd (self st)) (m_CurrentFbId (self st))])).

(* the descriptor a render call works on: the backend's mapping of the
   frame, or the one the frame carries *)
Definition descriptorOf (st : St) (frame : AVFrame) : option AVDRMFrameDescriptor :=
  if m_BackendRenderer (self st) then
    env_mapDrmPrimeFrame env (trace st ++ [EvLog LogDebug "1" []]) frame
  else Some (data0 frame).

(** ** Facts about traces and records *)

Lemma emitted_app (st st' : St) (evs : list Event) :
  trace st' = trace st ++ evs -> emitted st st' = evs.
Proof.
  intros E. unfold emitted. rewrite E. apply drop_app_length.
Qed.

Lemma countb_app (p : Event -> bool) (a b : list Event) :
  countb p (a ++ b) = (countb p a + countb p b)%nat.
Proof.
  unfold countb. rewrite List.filter_app. apply length_app.
Qed.

Lemma countb_none (p q : Event -> bool) (evs : list Event) :
  (forall e, p e = true -> q e = false) ->
  forallb p evs = true -> countb q evs = 0%nat.
Proof.
  intros Hpq. unfold countb.
  induction evs as [|e evs IH]; simpl; intros H; [reflexivity|].
  apply andb_true_iff in H as [He Hevs].
  rewrite (Hpq e He). auto.
Qed.

Lemma liveFramebuffers_app (a b : list Event) :
  liveFramebuffers (a ++ b) = fold_left fbStep b (liveFramebuffers a).
Proof. unfold liveFramebuffers. apply fold_left_app. Qed.

Lemma planeFramebuffer_app (a b : list Event) :
  planeFramebuffer (a ++ b) = fold_left planeStep b (planeFramebuffer a).
Proof. unfold planeFramebuffer. apply fold_left_app. Qed.

Lemma liveBlobs_app (a b : list Event) :
  liveBlobs (a ++ b) = fold_left blobStep b (liveBlobs a).
Proof. unfold liveBlobs. apply fold_left_app. Qed.

Lemma fold_left_unchanged {S : Type} (step : S -> Event -> S) (p : Event -> bool)
    (evs : list Event) (s : S) :
  (forall s e, p e = true -> step s e = s) ->
  forallb p evs = true -> fold_left step evs s = s.
Proof.
  intros Hp. induction evs as [|e evs IH]; simpl; intros H; [reflexivity|].
  apply andb_true_iff in H as [He Hevs].
  rewrite (Hp s e He). auto.
Qed.

Lemma hdrTraceOk_app (live : list Z) (a b : list Event) :
  hdrTraceOk live (a ++ b)
  = hdrTraceOk live a && hdrTraceOk (fold_left blobStep a live) b.
Proof.
  revert live. induction a as [|e a IH]; intros live.
  - simpl. destruct b; simpl; destruct (length live <=? 1)%nat; reflexivity.
  - simpl. rewrite IH. rewrite <- !andb_assoc. reflexivity.
Qed.

Lemma removeId_absent (id : Z) (live : list Z) :
  existsb (Z.eqb id) live = false -> removeId id live = live.
Proof.
  unfold removeId. induction live as [|x live IH]; simpl; intros H; [reflexivity|].
  apply orb_false_iff in H as [Hx Hl].
  rewrite Z.eqb_sym, Hx. simpl. f_equal. auto.
Qed.

Lemma set_CurrentFbId_same (r : DrmRenderer) :
  set_CurrentFbId (m_CurrentFbId r) r = r.
Proof. destruct r; reflexivity. Qed.

Lemma set_CurrentFbId_twice (v w : Z) (r : DrmRenderer) :
  set_CurrentFbId v (set_CurrentFbId w r) = set_CurrentFbId v r.
Proof. destruct r; reflexivity. Qed.

Lemma set_HdrOutputMetadataBlobId_same (r : DrmRenderer) :
  set_HdrOutputMetadataBlobId (m_HdrOutputMetadataBlobId r) r = r.
Proof. destruct r; reflexivity. Qed.

Lemma set_HdrOutputMetadataBlobId_twice (v w : Z) (r : DrmRenderer) :
  set_HdrOutputMetadataBlobId v (set_HdrOutputMetadataBlobId w r)
  = set_HdrOutputMetadataBlobId v r.
Proof. destruct r; reflexivity. Qed.

Lemma set_HdrOutputMetadataBlobId_trans (r0 r1 r2 : DrmRenderer) :
  r1 = set_HdrOutputMetadataBlobId (m_HdrOutputMetadataBlobId r1) r0 ->
  r2 = set_HdrOutputMetadataBlobId (m_HdrOutputMetadataBlobId r2) r1 ->
  r2 = set_HdrOutputMetadataBlobId (m_HdrOutputMetadataBlobId r2) r0.
Proof.
  intros H1 H2. etransitivity; [exact H2|].
  rewrite H1. apply set_HdrOutputMetadataBlobId_twice.
Qed.

Lemma St_eta (st : St) : mkSt (self st) (trace st) = st.
Proof. destruct st; reflexivity. Qed.

(* unfold the monad and the recorded calls *)
Ltac unfold_calls :=
  unfold drmModeObjectSetProperty, drmModeCreatePropertyBlob,
    drmModeDestroyPropertyBlob, LiGetHdrMetadata, drmModeSetPlane, drmModeRmFB,
    drmModeAddFB2WithModifiers, drmPrimeFDToHandle, mapDrmPrimeFrame,
    unmapDrmPrimeFrame, eglCreateImage, eglDestroyImage, SDL_Log, when,
    bind, ret, this, modify, history, emit.

(** ** HDR metadata *)

(* one call on a device that has the property: only the blob identifier
   changes, and the calls made keep the blob discipline *)
Lemma setHdrMode_present (st : St) (enabled : bool) (prop : drmModePropertyRes) :
  m_HdrOutputMetadataProp (self st) = Some prop ->
  let st' := snd (setHdrMode env enabled st) in
  exists evs,
    trace st' = trace st ++ evs
    /\ self st' = set_HdrOutputMetadataBlobId (m_HdrOutputMetadataBlobId (self st')) (self st)
    /\ (forall live,
          heldExactly (m_HdrOutputMetadataBlobId (self st)) live = true ->
          forallb blobStored evs = true ->
          hdrTraceOk live evs = true
          /\ heldExactly (m_HdrOutputMetadataBlobId (self st'))
                         (fold_left blobStep evs live) = true)
    /\ (enabled = false ->
        m_HdrOutputMetadataBlobId (self st') = 0 /\
        exists pre err l,
          evs = pre ++ [EvObjectSetProperty (m_DrmFd (self st)) (m_ConnectorId (self st))
                          DRM_MODE_OBJECT_CONNECTOR (prop_id prop) 0 err; l]).
Proof.
  intros Hprop. unfold setHdrMode. unfold_calls. cbn -[fillOutputMetadata]. rewrite Hprop.
  destruct (m_HdrOutputMetadataBlobId (self st) =? 0) eqn:Hid; simpl;
    destruct enabled; simpl;
    repeat match goal with
      | |- context [env_drmModeCreatePropertyBlob env ?h ?fd ?md] =>
          destruct (env_drmModeCreatePropertyBlob env h fd md) as [err [id|]]; simpl
      | |- context [if ?err <? 0 then _ else _] =>
          destruct (err <? 0) eqn:Herr; simpl
      | |- context [env_drmModeObjectSetProperty env ?h ?a ?b ?c ?d ?e =? 0] =>
          destruct (env_drmModeObjectSetProperty env h a b c d e =? 0); simpl
      end;
    (eexists; split; [rewrite <- ?app_assoc; simpl; reflexivity|]);
    (split; [destruct (self st); reflexivity|]);
    (split;
     [ intros live Hheld Hst;
       destruct live as [|x [|y live]]; simpl in Hheld; try discriminate;
       rewrite ?Hid in Hheld; simpl in Hheld;
       rewrite ?andb_false_r in Hheld; try discriminate;
       try (apply andb_true_iff in Hheld as [Hx _]);
       simpl in Hst; rewrite ?Herr in Hst; simpl in Hst;
       rewrite ?andb_true_r in Hst; try discriminate;
       simpl; rewrite ?Hx; simpl; rewrite ?Herr; unfold storeOut; simpl;
       rewrite ?Hid, ?Z.eqb_refl; try rewrite Hst; simpl; auto
     | intros He;
       first [ discriminate He
             | split; [first [reflexivity | apply Z.eqb_eq; exact Hid]|];
               first [ eexists [], _, _; reflexivity
                     | eexists [_], _, _; reflexivity ] ] ]).
Qed.

Lemma snd_bind_unit {B : Type} (m : M unit) (k : M B) (st : St) :
  snd (bind m (fun _ => k) st) = snd (k (snd (m st))).
Proof. unfold bind. destruct (m st) as [u st1]. reflexivity. Qed.

Lemma setHdrModes_snoc (calls : list bool) (enabled : bool) (st : St) :
  snd (setHdrModes env (calls ++ [enabled]) st)
  = snd (setHdrMode env enabled (snd (setHdrModes env calls st))).
Proof.
  revert st. induction calls as [|c calls IH]; intros st; simpl.
  - rewrite snd_bind_unit. reflexivity.
  - rewrite !snd_bind_unit. apply IH.
Qed.

(* a session keeps the discipline, by induction on the calls *)
Lemma setHdrModes_present (calls : list bool) :
  forall (st : St) (prop : drmModePropertyRes),
    m_HdrOutputMetadataProp (self st) = Some prop ->
    let st' := snd (setHdrModes env calls st) in
    exists evs,
      trace st' = trace st ++ evs
      /\ self st' = set_HdrOutputMetadataBlobId (m_HdrOutputMetadataBlobId (self st')) (self st)
      /\ (forall live,
            heldExactly (m_HdrOutputMetadataBlobId (self st)) live = true ->
            forallb blobStored evs = true ->
            hdrTraceOk live evs = true
            /\ heldExactly (m_HdrOutputMetadataBlobId (self st'))
                           (fold_left blobStep evs live) = true).
Proof.
  induction calls as [|c calls IH]; intros st prop Hprop; simpl.
  - exists []. rewrite app_nil_r. split; [reflexivity|].
    split; [symmetry; apply set_HdrOutputMetadataBlobId_same|].
    intros live Hheld _. simpl. split; [|exact Hheld].
    destruct live as [|x [|y live]]; simpl in *; auto; discriminate.
  - rewrite snd_bind_unit.
    destruct (setHdrMode_present st c prop Hprop) as (evs1 & Ht1 & Hs1 & Hd1 & _).
    set (st1 := snd (setHdrMode env c st)) in *.
    assert (Hprop1 : m_HdrOutputMetadataProp (self st1) = Some prop).
    { rewrite Hs1. exact Hprop. }
    destruct (IH st1 prop Hprop1) as (evs2 & Ht2 & Hs2 & Hd2).
    exists (evs1 ++ evs2). split; [rewrite Ht2, Ht1, app_assoc; reflexivity|].
    split.
    + exact (set_HdrOutputMetadataBlobId_trans _ _ _ Hs1 Hs2).
    + intros live Hheld Hst. rewrite forallb_app in Hst.
      apply andb_true_iff in Hst as [Hst1 Hst2].
      destruct (Hd1 live Hheld Hst1) as [Hok1 Hheld1].
      destruct (Hd2 _ Hheld1 Hst2) as [Hok2 Hheld2].
      rewrite hdrTraceOk_app, fold_left_app, Hok1, Hok2. auto.
Qed.

(** C4: on a device with the HDR metadata property, along every
    sequence of setHdrMode calls the existing blob is destroyed before a
    new one is created or a value is applied, so that at most one blob is
    alive at any point of the trace and the renderer holds exactly the
    live one afterwards; a sequence that ends with a disabling call ends
    by setting the connector property to zero and holds no blob, whatever
    was held before. *)
Theorem setHdrMode_blob_discipline (st : St) (calls : list bool)
    (prop : drmModePropertyRes) :
  m_HdrOutputMetadataProp (self st) = Some prop ->
  heldExactly (m_HdrOutputMetadataBlobId (self st)) (liveBlobs (trace st)) = true ->
  let st' := snd (setHdrModes env calls st) in
  forallb blobStored (emitted st st') = true ->
  hdrTraceOk (liveBlobs (trace st)) (emitted st st') = true
  /\ heldExactly (m_HdrOutputMetadataBlobId (self st')) (liveBlobs (trace st')) = true
  /\ (forall calls0, calls = calls0 ++ [false] ->
      m_HdrOutputMetadataBlobId (self st') = 0
      /\ exists pre err l,
           emitted st st'
           = pre ++ [EvObjectSetProperty (m_DrmFd (self st)) (m_ConnectorId (self st))
                       DRM_MODE_OBJECT_CONNECTOR (prop_id prop) 0 err; l]).
Proof.
  intros Hprop Hheld st' Hst.
  destruct (setHdrModes_present calls st prop Hprop) as (evs & Ht & Hs & Hd).
  fold st' in Ht, Hs, Hd.
  rewrite (emitted_app _ _ _ Ht) in *.
  destruct (Hd _ Hheld Hst) as [Hok Hheld'].
  split; [exact Hok|]. split.
  - rewrite Ht, liveBlobs_app. exact Hheld'.
  - intros calls0 ->.
    destruct (setHdrModes_present calls0 st prop Hprop) as (evs0 & Ht0 & Hs0 & _).
    set (st0 := snd (setHdrModes env calls0 st)) in *.
    assert (Hprop0 : m_HdrOutputMetadataProp (self st0) = Some prop).
    { rewrite Hs0. exact Hprop. }
    destruct (setHdrMode_present st0 false prop Hprop0) as (evs1 & Ht1 & _ & _ & Hoff).
    destruct (Hoff eq_refl) as (Hzero & pre & err & l & Hevs1).
    unfold st' in *. rewrite setHdrModes_snoc in *. fold st0 in Ht, Hzero |- *.
    split; [exact Hzero|].
    rewrite Ht1, Ht0, <- app_assoc in Ht. apply app_inv_head in Ht. subst evs.
    exists (evs0 ++ pre), err, l. rewrite Hevs1, <- app_assoc.
    rewrite Hs0. reflexivity.
Qed.

(** C9: without the HDR metadata property, setHdrMode(true) does nothing
    but log one warning (no blob is created and no property is written,
    the renderer is unchanged and the call returns), and setHdrMode(false)
    changes neither the renderer nor the trace. *)
Theorem setHdrMode_without_property (st : St) :
  m_HdrOutputMetadataProp (self st) = None ->
  setHdrMode env true st
  = (tt, mkSt (self st)
           (trace st ++
            [EvLog LogWarn
               "HDR_OUTPUT_METADATA is unavailable on this display. Unable to enter HDR mode!"
               []]))
  /\ setHdrMode env false st = (tt, st).
Proof.
  intros Hprop. unfold setHdrMode. unfold_calls. simpl. rewrite Hprop. simpl.
  split; [reflexivity|]. destruct st; reflexivity.
Qed.


(** ** Initialization *)

(** C5 (as the code has it): initialize reports on every input that this
    presentation path is unavailable, and leaves the renderer and the trace
    as they were: it binds no device handle and no identifier and looks up
    no property. *)
Theorem initialize_reports_unavailable {PDECODER_PARAMETERS : Type}
    (params : PDECODER_PARAMETERS) (st : St) :
  initialize params st = (false, st).
Proof. reflexivity. Qed.

(** C5, the claim refuted: after initialize on a newly constructed renderer
    the device handle is not bound, the connector, encoder, CRTC and plane
    identifiers are still zero, no property descriptor is held, and the
    result is false. *)
Lemma initialize_binds_nothing :
  let r := initialize tt (Sample.unbound false) in
  fst r = false
  /\ ~ deviceBound (self (snd r))
  /\ m_ConnectorId (self (snd r)) = 0
  /\ m_EncoderId (self (snd r)) = 0
  /\ m_CrtcId (self (snd r)) = 0
  /\ m_PlaneId (self (snd r)) = 0
  /\ m_ColorEncodingProp (self (snd r)) = None
  /\ m_ColorRangeProp (self (snd r)) = None
  /\ m_HdrOutputMetadataProp (self (snd r)) = None.
Proof.
  simpl. repeat split; try reflexivity.
  unfold deviceBound. simpl. intros H. apply H. reflexivity.
Qed.

(** ** The GPU image export path *)

(** C7: for a single-layer frame with two planes whose objects carry
    valid modifiers, the attributes written by exportEGLImages are, in
    order: the format, the width and the height, then for plane 0 and for
    plane 1 the file descriptor, offset and pitch, each followed by the
    two modifier words exactly when the modifier extension is available,
    then the colorspace hint when the colorspace is BT.601, BT.709 or
    BT.2020, then the range hint, then EGL_NONE; the rest of the array is
    zero, and this array is what eglCreateImage receives. *)
Theorem exportEGLImages_two_plane_attributes (st : St) (frame : AVFrame) :
  let me := self st in
  let d := data0 frame in
  let layer := layerAt d 0 in
  let p0 := planeAt layer 0 in
  let p1 := planeAt layer 1 in
  let o0 := objectAt d (object_index p0) in
  let o1 := objectAt d (object_index p1) in
  nb_layers d = 1 ->
  nb_planes layer = 2 ->
  format_modifier o0 <> DRM_FORMAT_MOD_INVALID ->
  format_modifier o1 <> DRM_FORMAT_MOD_INVALID ->
  let a := exportAttribs getFrameColorspace isFrameFullRange me frame in
  let built :=
    [EGL_LINUX_DRM_FOURCC_EXT; layer_format layer;
     EGL_WIDTH; frame_width frame;
     EGL_HEIGHT; frame_height frame]
    ++ [EGL_DMA_BUF_PLANE0_FD_EXT; obj_fd o0;
        EGL_DMA_BUF_PLANE0_OFFSET_EXT; plane_offset p0;
        EGL_DMA_BUF_PLANE0_PITCH_EXT; plane_pitch p0]
    ++ (if m_EGLExtDmaBuf me then
          [EGL_DMA_BUF_PLANE0_MODIFIER_LO_EXT; modifierLo o0;
           EGL_DMA_BUF_PLANE0_MODIFIER_HI_EXT; modifierHi o0]
        else [])
    ++ [EGL_DMA_BUF_PLANE1_FD_EXT; obj_fd o1;
        EGL_DMA_BUF_PLANE1_OFFSET_EXT; plane_offset p1;
        EGL_DMA_BUF_PLANE1_PITCH_EXT; plane_pitch p1]
    ++ (if m_EGLExtDmaBuf me then
          [EGL_DMA_BUF_PLANE1_MODIFIER_LO_EXT; modifierLo o1;
           EGL_DMA_BUF_PLANE1_MODIFIER_HI_EXT; modifierHi o1]
        else [])
    ++ (if getFrameColorspace frame =? COLORSPACE_REC_601 then
          [EGL_YUV_COLOR_SPACE_HINT_EXT; EGL_ITU_REC601_EXT]
        else if getFrameColorspace frame =? COLORSPACE_REC_709 then
          [EGL_YUV_COLOR_SPACE_HINT_EXT; EGL_ITU_REC709_EXT]
        else if getFrameColorspace frame =? COLORSPACE_REC_2020 then
          [EGL_YUV_COLOR_SPACE_HINT_EXT; EGL_ITU_REC2020_EXT]
        else [])
    ++ [EGL_SAMPLE_RANGE_HINT_EXT;
        if isFrameFullRange frame then EGL_YUV_FULL_RANGE_EXT
        else EGL_YUV_NARROW_RANGE_EXT]
    ++ [EGL_NONE] in
  attribIndex a = length built
  /\ take (attribIndex a) (attribs a) = built
  /\ attribs a = built ++ replicate (MAX_ATTRIB_COUNT - length built) 0
  /\ (m_eglCreateImage me = true ->
      exists image rest,
        emitted st (snd (exportEGLImages env getFrameColorspace isFrameFullRange frame st))
        = EvCreateImage false (attribs a) image :: rest).
Proof.
  intros me d layer p0 p1 o0 o1 _ Hplanes Hm0 Hm1 a built.
  assert (Ha : attribIndex a = length built
               /\ attribs a = built ++ replicate (MAX_ATTRIB_COUNT - length built) 0).
  { subst a built o0 o1 p0 p1 layer d. unfold exportAttribs. rewrite Hplanes.
    change (Z.to_nat 2) with 2%nat. cbn [exportPlanes].
    unfold putPlane.
    apply Z.eqb_neq in Hm0, Hm1. rewrite Hm0, Hm1.
    unfold modifierLo, modifierHi.
    destruct (m_EGLExtDmaBuf me); cbn [andb negb];
      repeat match goal with
        | |- context [if getFrameColorspace frame =? ?k then _ else _] =>
            destruct (getFrameColorspace frame =? k)
        end;
      split; reflexivity. }
  destruct Ha as [Hidx Harr].
  split; [exact Hidx|]. split.
  - rewrite Hidx, Harr. apply take_app_length.
  - split; [exact Harr|].
    intros Hci. subst me. unfold exportEGLImages, freeEGLImages. unfold_calls.
    cbn [self trace]. rewrite Hci. fold a. clearbody a.
    destruct (env_eglCreateImage env (trace st) false (attribs a) =? 0);
      cbn -[emitted];
      [destruct (m_eglDestroyImage (self st))|];
      eexists _, _; apply emitted_app; simpl;
      rewrite <- ?app_assoc; reflexivity.
Qed.


(** ** The render path *)

Lemma forallb_impl (p q : Event -> bool) (evs : list Event) :
  (forall e, p e = true -> q e = true) ->
  forallb p evs = true -> forallb q evs = true.
Proof.
  intros Hpq. induction evs as [|e evs IH]; simpl; intros H; [reflexivity|].
  apply andb_true_iff in H as [He Hevs]. rewrite (Hpq e He). auto.
Qed.

Lemma existsb_none (p q : Event -> bool) (evs : list Event) :
  (forall e, p e = true -> q e = false) ->
  forallb p evs = true -> existsb q evs = false.
Proof.
  intros Hpq. induction evs as [|e evs IH]; simpl; intros H; [reflexivity|].
  apply andb_true_iff in H as [He Hevs]. rewrite (Hpq e He). auto.
Qed.

Lemma flat_map_none {B : Type} (p : Event -> bool) (f : Event -> list B)
    (evs : list Event) :
  (forall e, p e = true -> f e = []) ->
  forallb p evs = true -> flat_map f evs = [].
Proof.
  intros Hp. induction evs as [|e evs IH]; simpl; intros H; [reflexivity|].
  apply andb_true_iff in H as [He Hevs]. rewrite (Hp e He). auto.
Qed.

Lemma set_LastFullRange_same (r : DrmRenderer) :
  set_LastFullRange (m_LastFullRange r) r = r.
Proof. destruct r; reflexivity. Qed.

Lemma set_LastColorSpace_same (r : DrmRenderer) :
  set_LastColorSpace (m_LastColorSpace r) r = r.
Proof. destruct r; reflexivity. Qed.

(** *** The two color blocks *)

Lemma updateColorRange_run (frame : AVFrame) (st : St) :
  let st' := snd (colorRange frame st) in
  exists evs,
    trace st' = trace st ++ evs
    /\ self st' = set_LastFullRange (isFrameFullRange frame) (self st)
    /\ forallb isColorEvent evs = true
    /\ planePropertyWrites evs
       = (if rangeChanged (self st) frame then rangeWrite (self st) frame else [])
    /\ warnings evs
       = (if rangeChanged (self st) frame then rangeWarning (self st) frame else []).
Proof.
  unfold updateColorRange, rangeChanged, rangeWrite, rangeWarning,
    getDrmColorRangeValue. fold (rangeName frame). unfold_calls. cbn [self trace].
  destruct (negb (Bool.eqb (isFrameFullRange frame) (m_LastFullRange (self st)))
            || negb (getFrameColorspace frame =? m_LastColorSpace (self st))) eqn:Hg.
  - destruct (m_ColorRangeProp (self st)) as [prop|].
    + destruct (findEnum (rangeName frame) (enums prop)) as [e|].
      * match goal with
        | |- context [env_drmModeObjectSetProperty env ?h ?a ?b ?c ?d ?v =? 0] =>
            destruct (env_drmModeObjectSetProperty env h a b c d v =? 0)
        end; simpl; eexists; (split; [rewrite <- ?app_assoc; reflexivity|]);
        repeat split; reflexivity.
      * simpl. eexists. split; [reflexivity|]. repeat split; reflexivity.
    + simpl. eexists. split; [reflexivity|]. repeat split; reflexivity.
  - simpl. exists []. rewrite app_nil_r. split; [reflexivity|].
    apply orb_false_iff in Hg as [Hfr _]. apply negb_false_iff in Hfr.
    apply Bool.eqb_prop in Hfr. rewrite Hfr, set_LastFullRange_same.
    repeat split; reflexivity.
Qed.

Lemma updateColorEncoding_run (frame : AVFrame) (st : St) :
  let st' := snd (colorEncoding frame st) in
  exists evs,
    trace st' = trace st ++ evs
    /\ self st' = set_LastColorSpace (getFrameColorspace frame) (self st)
    /\ forallb isColorEvent evs = true
    /\ planePropertyWrites evs
       = (if colorspaceChanged (self st) frame then encodingWrite (self st) frame else [])
    /\ warnings evs
       = (if colorspaceChanged (self st) frame then encodingWarning (self st) frame else []).
Proof.
  unfold updateColorEncoding, colorspaceChanged, encodingWrite, encodingWarning.
  unfold_calls. cbn [self trace].
  destruct (negb (getFrameColorspace frame =? m_LastColorSpace (self st))) eqn:Hg.
  - destruct (m_ColorEncodingProp (self st)) as [prop|];
      destruct (getDrmColorEncodingValue getFrameColorspace frame) as [desired|].
    + destruct (findEnum desired (enums prop)) as [e|].
      * match goal with
        | |- context [env_drmModeObjectSetProperty env ?h ?a ?b ?c ?d ?v =? 0] =>
            destruct (env_drmModeObjectSetProperty env h a b c d v =? 0)
        end; simpl; eexists; (split; [rewrite <- ?app_assoc; reflexivity|]);
        repeat split; reflexivity.
      * simpl. eexists. split; [reflexivity|]. repeat split; reflexivity.
    + simpl. exists []. rewrite app_nil_r. repeat split; reflexivity.
    + simpl. eexists. split; [reflexivity|]. repeat split; reflexivity.
    + simpl. exists []. rewrite app_nil_r. repeat split; reflexivity.
  - simpl. exists []. rewrite app_nil_r. split; [reflexivity|].
    apply negb_false_iff in Hg. apply Z.eqb_eq in Hg.
    rewrite Hg, set_LastColorSpace_same.
    repeat split; reflexivity.
Qed.

(** *** The shape of a render call *)

Lemma resolvePlanes_run (d : AVDRMFrameDescriptor) (layer : AVDRMLayerDescriptor)
    (n : nat) :
  forall (i : nat) (a : FbArrays) (st : St),
  exists primes,
    forallb isPrimeOk primes = true
    /\ ((exists a',
           resolvePlanes env d layer n i a st
           = (Some a', mkSt (self st) (trace st ++ primes)))
        \/ (exists fd pfd r,
              (fst r <? 0) = true
              /\ resolvePlanes env d layer n i a st
                 = (None,
                    mkSt (self st)
                      (trace st ++ primes
                       ++ [EvPrimeFDToHandle fd pfd r;
                           EvLog LogError "drmPrimeFDToHandle() failed: %d" []]
                       ++ unmapEvents (self st) d)))).
Proof.
  induction n as [|n IH]; intros i a st.
  - exists []. split; [reflexivity|]. left. exists a. simpl. unfold ret.
    rewrite app_nil_r, St_eta. reflexivity.
  - cbn [resolvePlanes]. unfold_calls. cbn [self trace fst snd].
    set (fd := m_DrmFd (self st)).
    set (pfd := obj_fd (objectAt d (object_index (planeAt layer i)))).
    set (r := env_drmPrimeFDToHandle env (trace st) fd pfd).
    destruct (fst r <? 0) eqn:Hr.
    + exists []. split; [reflexivity|]. right. exists fd, pfd, r.
      split; [exact Hr|]. unfold unmapEvents.
      destruct (m_BackendRenderer (self st)); simpl; rewrite <- ?app_assoc; reflexivity.
    + match goal with
      | |- context [resolvePlanes env d layer n ?i' ?a' ?s'] =>
          destruct (IH i' a' s') as (primes & Hp & Hcase)
      end.
      exists (EvPrimeFDToHandle fd pfd r :: primes). split.
      * simpl. rewrite Hr. exact Hp.
      * cbn [self trace] in Hcase.
        destruct Hcase as [(a' & E) | (fd' & pfd' & r' & Hr' & E)].
        -- left. exists a'. rewrite E, <- app_assoc. reflexivity.
        -- right. exists fd', pfd', r'. split; [exact Hr'|].
           rewrite E, <- app_assoc. reflexivity.
Qed.

Lemma colorBlocks_run (frame : AVFrame) (st : St) :
  exists colors,
    ColorEvents (self st) frame colors
    /\ snd (colorEncoding frame (snd (colorRange frame st)))
       = mkSt (afterColor frame (self st)) (trace st ++ colors).
Proof.
  destruct (updateColorRange_run frame st) as (evs1 & Ht1 & Hs1 & Hc1 & Hw1 & Hg1).
  set (st1 := snd (colorRange frame st)) in *.
  destruct (updateColorEncoding_run frame st1) as (evs2 & Ht2 & Hs2 & Hc2 & Hw2 & Hg2).
  set (st2 := snd (colorEncoding frame st1)) in *.
  exists (evs1 ++ evs2). split.
  - unfold ColorEvents. rewrite forallb_app, Hc1, Hc2.
    unfold planePropertyWrites, warnings in *. rewrite !flat_map_app.
    rewrite Hw1, Hg1, Hw2, Hg2, Hs1. repeat split.
  - rewrite <- (St_eta st2), Ht2, Hs2, Ht1, Hs1, app_assoc. reflexivity.
Qed.

Lemma presentFrame_run (frame : AVFrame) (d : AVDRMFrameDescriptor) (dst : SDL_Rect)
    (a : FbArrays) (st0 : St) :
  let lastFbId := m_CurrentFbId (self st0) in
  let st' := snd (presentFrame env getFrameColorspace isFrameFullRange frame d dst a st0) in
  exists addfb,
    (isAddFbFail addfb = true
     /\ st' = mkSt (self st0)
                (trace st0 ++ [addfb] ++ unmapEvents (self st0) d
                 ++ [EvLog LogError "drmModeAddFB2WithModifiers() failed: %d" []]))
    \/ (isAddFbOk addfb = true
        /\ exists colors err,
             ColorEvents (self st0) frame colors
             /\ (((err <? 0) = true
                  /\ st' = mkSt (afterColor frame (self st0))
                             (trace st0 ++ [addfb] ++ unmapEvents (self st0) d ++ colors
                              ++ [commitEvent (self st0) dst frame
                                    (storedFb lastFbId addfb) err;
                                  EvLog LogError "drmModeSetPlane() failed: %d" [];
                                  EvRmFB (m_DrmFd (self st0)) (storedFb lastFbId addfb)]))
                 \/ ((err <? 0) = false
                     /\ st' = mkSt (set_CurrentFbId (storedFb lastFbId addfb)
                                      (afterColor frame (self st0)))
                                (trace st0 ++ [addfb] ++ unmapEvents (self st0) d ++ colors
                                 ++ [commitEvent (self st0) dst frame
                                       (storedFb lastFbId addfb) err;
                                     EvRmFB (m_DrmFd (self st0)) lastFbId])))).
Proof.
  intros lastFbId st'. subst st'. unfold presentFrame. unfold_calls.
  cbn [self trace fst snd].
  match goal with
  | |- context [EvAddFB2WithModifiers ?fd ?w ?h ?f ?hs ?ps ?os ?ms ?fl ?r] =>
      set (res := r); exists (EvAddFB2WithModifiers fd w h f hs ps os ms fl res)
  end.
  cbn [isAddFbFail isAddFbOk storedFb].
  destruct (fst res <? 0) eqn:Hres.
  - left. split; [reflexivity|]. unfold unmapEvents.
    destruct (m_BackendRenderer (self st0)); cbn [self trace fst snd];
      rewrite set_CurrentFbId_twice; unfold lastFbId;
      rewrite set_CurrentFbId_same, <- ?app_assoc; reflexivity.
  - right. split; [reflexivity|]. unfold unmapEvents.
    destruct (m_BackendRenderer (self st0)); cbn [self trace fst snd];
      match goal with
      | |- context [updateColorRange env getFrameColorspace isFrameFullRange frame ?s] =>
          destruct (colorBlocks_run frame s) as (colors & HC & Hrun);
          destruct (colorRange frame s) as [[] s2]
      end;
      cbn [snd] in Hrun;
      destruct (colorEncoding frame s2) as [[] s3];
      cbn [snd self trace] in Hrun, HC; subst s3; cbn [self trace];
      match goal with
      | |- context [EvSetPlane _ _ _ _ _ _ _ _ _ _ _ _ _ ?e] =>
          set (err := e); exists colors, err
      end;
      (split; [exact HC|]);
      unfold afterColor, commitEvent, lastFbId;
      (destruct (err <? 0); [left | right]; (split; [reflexivity|]);
       cbn [self trace fst snd]; rewrite <- ?app_assoc; cbn [app];
       destruct (self st0); reflexivity).
Qed.

Lemma renderFrame_run (st : St) (frame : AVFrame) :
  RenderRun st frame (snd (render frame st)).
Proof.
  unfold renderFrame. unfold_calls. cbn [self trace fst snd].
  destruct (m_BackendRenderer (self st)) eqn:Hb; cbn [self trace fst snd].
  - (* frontend: the backend maps the frame *)
    destruct (env_mapDrmPrimeFrame env (trace st ++ [EvLog LogDebug "1" []]) frame)
      as [d|] eqn:Hmap; cbn [self trace snd].
    + match goal with
      | |- context [resolvePlanes env ?d ?l ?n ?i ?a ?s] =>
          destruct (resolvePlanes_run d l n i a s) as (primes & Hp & Hcase)
      end.
      cbn [self trace] in Hcase.
      destruct Hcase as [(a' & E) | (fd' & pfd' & r' & Hr' & E)]; rewrite E.
      * match goal with
        | |- context [presentFrame _ _ _ ?f ?d ?dst ?a ?s] =>
            destruct (presentFrame_run f d dst a s) as (addfb & Hpf)
        end.
        cbn [self trace] in Hpf.
        destruct Hpf as [(Hfail & ->) | (Hok & colors & err & HC & [(Herr & ->) | (Herr & ->)])].
        -- pose proof (RunCreateFailed st frame d primes addfb Hp Hfail) as R.
           unfold prelude, interlude, mapEvents, unmapEvents in *. rewrite Hb in *.
           rewrite <- ?app_assoc in *. exact R.
        -- pose proof (RunCommitFailed st frame d primes addfb colors err Hp Hok HC Herr) as R.
           unfold prelude, interlude, mapEvents, unmapEvents in *. rewrite Hb in *.
           rewrite <- ?app_assoc in *. exact R.
        -- pose proof (RunCommitted st frame d primes addfb colors err Hp Hok HC Herr) as R.
           unfold prelude, interlude, mapEvents, unmapEvents in *. rewrite Hb in *.
           rewrite <- ?app_assoc in *. exact R.
      * pose proof (RunResolveFailed st frame d primes fd' pfd' r' Hp Hr') as R.
        unfold prelude, interlude, mapEvents, unmapEvents in *. rewrite Hb in *.
        cbn [snd]. rewrite <- ?app_assoc in *. exact R.
    + rewrite <- app_assoc. apply RunMapFailed. exact Hb.
  - (* backend: the frame carries the descriptor *)
    match goal with
    | |- context [resolvePlanes env ?d ?l ?n ?i ?a ?s] =>
        destruct (resolvePlanes_run d l n i a s) as (primes & Hp & Hcase)
    end.
    cbn [self trace] in Hcase.
    destruct Hcase as [(a' & E) | (fd' & pfd' & r' & Hr' & E)]; rewrite E.
    + match goal with
      | |- context [presentFrame _ _ _ ?f ?d ?dst ?a ?s] =>
          destruct (presentFrame_run f d dst a s) as (addfb & Hpf)
      end.
      cbn [self trace] in Hpf.
      destruct Hpf as [(Hfail & ->) | (Hok & colors & err & HC & [(Herr & ->) | (Herr & ->)])].
      * pose proof (RunCreateFailed st frame (data0 frame) primes addfb Hp Hfail) as R.
        unfold prelude, interlude, mapEvents, unmapEvents in *. rewrite Hb in *.
        rewrite <- ?app_assoc in *. exact R.
      * pose proof (RunCommitFailed st frame (data0 frame) primes addfb colors err
                      Hp Hok HC Herr) as R.
        unfold prelude, interlude, mapEvents, unmapEvents in *. rewrite Hb in *.
        rewrite <- ?app_assoc in *. exact R.
      * pose proof (RunCommitted st frame (data0 frame) primes addfb colors err
                      Hp Hok HC Herr) as R.
        unfold prelude, interlude, mapEvents, unmapEvents in *. rewrite Hb in *.
        rewrite <- ?app_assoc in *. exact R.
    + pose proof (RunResolveFailed st frame (data0 frame) primes fd' pfd' r' Hp Hr') as R.
      unfold prelude, interlude, mapEvents, unmapEvents in *. rewrite Hb in *.
      cbn [snd]. rewrite <- ?app_assoc in *. exact R.
Qed.


(** *** Framebuffers along a render call *)

Ltac by_event :=
  intros;
  match goal with e : Event |- _ => destruct e end;
  simpl in *;
  repeat match goal with
    | l : LogLevel |- _ => destruct l
    | r : OutResult |- _ => destruct r
    | o : option _ |- _ => destruct o
    end;
  simpl in *; try congruence; try reflexivity;
  try solve [repeat match goal with
               | H : ?b = _ |- context [?b] => rewrite H
               end; simpl; congruence].

Lemma inert_fbStep (live : list Z) (e : Event) : isInert e = true -> fbStep live e = live.
Proof. unfold isInert. by_event. Qed.

Lemma inert_planeStep (shown : Z) (e : Event) :
  isInert e = true -> planeStep shown e = shown.
Proof. unfold isInert. by_event. Qed.

Lemma inert_prelude (me : DrmRenderer) (frame : AVFrame) (d : AVDRMFrameDescriptor)
    (primes : list Event) :
  forallb isPrimeOk primes = true ->
  forallb isInert (prelude me frame d primes) = true.
Proof.
  intros Hp. unfold prelude. rewrite !forallb_app.
  rewrite (forallb_impl isPrimeOk isInert primes); [| unfold isInert; by_event | exact Hp].
  unfold mapEvents. destruct (m_BackendRenderer me); reflexivity.
Qed.

Lemma inert_interlude (me : DrmRenderer) (frame : AVFrame) (d : AVDRMFrameDescriptor)
    (colors : list Event) :
  ColorEvents me frame colors ->
  forallb isInert (interlude me d colors) = true.
Proof.
  intros (Hc & _). unfold interlude. rewrite forallb_app.
  rewrite (forallb_impl isColorEvent isInert colors); [| unfold isInert; by_event | exact Hc].
  unfold unmapEvents. destruct (m_BackendRenderer me); reflexivity.
Qed.

Lemma inert_unmap (me : DrmRenderer) (d : AVDRMFrameDescriptor) :
  forallb isInert (unmapEvents me d) = true.
Proof. unfold unmapEvents. destruct (m_BackendRenderer me); reflexivity. Qed.

Lemma inert_count (p : Event -> bool) (q : list Event) :
  (forall e, isInert e = true -> p e = false) ->
  forallb isInert q = true -> countb p q = 0%nat.
Proof. intros Hp Hq. exact (countb_none isInert p q Hp Hq). Qed.

Lemma forallb_has_not (p : Event -> bool) (evs : list Event) (e : Event) :
  In e evs -> p e = false -> forallb p evs = true -> False.
Proof.
  intros Hin He Hall. rewrite forallb_forall in Hall.
  rewrite (Hall e Hin) in He. discriminate.
Qed.


Lemma addFbOk_class (e : Event) :
  isAddFbOk e = true ->
  isAddFb e = true /\ isRmFb e = false /\ isSetPlane e = false /\ isMap e = false
  /\ isUnmap e = false /\ isAddFbFail e = false /\ isSetPlaneFail e = false.
Proof. by_event; repeat split; try reflexivity; apply negb_true_iff; assumption. Qed.

Lemma addFbOk_fresh (live : list Z) (lastFbId : Z) (e : Event) :
  isAddFbOk e = true -> freshFb live e = true ->
  fbStep live e = storedFb lastFbId e :: live
  /\ (storedFb lastFbId e =? 0) = false
  /\ existsb (Z.eqb (storedFb lastFbId e)) live = false.
Proof.
  destruct e; simpl; try discriminate.
  destruct res as [err [id|]]; unfold storeOut; simpl; intros Hok Hfresh;
    apply negb_true_iff in Hok; rewrite Hok in *; simpl in Hfresh; [|discriminate].
  apply andb_true_iff in Hfresh as [H0 Hl].
  apply negb_true_iff in H0, Hl. auto.
Qed.

Lemma removeId_owned (id lastFbId : Z) :
  (id =? 0) = false -> existsb (Z.eqb id) (owned lastFbId) = false ->
  removeId lastFbId (id :: owned lastFbId) = [id].
Proof.
  unfold owned, removeId. intros H0 Hl.
  destruct (lastFbId =? 0) eqn:Hlast; simpl in *.
  - apply Z.eqb_eq in Hlast. subst lastFbId. rewrite H0. reflexivity.
  - rewrite orb_false_r in Hl. rewrite Hl, Z.eqb_refl. reflexivity.
Qed.

Ltac emitted_is :=
  match goal with
  | |- context [emitted ?st (mkSt _ (trace ?st ++ ?X))] =>
      rewrite (emitted_app st _ X) in * by reflexivity
  | H : context [emitted ?st (mkSt _ (trace ?st ++ ?X))] |- _ =>
      rewrite (emitted_app st _ X) in * by reflexivity
  end.

(** C1: a render call on a frame with one composed layer and one to four
    planes in which the mapping (if there is a backend), every handle
    resolution, the framebuffer creation and the plane commit succeed ends
    with the commit of the new framebuffer followed by the destruction of
    the previously current one; nothing is destroyed or committed before
    that, one framebuffer was created, and the renderer records the new
    framebuffer as current.  If the renderer held exactly the live
    framebuffers before and the kernel handed out an unused identifier,
    the new framebuffer is the only live one afterwards and the one the
    plane shows. *)
Theorem renderFrame_success_replaces_framebuffer (st : St) (frame : AVFrame)
    (d : AVDRMFrameDescriptor) :
  let st' := snd (render frame st) in
  let evs := emitted st st' in
  let lastFbId := m_CurrentFbId (self st) in
  descriptorOf st frame = Some d ->
  nb_layers d = 1 ->
  1 <= nb_planes (layerAt d 0) <= 4 ->
  forallb callOk evs = true ->
  exists pre newFbId err,
    evs = pre ++ [commitEvent (self st) (destination (self st) frame) frame newFbId err;
                  EvRmFB (m_DrmFd (self st)) lastFbId]
    /\ (err <? 0) = false
    /\ countb isRmFb pre = 0%nat
    /\ countb isSetPlane pre = 0%nat
    /\ countb isAddFb pre = 1%nat
    /\ m_CurrentFbId (self st') = newFbId
    /\ (liveFramebuffers (trace st) = owned lastFbId ->
        forallb (freshFb (liveFramebuffers (trace st))) evs = true ->
        liveFramebuffers (trace st') = [newFbId]
        /\ planeFramebuffer (trace st') = newFbId).
Proof.
  intros st' evs lastFbId _ _ _ Hok.
  pose proof (renderFrame_run st frame) as R. fold st' in R.
  subst evs. destruct R as [Hb | d' primes fd pfd r Hp Hr | d' primes addfb Hp Hfail
                           | d' primes addfb colors err Hp Hadd HC Herr
                           | d' primes addfb colors err Hp Hadd HC Herr];
    emitted_is.
  - discriminate Hok.
  - exfalso. refine (forallb_has_not callOk _ (EvPrimeFDToHandle fd pfd r) _ _ Hok).
    + rewrite !in_app_iff. simpl. tauto.
    + simpl. rewrite Hr. reflexivity.
  - exfalso. refine (forallb_has_not callOk _ addfb _ _ Hok).
    + rewrite !in_app_iff. simpl. tauto.
    + revert Hfail. clear. by_event.
  - exfalso.
    refine (forallb_has_not callOk _ (commitEvent _ _ _ _ err) _ _ Hok).
    + rewrite !in_app_iff. simpl. tauto.
    + simpl. rewrite Herr. reflexivity.
  - pose proof (inert_prelude (self st) frame d' primes Hp) as Hq1.
    pose proof (inert_interlude (self st) frame d' colors HC) as Hq2.
    destruct (addFbOk_class addfb Hadd) as (Ha1 & Ha2 & Ha3 & _).
    exists (prelude (self st) frame d' primes ++ [addfb] ++ interlude (self st) d' colors),
      (storedFb lastFbId addfb), err.
    split; [rewrite <- !app_assoc; reflexivity|].
    split; [exact Herr|].
    split; [|split; [|split; [|split]]].
    + rewrite !countb_app, (inert_count isRmFb _ ltac:(unfold isInert; by_event) Hq1),
        (inert_count isRmFb _ ltac:(unfold isInert; by_event) Hq2).
      unfold countb. simpl. rewrite Ha2. reflexivity.
    + rewrite !countb_app, (inert_count isSetPlane _ ltac:(unfold isInert; by_event) Hq1),
        (inert_count isSetPlane _ ltac:(unfold isInert; by_event) Hq2).
      unfold countb. simpl. rewrite Ha3. reflexivity.
    + rewrite !countb_app, (inert_count isAddFb _ ltac:(unfold isInert; by_event) Hq1),
        (inert_count isAddFb _ ltac:(unfold isInert; by_event) Hq2).
      unfold countb. simpl. rewrite Ha1. reflexivity.
    + reflexivity.
    + intros Hinv Hfresh. cbn [trace]. split.
      * rewrite liveFramebuffers_app, !fold_left_app.
        rewrite (fold_left_unchanged fbStep isInert _ _ inert_fbStep Hq1).
        assert (Hf : freshFb (liveFramebuffers (trace st)) addfb = true).
        { rewrite forallb_forall in Hfresh. apply Hfresh.
          rewrite !in_app_iff. simpl. tauto. }
        destruct (addFbOk_fresh _ lastFbId addfb Hadd Hf) as (Hstep & H0 & Hl).
        cbn [fold_left]. rewrite Hstep.
        rewrite (fold_left_unchanged fbStep isInert _ _ inert_fbStep Hq2).
        cbn [fbStep commitEvent]. rewrite Hinv in *.
        apply removeId_owned; assumption.
      * rewrite planeFramebuffer_app, !fold_left_app. simpl. rewrite Herr. reflexivity.
Qed.


Lemma addFbFail_class (e : Event) :
  isAddFbFail e = true ->
  isRmFb e = false /\ isSetPlane e = false /\ isSetPlaneFail e = false
  /\ isAddFbOk e = false /\ (forall live, fbStep live e = live)
  /\ (forall shown, planeStep shown e = shown).
Proof.
  by_event; repeat split; try reflexivity; intros;
    repeat match goal with H : ?b = _ |- context [?b] => rewrite H end; reflexivity.
Qed.

Lemma inert_exists (p : Event -> bool) (q : list Event) :
  (forall e, isInert e = true -> p e = false) ->
  forallb isInert q = true -> existsb p q = false.
Proof. intros Hp Hq. exact (existsb_none isInert p q Hp Hq). Qed.

Lemma inert_isAddFbFail (e : Event) : isInert e = true -> isAddFbFail e = false.
Proof. unfold isInert. by_event. Qed.

Lemma inert_isAddFbOk (e : Event) : isInert e = true -> isAddFbOk e = false.
Proof. unfold isInert. by_event. Qed.

Lemma inert_isSetPlaneFail (e : Event) : isInert e = true -> isSetPlaneFail e = false.
Proof. unfold isInert. by_event. Qed.

Lemma inert_isSetPlane (e : Event) : isInert e = true -> isSetPlane e = false.
Proof. unfold isInert. by_event. Qed.

Lemma inert_isRmFb (e : Event) : isInert e = true -> isRmFb e = false.
Proof. unfold isInert. by_event. Qed.

Lemma inert_isAddFb (e : Event) : isInert e = true -> isAddFb e = false.
Proof. unfold isInert. by_event. Qed.

(** C2: a render call in which the framebuffer creation fails leaves the
    current framebuffer identifier as it was and commits and destroys
    nothing; one in which the plane commit fails ends by destroying the
    framebuffer it had just created and has the previous identifier as
    current again.  In both cases the framebuffer the plane shows is the
    one it showed before, and the live framebuffers are the same (for a
    failed commit: when the kernel had handed out an unused identifier). *)
Theorem renderFrame_failure_keeps_framebuffer (st : St) (frame : AVFrame) :
  let st' := snd (render frame st) in
  let evs := emitted st st' in
  let lastFbId := m_CurrentFbId (self st) in
  existsb isAddFbFail evs = true \/ existsb isSetPlaneFail evs = true ->
  m_CurrentFbId (self st') = lastFbId
  /\ planeFramebuffer (trace st') = planeFramebuffer (trace st)
  /\ (existsb isAddFbFail evs = true ->
      countb isSetPlane evs = 0%nat
      /\ countb isRmFb evs = 0%nat
      /\ liveFramebuffers (trace st') = liveFramebuffers (trace st))
  /\ (existsb isSetPlaneFail evs = true ->
      exists pre addfb err l,
        let newFbId := storedFb lastFbId addfb in
        evs = pre ++ [commitEvent (self st) (destination (self st) frame) frame newFbId err;
                      l; EvRmFB (m_DrmFd (self st)) newFbId]
        /\ (err <? 0) = true
        /\ In addfb pre /\ isAddFbOk addfb = true
        /\ countb isAddFb pre = 1%nat
        /\ countb isRmFb pre = 0%nat
        /\ countb isSetPlane pre = 0%nat
        /\ (forallb (freshFb (liveFramebuffers (trace st))) evs = true ->
            liveFramebuffers (trace st') = liveFramebuffers (trace st))).
Proof.
  intros st' evs lastFbId Hfail.
  pose proof (renderFrame_run st frame) as R. fold st' in R.
  subst evs. destruct R as [Hb | d' primes fd pfd r Hp Hr | d' primes addfb Hp Hadd
                           | d' primes addfb colors err Hp Hadd HC Herr
                           | d' primes addfb colors err Hp Hadd HC Herr];
    emitted_is; cbn [self trace].
  - exfalso. destruct Hfail as [H | H]; discriminate H.
  - exfalso.
    pose proof (inert_prelude (self st) frame d' primes Hp) as Hq1.
    pose proof (inert_unmap (self st) d') as Hq3.
    rewrite !existsb_app in Hfail.
    rewrite (inert_exists _ _ inert_isAddFbFail Hq1),
      (inert_exists _ _ inert_isAddFbFail Hq3),
      (inert_exists _ _ inert_isSetPlaneFail Hq1),
      (inert_exists _ _ inert_isSetPlaneFail Hq3) in Hfail.
    destruct Hfail as [H | H]; discriminate H.
  - pose proof (inert_prelude (self st) frame d' primes Hp) as Hq1.
    pose proof (inert_unmap (self st) d') as Hq3.
    destruct (addFbFail_class addfb Hadd) as (Ha1 & Ha2 & Ha3 & Ha4 & Ha5 & Ha6).
    split; [reflexivity|]. split; [|split].
    + rewrite planeFramebuffer_app, !fold_left_app.
      rewrite (fold_left_unchanged planeStep isInert _ _ inert_planeStep Hq1).
      cbn [fold_left]. rewrite Ha6.
      rewrite (fold_left_unchanged planeStep isInert _ _ inert_planeStep Hq3).
      reflexivity.
    + intros _. split; [|split].
      * rewrite !countb_app, (inert_count _ _ inert_isSetPlane Hq1),
          (inert_count _ _ inert_isSetPlane Hq3).
        unfold countb. simpl. rewrite Ha2. reflexivity.
      * rewrite !countb_app, (inert_count _ _ inert_isRmFb Hq1),
          (inert_count _ _ inert_isRmFb Hq3).
        unfold countb. simpl. rewrite Ha1. reflexivity.
      * rewrite liveFramebuffers_app, !fold_left_app.
        rewrite (fold_left_unchanged fbStep isInert _ _ inert_fbStep Hq1).
        cbn [fold_left]. rewrite Ha5.
        rewrite (fold_left_unchanged fbStep isInert _ _ inert_fbStep Hq3).
        reflexivity.
    + intros H. exfalso. rewrite !existsb_app in H.
      rewrite (inert_exists _ _ inert_isSetPlaneFail Hq1),
        (inert_exists _ _ inert_isSetPlaneFail Hq3) in H.
      simpl in H. rewrite Ha3 in H. discriminate H.
  - pose proof (inert_prelude (self st) frame d' primes Hp) as Hq1.
    pose proof (inert_interlude (self st) frame d' colors HC) as Hq2.
    destruct (addFbOk_class addfb Hadd) as (Ha1 & Ha2 & Ha3 & _ & _ & Ha6 & Ha7).
    split; [reflexivity|]. split; [|split].
    + rewrite planeFramebuffer_app, !fold_left_app.
      rewrite (fold_left_unchanged planeStep isInert _ _ inert_planeStep Hq1).
      cbn [fold_left].
      replace (planeStep (planeFramebuffer (trace st)) addfb)
        with (planeFramebuffer (trace st)) by (revert Ha3; clear; by_event).
      rewrite (fold_left_unchanged planeStep isInert _ _ inert_planeStep Hq2).
      simpl. rewrite Herr. reflexivity.
    + intros H. exfalso. rewrite !existsb_app in H.
      rewrite (inert_exists _ _ inert_isAddFbFail Hq1),
        (inert_exists _ _ inert_isAddFbFail Hq2) in H.
      simpl in H. rewrite Ha6 in H. discriminate H.
    + intros _.
      exists (prelude (self st) frame d' primes ++ [addfb] ++ interlude (self st) d' colors),
        addfb, err, (EvLog LogError "drmModeSetPlane() failed: %d" []).
      cbn zeta.
      split; [rewrite <- !app_assoc; reflexivity|].
      split; [exact Herr|].
      split; [rewrite !in_app_iff; simpl; tauto|].
      split; [exact Hadd|].
      split; [|split; [|split]].
      * rewrite !countb_app, (inert_count _ _ inert_isAddFb Hq1),
          (inert_count _ _ inert_isAddFb Hq2).
        unfold countb. simpl. rewrite Ha1. reflexivity.
      * rewrite !countb_app, (inert_count _ _ inert_isRmFb Hq1),
          (inert_count _ _ inert_isRmFb Hq2).
        unfold countb. simpl. rewrite Ha2. reflexivity.
      * rewrite !countb_app, (inert_count _ _ inert_isSetPlane Hq1),
          (inert_count _ _ inert_isSetPlane Hq2).
        unfold countb. simpl. rewrite Ha3. reflexivity.
      * intros Hfresh.
        rewrite liveFramebuffers_app, !fold_left_app.
        rewrite (fold_left_unchanged fbStep isInert _ _ inert_fbStep Hq1).
        assert (Hf : freshFb (liveFramebuffers (trace st)) addfb = true).
        { rewrite forallb_forall in Hfresh. apply Hfresh.
          rewrite !in_app_iff. simpl. tauto. }
        destruct (addFbOk_fresh _ lastFbId addfb Hadd Hf) as (Hstep & H0 & Hl).
        cbn [fold_left]. rewrite Hstep.
        rewrite (fold_left_unchanged fbStep isInert _ _ inert_fbStep Hq2).
        cbn [fbStep commitEvent]. fold lastFbId.
        unfold removeId at 1. cbn [List.filter]. rewrite Z.eqb_refl. cbn [negb].
        apply removeId_absent. exact Hl.
  - exfalso.
    pose proof (inert_prelude (self st) frame d' primes Hp) as Hq1.
    pose proof (inert_interlude (self st) frame d' colors HC) as Hq2.
    destruct (addFbOk_class addfb Hadd) as (Ha1 & Ha2 & Ha3 & _ & _ & Ha6 & Ha7).
    rewrite !existsb_app in Hfail.
    rewrite (inert_exists _ _ inert_isAddFbFail Hq1),
      (inert_exists _ _ inert_isAddFbFail Hq2),
      (inert_exists _ _ inert_isSetPlaneFail Hq1),
      (inert_exists _ _ inert_isSetPlaneFail Hq2) in Hfail.
    simpl in Hfail. rewrite Ha6, Ha7, Herr in Hfail.
    destruct Hfail as [H | H]; discriminate H.
Qed.


(** *** Color state across render calls *)

Lemma silent_writes (q : list Event) :
  forallb isSilent q = true -> planePropertyWrites q = [] /\ warnings q = [].
Proof.
  intros Hq. split.
  - apply (flat_map_none isSilent); [by_event | exact Hq].
  - apply (flat_map_none isSilent); [by_event | exact Hq].
Qed.

Lemma silent_prelude (me : DrmRenderer) (frame : AVFrame) (d : AVDRMFrameDescriptor)
    (primes : list Event) :
  forallb isPrimeOk primes = true ->
  forallb isSilent (prelude me frame d primes) = true.
Proof.
  intros Hp. unfold prelude. rewrite !forallb_app.
  rewrite (forallb_impl isPrimeOk isSilent primes); [| by_event | exact Hp].
  unfold mapEvents. destruct (m_BackendRenderer me); reflexivity.
Qed.

Lemma silent_unmap (me : DrmRenderer) (d : AVDRMFrameDescriptor) :
  forallb isSilent (unmapEvents me d) = true.
Proof. unfold unmapEvents. destruct (m_BackendRenderer me); reflexivity. Qed.

Lemma writes_app (a b : list Event) :
  planePropertyWrites (a ++ b) = planePropertyWrites a ++ planePropertyWrites b.
Proof. apply flat_map_app. Qed.

Lemma warnings_app (a b : list Event) :
  warnings (a ++ b) = warnings a ++ warnings b.
Proof. apply flat_map_app. Qed.

(* a render call either stops before the color blocks, and then changes
   nothing in the renderer and writes no property, or runs them *)
Lemma renderFrame_color_run (st : St) (frame : AVFrame) :
  let st' := snd (render frame st) in
  let evs := emitted st st' in
  if existsb isAddFbOk evs then
    (exists v, self st' = set_CurrentFbId v (afterColor frame (self st)))
    /\ planePropertyWrites evs
       = (if rangeChanged (self st) frame then rangeWrite (self st) frame else [])
         ++ (if colorspaceChanged (self st) frame then encodingWrite (self st) frame else [])
    /\ warnings evs
       = (if rangeChanged (self st) frame then rangeWarning (self st) frame else [])
         ++ (if colorspaceChanged (self st) frame then encodingWarning (self st) frame else [])
  else
    self st' = self st /\ planePropertyWrites evs = [] /\ warnings evs = [].
Proof.
  intros st' evs.
  pose proof (renderFrame_run st frame) as R. fold st' in R.
  subst evs. destruct R as [Hb | d' primes fd pfd r Hp Hr | d' primes addfb Hp Hadd
                           | d' primes addfb colors err Hp Hadd HC Herr
                           | d' primes addfb colors err Hp Hadd HC Herr];
    emitted_is; cbn [self trace].
  - simpl. auto.
  - pose proof (inert_prelude (self st) frame d' primes Hp) as Hq1.
    pose proof (inert_unmap (self st) d') as Hq3.
    destruct (silent_writes _ (silent_prelude (self st) frame d' primes Hp)) as [Hw1 Hg1].
    destruct (silent_writes _ (silent_unmap (self st) d')) as [Hw3 Hg3].
    rewrite !existsb_app, (inert_exists _ _ inert_isAddFbOk Hq1),
      (inert_exists _ _ inert_isAddFbOk Hq3). cbn [existsb isAddFbOk orb].
    rewrite !writes_app, !warnings_app, Hw1, Hg1, Hw3, Hg3. auto.
  - pose proof (inert_prelude (self st) frame d' primes Hp) as Hq1.
    pose proof (inert_unmap (self st) d') as Hq3.
    destruct (silent_writes _ (silent_prelude (self st) frame d' primes Hp)) as [Hw1 Hg1].
    destruct (silent_writes _ (silent_unmap (self st) d')) as [Hw3 Hg3].
    destruct (addFbFail_class addfb Hadd) as (_ & _ & _ & Ha4 & _).
    rewrite !existsb_app, (inert_exists _ _ inert_isAddFbOk Hq1),
      (inert_exists _ _ inert_isAddFbOk Hq3). cbn [existsb isAddFbOk orb].
    rewrite Ha4. cbn [orb].
    rewrite !writes_app, !warnings_app, Hw1, Hg1, Hw3, Hg3.
    replace (planePropertyWrites [addfb]) with (@nil (Z * Z * Z))
      by (revert Hadd; clear; by_event).
    replace (warnings [addfb]) with (@nil string) by (revert Hadd; clear; by_event).
    auto.
  - destruct (silent_writes _ (silent_prelude (self st) frame d' primes Hp)) as [Hw1 Hg1].
    destruct (silent_writes _ (silent_unmap (self st) d')) as [Hw3 Hg3].
    destruct HC as (_ & HCw & HCg).
    rewrite !existsb_app. cbn [existsb]. rewrite Hadd, !orb_true_r.
    split; [exists (m_CurrentFbId (self st)); destruct (self st); reflexivity|].
    unfold interlude.
    rewrite !writes_app, !warnings_app, Hw1, Hg1, Hw3, Hg3, HCw, HCg.
    replace (planePropertyWrites [addfb]) with (@nil (Z * Z * Z))
      by (revert Hadd; clear; by_event).
    replace (warnings [addfb]) with (@nil string) by (revert Hadd; clear; by_event).
    cbn. rewrite !app_nil_r. auto.
  - destruct (silent_writes _ (silent_prelude (self st) frame d' primes Hp)) as [Hw1 Hg1].
    destruct (silent_writes _ (silent_unmap (self st) d')) as [Hw3 Hg3].
    destruct HC as (_ & HCw & HCg).
    rewrite !existsb_app. cbn [existsb]. rewrite Hadd, !orb_true_r.
    split; [eexists; reflexivity|].
    unfold interlude.
    rewrite !writes_app, !warnings_app, Hw1, Hg1, Hw3, Hg3, HCw, HCg.
    replace (planePropertyWrites [addfb]) with (@nil (Z * Z * Z))
      by (revert Hadd; clear; by_event).
    replace (warnings [addfb]) with (@nil string) by (revert Hadd; clear; by_event).
    cbn. rewrite !app_nil_r. auto.
Qed.

(** C3: of two consecutive render calls that both get as far as the color
    blocks (their framebuffer was created), the second writes the color
    range property exactly when the full-range flag or the colorspace of
    its frame differs from that of the first frame and the property has an
    enum entry with the range's name, and the color encoding property
    exactly when the colorspace differs and the property has an entry with
    the encoding's name; an evaluation that finds no property or no entry
    logs the corresponding warning, and nothing is evaluated otherwise.  In
    particular a change of colorspace alone re-evaluates the range. *)
Theorem color_properties_reevaluated_on_change (st : St) (frame1 frame2 : AVFrame) :
  let st1 := snd (render frame1 st) in
  let st2 := snd (render frame2 st1) in
  let rangeDue :=
    negb (Bool.eqb (isFrameFullRange frame2) (isFrameFullRange frame1))
    || negb (getFrameColorspace frame2 =? getFrameColorspace frame1) in
  let encodingDue := negb (getFrameColorspace frame2 =? getFrameColorspace frame1) in
  existsb isAddFbOk (emitted st st1) = true ->
  existsb isAddFbOk (emitted st1 st2) = true ->
  planePropertyWrites (emitted st1 st2)
  = (if rangeDue then rangeWrite (self st) frame2 else [])
    ++ (if encodingDue then encodingWrite (self st) frame2 else [])
  /\ warnings (emitted st1 st2)
     = (if rangeDue then rangeWarning (self st) frame2 else [])
       ++ (if encodingDue then encodingWarning (self st) frame2 else []).
Proof.
  intros st1 st2 rangeDue encodingDue H1 H2.
  pose proof (renderFrame_color_run st frame1) as R1. cbn zeta in R1.
  fold st1 in R1. rewrite H1 in R1. destruct R1 as ((v & Hself) & _).
  pose proof (renderFrame_color_run st1 frame2) as R2. cbn zeta in R2.
  fold st2 in R2. rewrite H2 in R2. destruct R2 as (_ & Hw & Hg).
  rewrite Hw, Hg, Hself. split; reflexivity.
Qed.

(** C6 (as the code has it): a render call whose framebuffer creation
    succeeds leaves the frame's full-range flag and colorspace in the cached
    color state, whatever the color blocks did (a write that succeeded or
    failed, no property, no matching entry, no name for the colorspace, or
    nothing to do); a render call that stops before that leaves the cached
    color state as it was. *)
Theorem color_cache_follows_frame (st : St) (frame : AVFrame) :
  let st' := snd (render frame st) in
  if existsb isAddFbOk (emitted st st') then
    m_LastFullRange (self st') = isFrameFullRange frame
    /\ m_LastColorSpace (self st') = getFrameColorspace frame
  else
    m_LastFullRange (self st') = m_LastFullRange (self st)
    /\ m_LastColorSpace (self st') = m_LastColorSpace (self st).
Proof.
  intros st'.
  pose proof (renderFrame_color_run st frame) as R. cbn zeta in R. fold st' in R.
  destruct (existsb isAddFbOk (emitted st st')).
  - destruct R as ((v & Hself) & _). rewrite Hself. split; reflexivity.
  - destruct R as (Hself & _). rewrite Hself. split; reflexivity.
Qed.


(** *** Mapping and unmapping *)

Lemma plain_isMap (e : Event) : isPlain e = true -> isMap e = false.
Proof. unfold isPlain. by_event. Qed.

Lemma plain_isMapOk (e : Event) : isPlain e = true -> isMapOk e = false.
Proof. unfold isPlain. by_event. Qed.

Lemma plain_isUnmap (e : Event) : isPlain e = true -> isUnmap e = false.
Proof. unfold isPlain. by_event. Qed.

Lemma plain_not_in (frame : AVFrame) (o : option AVDRMFrameDescriptor) (q : list Event) :
  forallb isPlain q = true -> ~ In (EvMapDrmPrimeFrame frame o) q.
Proof.
  intros Hq Hin. rewrite forallb_forall in Hq. specialize (Hq _ Hin). discriminate Hq.
Qed.

Lemma paired_shape (frame : AVFrame) (d : AVDRMFrameDescriptor) (pre mid post : list Event) :
  forallb isPlain pre = true ->
  forallb isPlain mid = true ->
  forallb isPlain post = true ->
  MapUnmapPaired frame
    (pre ++ EvMapDrmPrimeFrame frame (Some d) :: mid ++ EvUnmapDrmPrimeFrame d :: post).
Proof.
  intros Hpre Hmid Hpost.
  pose proof (countb_none _ _ _ plain_isMap Hpre) as M1.
  pose proof (countb_none _ _ _ plain_isMap Hmid) as M2.
  pose proof (countb_none _ _ _ plain_isMap Hpost) as M3.
  pose proof (countb_none _ _ _ plain_isMapOk Hpre) as O1.
  pose proof (countb_none _ _ _ plain_isMapOk Hmid) as O2.
  pose proof (countb_none _ _ _ plain_isMapOk Hpost) as O3.
  pose proof (countb_none _ _ _ plain_isUnmap Hpre) as U1.
  pose proof (countb_none _ _ _ plain_isUnmap Hmid) as U2.
  pose proof (countb_none _ _ _ plain_isUnmap Hpost) as U3.
  unfold MapUnmapPaired.
  change (pre ++ EvMapDrmPrimeFrame frame (Some d) :: mid
          ++ EvUnmapDrmPrimeFrame d :: post)
    with (pre ++ [EvMapDrmPrimeFrame frame (Some d)] ++ mid
          ++ [EvUnmapDrmPrimeFrame d] ++ post).
  split; [|split].
  - rewrite !countb_app, M1, M2, M3. reflexivity.
  - rewrite !countb_app, U1, U2, U3, O1, O2, O3. reflexivity.
  - intros d0 Hin. exists pre, mid, post. cbn [app].
    rewrite !in_app_iff in Hin. simpl in Hin.
    destruct Hin as [Hin | [[Heq | []] | [Hin | [[Heq | []] | Hin]]]].
    + exfalso. exact (plain_not_in _ _ _ Hpre Hin).
    + injection Heq as ->. auto.
    + exfalso. exact (plain_not_in _ _ _ Hmid Hin).
    + discriminate Heq.
    + exfalso. exact (plain_not_in _ _ _ Hpost Hin).
Qed.

Lemma plain_primes (primes : list Event) :
  forallb isPrimeOk primes = true -> forallb isPlain primes = true.
Proof. apply forallb_impl. unfold isPlain. by_event. Qed.

Lemma plain_colors (me : DrmRenderer) (frame : AVFrame) (colors : list Event) :
  ColorEvents me frame colors -> forallb isPlain colors = true.
Proof. intros (Hc & _). revert Hc. apply forallb_impl. unfold isPlain. by_event. Qed.

(** C8: with a backend renderer, a render call and a test render call ask
    the backend for one mapping, and if it succeeds they unmap the
    descriptor it gave exactly once, after the mapping, whichever way the
    call ends: a handle that cannot be resolved, a framebuffer that cannot
    be created, a commit that fails or succeeds, or the test path.  Without
    a successful mapping nothing is unmapped. *)
Theorem map_unmap_paired (st : St) (frame : AVFrame) :
  m_BackendRenderer (self st) = true ->
  MapUnmapPaired frame (emitted st (snd (render frame st)))
  /\ MapUnmapPaired frame (emitted st (snd (testRenderFrame env frame st))).
Proof.
  intros Hb. split.
  - pose proof (renderFrame_run st frame) as R.
    destruct R as [_ | d' primes fd pfd r Hp Hr | d' primes addfb Hp Hadd
                  | d' primes addfb colors err Hp Hadd HC Herr
                  | d' primes addfb colors err Hp Hadd HC Herr];
      emitted_is; unfold prelude, interlude, mapEvents, unmapEvents; rewrite ?Hb.
    + unfold MapUnmapPaired. split; [reflexivity|]. split; [reflexivity|].
      intros d0 [H | [H | []]]; discriminate H.
    + pose proof (paired_shape frame d' [EvLog LogDebug "1" []]
                    (primes ++ [EvPrimeFDToHandle fd pfd r;
                                EvLog LogError "drmPrimeFDToHandle() failed: %d" []]) []
                    eq_refl) as P.
      rewrite <- !app_assoc in *. cbn [app] in *. apply P; [|reflexivity].
      rewrite forallb_app, (plain_primes _ Hp). reflexivity.
    + pose proof (paired_shape frame d' [EvLog LogDebug "1" []] (primes ++ [addfb])
                    [EvLog LogError "drmModeAddFB2WithModifiers() failed: %d" []]
                    eq_refl) as P.
      rewrite <- !app_assoc in *. cbn [app] in *. apply P; [|reflexivity].
      rewrite forallb_app, (plain_primes _ Hp). cbn [forallb].
      replace (isPlain addfb) with true by (revert Hadd; clear; unfold isPlain; by_event).
      reflexivity.
    + pose proof (paired_shape frame d' [EvLog LogDebug "1" []] (primes ++ [addfb])
                    (colors ++
                     [commitEvent (self st) (destination (self st) frame) frame
                        (storedFb (m_CurrentFbId (self st)) addfb) err;
                      EvLog LogError "drmModeSetPlane() failed: %d" [];
                      EvRmFB (m_DrmFd (self st)) (storedFb (m_CurrentFbId (self st)) addfb)])
                    eq_refl) as P.
      rewrite <- !app_assoc in *. cbn [app] in *. apply P.
      * rewrite forallb_app, (plain_primes _ Hp). cbn [forallb].
        replace (isPlain addfb) with true by (revert Hadd; clear; unfold isPlain; by_event).
        reflexivity.
      * rewrite forallb_app, (plain_colors _ _ _ HC). reflexivity.
    + pose proof (paired_shape frame d' [EvLog LogDebug "1" []] (primes ++ [addfb])
                    (colors ++
                     [commitEvent (self st) (destination (self st) frame) frame
                        (storedFb (m_CurrentFbId (self st)) addfb) err;
                      EvRmFB (m_DrmFd (self st)) (m_CurrentFbId (self st))])
                    eq_refl) as P.
      rewrite <- !app_assoc in *. cbn [app] in *. apply P.
      * rewrite forallb_app, (plain_primes _ Hp). cbn [forallb].
        replace (isPlain addfb) with true by (revert Hadd; clear; unfold isPlain; by_event).
        reflexivity.
      * rewrite forallb_app, (plain_colors _ _ _ HC). reflexivity.
  - unfold testRenderFrame. unfold_calls. cbn [self trace fst snd]. rewrite Hb.
    cbn [self trace fst snd].
    destruct (env_mapDrmPrimeFrame env (trace st) frame) as [d'|]; cbn [self trace snd].
    + rewrite (emitted_app st _ [EvMapDrmPrimeFrame frame (Some d'); EvUnmapDrmPrimeFrame d'])
        by (cbn [trace]; rewrite <- app_assoc; reflexivity).
      exact (paired_shape frame d' [] [] [] eq_refl eq_refl eq_refl).
    + rewrite (emitted_app st _ [EvMapDrmPrimeFrame frame None]) by reflexivity.
      unfold MapUnmapPaired. split; [reflexivity|]. split; [reflexivity|].
      intros d0 [H | []]; discriminate H.
Qed.

(** C10: the color range string of a frame is never null: it is
    "YCbCr full range" for a full-range frame and "YCbCr limited range"
    otherwise, whatever the colorspace, whereas the color encoding string is
    null exactly for a colorspace other than BT.601, BT.709 and BT.2020.  So
    when the range is due for evaluation, the color range block either
    looks the string up in the property's enum entries, and then writes the
    property or warns that no entry matches, or, only when the property
    itself is absent, warns that it does not exist. *)
Theorem color_range_always_negotiated (st : St) (frame : AVFrame) :
  let evs := emitted st (snd (colorRange frame st)) in
  getDrmColorRangeValue isFrameFullRange frame
  = Some (if isFrameFullRange frame then "YCbCr full range" else "YCbCr limited range")
  /\ (getDrmColorEncodingValue getFrameColorspace frame = None
      <-> getFrameColorspace frame <> COLORSPACE_REC_601
          /\ getFrameColorspace frame <> COLORSPACE_REC_709
          /\ getFrameColorspace frame <> COLORSPACE_REC_2020)
  /\ (if rangeChanged (self st) frame then
        match m_ColorRangeProp (self st) with
        | Some prop =>
            match findEnum (rangeName frame) (enums prop) with
            | Some e =>
                exists err l,
                  evs = [EvObjectSetProperty (m_DrmFd (self st)) (m_PlaneId (self st))
                           DRM_MODE_OBJECT_PLANE (prop_id prop) (enum_value e) err; l]
            | None =>
                evs = [EvLog LogWarn
                         "Unable to find matching COLOR_RANGE value for '%s'. Colors may be inaccurate!"
                         [rangeName frame]]
            end
        | None =>
            evs = [EvLog LogWarn
                     "COLOR_RANGE property does not exist on output plane. Colors may be inaccurate!"
                     []]
        end
      else evs = []).
Proof.
  intros evs. split; [reflexivity|]. split.
  - unfold getDrmColorEncodingValue.
    destruct (getFrameColorspace frame =? COLORSPACE_REC_601) eqn:H1;
      [apply Z.eqb_eq in H1; split; [discriminate | tauto] | apply Z.eqb_neq in H1].
    destruct (getFrameColorspace frame =? COLORSPACE_REC_709) eqn:H2;
      [apply Z.eqb_eq in H2; split; [discriminate | tauto] | apply Z.eqb_neq in H2].
    destruct (getFrameColorspace frame =? COLORSPACE_REC_2020) eqn:H3;
      [apply Z.eqb_eq in H3; split; [discriminate | tauto] | apply Z.eqb_neq in H3].
    tauto.
  - subst evs. unfold updateColorRange, rangeChanged, getDrmColorRangeValue.
    fold (rangeName frame). unfold_calls. cbn [self trace].
    destruct (negb (Bool.eqb (isFrameFullRange frame) (m_LastFullRange (self st)))
              || negb (getFrameColorspace frame =? m_LastColorSpace (self st))).
    + destruct (m_ColorRangeProp (self st)) as [prop|].
      * destruct (findEnum (rangeName frame) (enums prop)) as [e|].
        -- match goal with
           | |- context [env_drmModeObjectSetProperty env ?h ?a ?b ?c ?d ?v =? 0] =>
               destruct (env_drmModeObjectSetProperty env h a b c d v =? 0)
           end; eexists _, _; apply emitted_app; cbn [self trace snd];
           rewrite <- ?app_assoc; reflexivity.
        -- apply emitted_app. reflexivity.
      * apply emitted_app. reflexivity.
    + apply emitted_app. cbn [snd]. rewrite app_nil_r. reflexivity.
Qed.

(** ** Further properties of the render path *)

Lemma fbTraceFresh_app (live : list Z) (a b : list Event) :
  fbTraceFresh live (a ++ b)
  = fbTraceFresh live a && fbTraceFresh (fold_left fbStep a live) b.
Proof.
  revert live. induction a as [|e a IH]; intros live; simpl; [reflexivity|].
  rewrite IH, andb_assoc. reflexivity.
Qed.

Lemma fbBounded_app (n : nat) (live : list Z) (a b : list Event) :
  fbBounded n live (a ++ b)
  = fbBounded n live a && fbBounded n (fold_left fbStep a live) b.
Proof.
  revert live. induction a as [|e a IH]; intros live.
  - simpl. destruct b; simpl; destruct (length live <=? n)%nat; reflexivity.
  - simpl. rewrite IH, andb_assoc. reflexivity.
Qed.

Lemma neutral_fbStep (live : list Z) (e : Event) :
  isNeutral e = true -> fbStep live e = live.
Proof. unfold isNeutral, isInert. by_event. Qed.

Lemma neutral_planeStep (shown : Z) (e : Event) :
  isNeutral e = true -> planeStep shown e = shown.
Proof. unfold isNeutral, isInert. by_event. Qed.

Lemma inert_neutral (q : list Event) :
  forallb isInert q = true -> forallb isNeutral q = true.
Proof. apply forallb_impl. intros e He. unfold isNeutral. rewrite He. reflexivity. Qed.

Lemma neutral_bounded (n : nat) (live : list Z) (q : list Event) :
  forallb isNeutral q = true -> fbBounded n live q = (length live <=? n)%nat.
Proof.
  revert live. induction q as [|e q IH]; simpl; intros live H.
  - apply andb_true_r.
  - apply andb_true_iff in H as [He Hq].
    rewrite (neutral_fbStep live e He), (IH live Hq). apply andb_diag.
Qed.

Lemma neutral_fresh (live : list Z) (q : list Event) :
  forallb isNeutral q = true -> fbTraceFresh live q = true.
Proof.
  revert live. induction q as [|e q IH]; simpl; intros live H; [reflexivity|].
  apply andb_true_iff in H as [He Hq].
  rewrite (neutral_fbStep live e He), (IH live Hq), andb_true_r.
  revert He. clear. unfold isNeutral, isInert. by_event.
Qed.

Lemma neutral_folds (q : list Event) (live : list Z) (shown : Z) :
  forallb isNeutral q = true ->
  fold_left fbStep q live = live /\ fold_left planeStep q shown = shown.
Proof.
  intros Hq. split.
  - exact (fold_left_unchanged fbStep isNeutral q live neutral_fbStep Hq).
  - exact (fold_left_unchanged planeStep isNeutral q shown neutral_planeStep Hq).
Qed.

Lemma owned_bounded (id : Z) : (length (owned id) <=? 2)%nat = true.
Proof. unfold owned. destruct (id =? 0); reflexivity. Qed.

(* one render call, as the framebuffer checks see it *)
Lemma renderFrame_fb_step (st : St) (frame : AVFrame) :
  let st' := snd (render frame st) in
  let cur := m_CurrentFbId (self st) in
  let cur' := m_CurrentFbId (self st') in
  exists evs,
    trace st' = trace st ++ evs
    /\ fold_left planeStep evs cur = cur'
    /\ (fbTraceFresh (owned cur) evs = true ->
        fold_left fbStep evs (owned cur) = owned cur'
        /\ fbBounded 2 (owned cur) evs = true).
Proof.
  intros st' cur cur'.
  pose proof (renderFrame_run st frame) as R. fold st' in R.
  subst cur'.
  destruct R as [Hb | d' primes fd pfd r Hp Hr | d' primes addfb Hp Hadd
                | d' primes addfb colors err Hp Hadd HC Herr
                | d' primes addfb colors err Hp Hadd HC Herr];
    cbn [self trace]; eexists; (split; [reflexivity|]).
  - split; [reflexivity|]. intros _. split; [reflexivity|].
    simpl. rewrite owned_bounded. reflexivity.
  - assert (Hn : forallb isNeutral
                   (prelude (self st) frame d' primes
                    ++ [EvPrimeFDToHandle fd pfd r;
                        EvLog LogError "drmPrimeFDToHandle() failed: %d" []]
                    ++ unmapEvents (self st) d') = true).
    { rewrite !forallb_app, (inert_neutral _ (inert_prelude _ frame d' primes Hp)),
        (inert_neutral _ (inert_unmap (self st) d')). reflexivity. }
    destruct (neutral_folds _ (owned cur) cur Hn) as [Hf Hs].
    split; [exact Hs|]. intros _. split; [exact Hf|].
    rewrite (neutral_bounded _ _ _ Hn). apply owned_bounded.
  - assert (Hn : forallb isNeutral
                   (prelude (self st) frame d' primes ++ [addfb]
                    ++ unmapEvents (self st) d'
                    ++ [EvLog LogError "drmModeAddFB2WithModifiers() failed: %d" []])
                 = true).
    { rewrite !forallb_app, (inert_neutral _ (inert_prelude _ frame d' primes Hp)),
        (inert_neutral _ (inert_unmap (self st) d')). cbn [forallb].
      unfold isNeutral at 1. rewrite Hadd, orb_true_r. reflexivity. }
    destruct (neutral_folds _ (owned cur) cur Hn) as [Hf Hs].
    split; [exact Hs|]. intros _. split; [exact Hf|].
    rewrite (neutral_bounded _ _ _ Hn). apply owned_bounded.
  - pose proof (inert_neutral _ (inert_prelude (self st) frame d' primes Hp)) as Hq1.
    pose proof (inert_neutral _ (inert_interlude (self st) frame d' colors HC)) as Hq2.
    destruct (addFbOk_class addfb Hadd) as (Ha1 & Ha2 & Ha3 & _).
    assert (Hpa : forall s, planeStep s addfb = s) by (revert Ha3; clear; by_event).
    split.
    + rewrite !fold_left_app.
      rewrite (proj2 (neutral_folds _ [] _ Hq1)). cbn [fold_left]. rewrite Hpa.
      rewrite (proj2 (neutral_folds _ [] _ Hq2)). simpl. rewrite Herr. reflexivity.
    + intros Hfresh. rewrite !fbTraceFresh_app in Hfresh.
      rewrite (proj1 (neutral_folds _ _ 0 Hq1)) in Hfresh.
      apply andb_true_iff in Hfresh as [_ Hfresh].
      apply andb_true_iff in Hfresh as [Hfresh _].
      cbn [fbTraceFresh] in Hfresh. rewrite andb_true_r in Hfresh.
      destruct (addFbOk_fresh _ cur addfb Hadd Hfresh) as (Hstep & H0 & Hl).
      assert (Hback : removeId (storedFb cur addfb) (storedFb cur addfb :: owned cur)
                      = owned cur).
      { unfold removeId at 1. cbn [List.filter]. rewrite Z.eqb_refl. cbn [negb].
        apply removeId_absent. exact Hl. }
      split.
      * rewrite !fold_left_app, (proj1 (neutral_folds _ _ 0 Hq1)).
        cbn [fold_left]. rewrite Hstep, (proj1 (neutral_folds _ _ 0 Hq2)).
        cbn [fbStep commitEvent]. fold cur. exact Hback.
      * rewrite !fbBounded_app, ?fold_left_app, (proj1 (neutral_folds _ _ 0 Hq1)),
          (neutral_bounded _ _ _ Hq1).
        cbn [fold_left fbBounded]. rewrite Hstep, (proj1 (neutral_folds _ _ 0 Hq2)),
          (neutral_bounded _ _ _ Hq2).
        cbn [fbStep commitEvent]. fold cur. rewrite Hback. cbn [length].
        unfold owned. destruct (cur =? 0); reflexivity.
  - pose proof (inert_neutral _ (inert_prelude (self st) frame d' primes Hp)) as Hq1.
    pose proof (inert_neutral _ (inert_interlude (self st) frame d' colors HC)) as Hq2.
    destruct (addFbOk_class addfb Hadd) as (Ha1 & Ha2 & Ha3 & _).
    assert (Hpa : forall s, planeStep s addfb = s) by (revert Ha3; clear; by_event).
    split.
    + rewrite !fold_left_app.
      rewrite (proj2 (neutral_folds _ [] _ Hq1)). cbn [fold_left]. rewrite Hpa.
      rewrite (proj2 (neutral_folds _ [] _ Hq2)). simpl. rewrite Herr. reflexivity.
    + intros Hfresh. rewrite !fbTraceFresh_app in Hfresh.
      rewrite (proj1 (neutral_folds _ _ 0 Hq1)) in Hfresh.
      apply andb_true_iff in Hfresh as [_ Hfresh].
      apply andb_true_iff in Hfresh as [Hfresh _].
      cbn [fbTraceFresh] in Hfresh. rewrite andb_true_r in Hfresh.
      destruct (addFbOk_fresh _ cur addfb Hadd Hfresh) as (Hstep & H0 & Hl).
      pose proof (removeId_owned _ _ H0 Hl) as Hswap.
      assert (Hnew : owned (storedFb cur addfb) = [storedFb cur addfb]).
      { unfold owned. rewrite H0. reflexivity. }
      split.
      * rewrite !fold_left_app, (proj1 (neutral_folds _ _ 0 Hq1)).
        cbn [fold_left]. rewrite Hstep, (proj1 (neutral_folds _ _ 0 Hq2)).
        cbn [fbStep commitEvent]. fold cur. rewrite Hswap. symmetry. exact Hnew.
      * rewrite !fbBounded_app, ?fold_left_app, (proj1 (neutral_folds _ _ 0 Hq1)),
          (neutral_bounded _ _ _ Hq1).
        cbn [fold_left fbBounded]. rewrite Hstep, (proj1 (neutral_folds _ _ 0 Hq2)),
          (neutral_bounded _ _ _ Hq2).
        cbn [fbStep commitEvent]. fold cur. rewrite Hswap. cbn [length].
        unfold owned. destruct (cur =? 0); reflexivity.
Qed.

Local Abbreviation renderAll :=
  (renderFrames env getFrameColorspace isFrameFullRange scaleSourceToDestinationSurface).

Lemma renderFrames_fb_steps (frames : list AVFrame) :
  forall st : St,
    let st' := snd (renderAll frames st) in
    let cur := m_CurrentFbId (self st) in
    let cur' := m_CurrentFbId (self st') in
    exists evs,
      trace st' = trace st ++ evs
      /\ fold_left planeStep evs cur = cur'
      /\ (fbTraceFresh (owned cur) evs = true ->
          fold_left fbStep evs (owned cur) = owned cur'
          /\ fbBounded 2 (owned cur) evs = true).
Proof.
  induction frames as [|frame frames IH]; intros st; cbn zeta.
  - exists []. simpl. rewrite app_nil_r. split; [reflexivity|]. split; [reflexivity|].
    intros _. split; [reflexivity|]. rewrite owned_bounded. reflexivity.
  - cbn [renderFrames]. rewrite snd_bind_unit.
    destruct (renderFrame_fb_step st frame) as (evs1 & Ht1 & Hs1 & Hf1).
    set (st1 := snd (render frame st)) in *.
    destruct (IH st1) as (evs2 & Ht2 & Hs2 & Hf2).
    exists (evs1 ++ evs2). split; [rewrite Ht2, Ht1, app_assoc; reflexivity|].
    split; [rewrite fold_left_app, Hs1; exact Hs2|].
    intros Hfresh. rewrite fbTraceFresh_app in Hfresh.
    apply andb_true_iff in Hfresh as [Hfr1 Hfr2].
    destruct (Hf1 Hfr1) as [Hl1 Hb1]. rewrite Hl1 in Hfr2.
    destruct (Hf2 Hfr2) as [Hl2 Hb2].
    rewrite fold_left_app, fbBounded_app, Hl1, Hl2, Hb1, Hb2. auto.
Qed.

(** X1: whatever the frames and whichever calls fail, a sequence of render
    calls on a renderer that holds exactly the live framebuffers ends
    holding exactly the live framebuffers again (none, or the current
    one), and at no point of the sequence are more than two framebuffers
    alive, provided the kernel hands out unused identifiers. *)
Theorem renderFrames_keep_one_framebuffer (st : St) (frames : list AVFrame) :
  let st' := snd (renderAll frames st) in
  liveFramebuffers (trace st) = owned (m_CurrentFbId (self st)) ->
  fbTraceFresh (liveFramebuffers (trace st)) (emitted st st') = true ->
  liveFramebuffers (trace st') = owned (m_CurrentFbId (self st'))
  /\ fbBounded 2 (liveFramebuffers (trace st)) (emitted st st') = true.
Proof.
  intros st' Hinv Hfresh.
  destruct (renderFrames_fb_steps frames st) as (evs & Ht & _ & Hf). fold st' in Ht, Hf.
  rewrite (emitted_app _ _ _ Ht) in *. rewrite Hinv in *.
  destruct (Hf Hfresh) as [Hl Hb]. split; [|exact Hb].
  rewrite Ht, liveFramebuffers_app, Hinv. exact Hl.
Qed.

(** X2: the framebuffer recorded as current is the one the plane shows:
    if that holds before a sequence of render calls it holds after it,
    whichever calls fail and whatever the kernel answers. *)
Theorem renderFrames_plane_shows_current (st : St) (frames : list AVFrame) :
  let st' := snd (renderAll frames st) in
  planeFramebuffer (trace st) = m_CurrentFbId (self st) ->
  planeFramebuffer (trace st') = m_CurrentFbId (self st').
Proof.
  intros st' Hinv.
  destruct (renderFrames_fb_steps frames st) as (evs & Ht & Hs & _). fold st' in Ht, Hs.
  rewrite Ht, planeFramebuffer_app, Hinv. exact Hs.
Qed.

(** X3: when the backend cannot map the frame, the render call does
    nothing but write its debug line and ask for the mapping: no kernel
    call is made and the renderer is as before. *)
Theorem renderFrame_mapping_failure (st : St) (frame : AVFrame) :
  descriptorOf st frame = None ->
  render frame st
  = (tt, mkSt (self st)
           (trace st ++ [EvLog LogDebug "1" []; EvMapDrmPrimeFrame frame None])).
Proof.
  unfold descriptorOf, renderFrame. unfold_calls. cbn [self trace fst snd].
  destruct (m_BackendRenderer (self st)); [|discriminate].
  intros Hmap. cbn [self trace fst snd]. rewrite Hmap. cbn [self trace fst snd].
  rewrite <- app_assoc. reflexivity.
Qed.

Lemma prelude_lookups_ok (me : DrmRenderer) (frame : AVFrame) (d : AVDRMFrameDescriptor)
    (primes : list Event) :
  forallb isPrimeOk primes = true ->
  forallb (fun e => negb (isPrimeFail e)) (prelude me frame d primes) = true.
Proof.
  intros Hp. unfold prelude. rewrite !forallb_app.
  rewrite (forallb_impl isPrimeOk (fun e => negb (isPrimeFail e)) primes);
    [| by_event | exact Hp].
  unfold mapEvents. destruct (m_BackendRenderer me); reflexivity.
Qed.

Lemma silent_isSetProperty (e : Event) : isSilent e = true -> isSetProperty e = false.
Proof. by_event. Qed.

Lemma lookups_ok_isPrimeFail (e : Event) :
  negb (isPrimeFail e) = true -> isPrimeFail e = false.
Proof. apply negb_true_iff. Qed.

(** X4: a render call in which a buffer handle cannot be resolved stops
    at that lookup: the failing lookup is the only failed one and no lookup
    follows it, no framebuffer is created, committed or destroyed, no
    property is written, and the renderer is as before. *)
Theorem renderFrame_resolution_failure (st : St) (frame : AVFrame) :
  let st' := snd (render frame st) in
  let evs := emitted st st' in
  existsb isPrimeFail evs = true ->
  self st' = self st
  /\ countb isAddFb evs = 0%nat
  /\ countb isSetPlane evs = 0%nat
  /\ countb isRmFb evs = 0%nat
  /\ countb isSetProperty evs = 0%nat
  /\ exists pre failed post,
       evs = pre ++ failed :: post
       /\ isPrimeFail failed = true
       /\ countb isPrimeFail pre = 0%nat
       /\ countb isPrime post = 0%nat.
Proof.
  intros st' evs Hfail.
  pose proof (renderFrame_run st frame) as R. fold st' in R.
  subst evs. destruct R as [Hb | d' primes fd pfd r Hp Hr | d' primes addfb Hp Hadd
                           | d' primes addfb colors err Hp Hadd HC Herr
                           | d' primes addfb colors err Hp Hadd HC Herr];
    emitted_is; cbn [self trace].
  - discriminate Hfail.
  - pose proof (inert_prelude (self st) frame d' primes Hp) as Hq1.
    pose proof (inert_unmap (self st) d') as Hq3.
    pose proof (silent_prelude (self st) frame d' primes Hp) as Hs1.
    pose proof (silent_unmap (self st) d') as Hs3.
    split; [reflexivity|].
    split; [rewrite !countb_app, (inert_count _ _ inert_isAddFb Hq1),
              (inert_count _ _ inert_isAddFb Hq3); reflexivity|].
    split; [rewrite !countb_app, (inert_count _ _ inert_isSetPlane Hq1),
              (inert_count _ _ inert_isSetPlane Hq3); reflexivity|].
    split; [rewrite !countb_app, (inert_count _ _ inert_isRmFb Hq1),
              (inert_count _ _ inert_isRmFb Hq3); reflexivity|].
    split; [rewrite !countb_app, (countb_none _ _ _ silent_isSetProperty Hs1),
              (countb_none _ _ _ silent_isSetProperty Hs3); reflexivity|].
    exists (prelude (self st) frame d' primes), (EvPrimeFDToHandle fd pfd r),
      (EvLog LogError "drmPrimeFDToHandle() failed: %d" [] :: unmapEvents (self st) d').
    split; [reflexivity|]. split; [exact Hr|]. split.
    + exact (countb_none _ _ _ lookups_ok_isPrimeFail
               (prelude_lookups_ok (self st) frame d' primes Hp)).
    + unfold unmapEvents. destruct (m_BackendRenderer (self st)); reflexivity.
  - exfalso. rewrite !existsb_app in Hfail.
    rewrite (existsb_none _ _ _ lookups_ok_isPrimeFail
               (prelude_lookups_ok (self st) frame d' primes Hp)) in Hfail.
    replace (existsb isPrimeFail [addfb]) with false in Hfail
      by (revert Hadd; clear; by_event).
    unfold unmapEvents in Hfail.
    destruct (m_BackendRenderer (self st)); discriminate Hfail.
  - exfalso. rewrite !existsb_app in Hfail.
    rewrite (existsb_none _ _ _ lookups_ok_isPrimeFail
               (prelude_lookups_ok (self st) frame d' primes Hp)) in Hfail.
    replace (existsb isPrimeFail [addfb]) with false in Hfail
      by (revert Hadd; clear; by_event).
    destruct HC as (Hc & _).
    unfold interlude in Hfail. rewrite existsb_app in Hfail.
    rewrite (existsb_none isColorEvent isPrimeFail colors) in Hfail;
      [| by_event | exact Hc].
    unfold unmapEvents in Hfail.
    destruct (m_BackendRenderer (self st)); discriminate Hfail.
  - exfalso. rewrite !existsb_app in Hfail.
    rewrite (existsb_none _ _ _ lookups_ok_isPrimeFail
               (prelude_lookups_ok (self st) frame d' primes Hp)) in Hfail.
    replace (existsb isPrimeFail [addfb]) with false in Hfail
      by (revert Hadd; clear; by_event).
    destruct HC as (Hc & _).
    unfold interlude in Hfail. rewrite existsb_app in Hfail.
    rewrite (existsb_none isColorEvent isPrimeFail colors) in Hfail;
      [| by_event | exact Hc].
    unfold unmapEvents in Hfail.
    destruct (m_BackendRenderer (self st)); discriminate Hfail.
Qed.

(* every call of a sequence extends the trace, and the color blocks of the
   whole sequence write nothing when every frame has the cached colors *)
Lemma renderFrames_steady (frames : list AVFrame) :
  forall st : St,
    Forall (fun f => isFrameFullRange f = m_LastFullRange (self st)
                     /\ getFrameColorspace f = m_LastColorSpace (self st)) frames ->
    let st' := snd (renderAll frames st) in
    exists evs,
      trace st' = trace st ++ evs
      /\ planePropertyWrites evs = []
      /\ warnings evs = []
      /\ m_LastFullRange (self st') = m_LastFullRange (self st)
      /\ m_LastColorSpace (self st') = m_LastColorSpace (self st).
Proof.
  induction frames as [|frame frames IH]; intros st Hall; cbn zeta.
  - exists []. simpl. rewrite app_nil_r. auto.
  - cbn [renderFrames]. rewrite snd_bind_unit.
    inversion Hall as [|f fs [Hfr Hcs] Hrest]; subst.
    destruct (renderFrame_fb_step st frame) as (evs1 & Ht1 & _).
    pose proof (renderFrame_color_run st frame) as R. cbn zeta in R.
    set (st1 := snd (render frame st)) in *.
    rewrite (emitted_app _ _ _ Ht1) in R.
    assert (H1 : planePropertyWrites evs1 = [] /\ warnings evs1 = []
                 /\ m_LastFullRange (self st1) = m_LastFullRange (self st)
                 /\ m_LastColorSpace (self st1) = m_LastColorSpace (self st)).
    { destruct (existsb isAddFbOk evs1).
      - destruct R as ((v & Hself) & Hw & Hg).
        unfold rangeChanged, colorspaceChanged in Hw, Hg.
        rewrite Hfr, Hcs, Bool.eqb_reflx, Z.eqb_refl in Hw, Hg.
        rewrite Hself. cbn. auto.
      - destruct R as (Hself & Hw & Hg). rewrite Hself. auto. }
    destruct H1 as (Hw1 & Hg1 & Hfr1 & Hcs1).
    assert (Hall1 : Forall (fun f => isFrameFullRange f = m_LastFullRange (self st1)
                                     /\ getFrameColorspace f = m_LastColorSpace (self st1))
                      frames).
    { rewrite Hfr1, Hcs1. exact Hrest. }
    destruct (IH st1 Hall1) as (evs2 & Ht2 & Hw2 & Hg2 & Hfr2 & Hcs2).
    exists (evs1 ++ evs2). split; [rewrite Ht2, Ht1, app_assoc; reflexivity|].
    rewrite writes_app, warnings_app, Hw1, Hw2, Hg1, Hg2, Hfr2, Hcs2. auto.
Qed.

(** X5: a stream whose frames all have the cached full-range flag and
    colorspace never touches the color properties: over the whole sequence
    of render calls no plane property is written and no color warning is
    logged, whichever calls fail, and the cached color state stays.  A
    write that failed, or was skipped for want of a property or an enum
    entry, is therefore not tried again while the colors stay the same. *)
Theorem steady_stream_leaves_color_properties (st : St) (frames : list AVFrame) :
  let st' := snd (renderAll frames st) in
  Forall (fun f => isFrameFullRange f = m_LastFullRange (self st)
                   /\ getFrameColorspace f = m_LastColorSpace (self st)) frames ->
  planePropertyWrites (emitted st st') = []
  /\ warnings (emitted st st') = []
  /\ m_LastFullRange (self st') = m_LastFullRange (self st)
  /\ m_LastColorSpace (self st') = m_LastColorSpace (self st).
Proof.
  intros st' Hall.
  destruct (renderFrames_steady frames st Hall) as (evs & Ht & H). fold st' in Ht, H.
  rewrite (emitted_app _ _ _ Ht). exact H.
Qed.


(** *** What the kernel is asked to build the framebuffer from *)

Lemma insert_filled (l : list Z) (i : nat) (v : Z) :
  length l = i -> (i < 4)%nat ->
  <[i := v]> (l ++ replicate (4 - i) 0) = (l ++ [v]) ++ replicate (4 - S i) 0.
Proof.
  intros Hl Hi. rewrite insert_app_r_alt by lia.
  replace (i - length l)%nat with 0%nat by lia.
  replace (4 - i)%nat with (S (4 - S i)) by lia.
  rewrite <- app_assoc. reflexivity.
Qed.

Lemma filled_step (f : nat -> Z) (i : nat) :
  (i < 4)%nat -> <[i := f i]> (filled f i) = filled f (S i).
Proof.
  intros Hi. unfold filled.
  rewrite insert_filled by (rewrite ?length_map, ?length_seq; auto).
  rewrite seq_S, map_app. reflexivity.
Qed.

Lemma nth_filled_next (l : list Z) (i : nat) :
  length l = i -> nth i (l ++ replicate (4 - i) 0) 0 = 0.
Proof.
  intros Hl. rewrite app_nth2 by lia.
  replace (i - length l)%nat with 0%nat by lia.
  destruct (4 - i)%nat; reflexivity.
Qed.

Lemma flagsFor_step (d : AVDRMFrameDescriptor) (i : nat) :
  (if planeModifier d i =? DRM_FORMAT_MOD_INVALID then flagsFor d i
   else Z.lor (flagsFor d i) DRM_MODE_FB_MODIFIERS)
  = flagsFor d (S i).
Proof.
  unfold flagsFor. rewrite seq_S, existsb_app. cbn [existsb Nat.add].
  assert (Hi : hasModifier d i = negb (planeModifier d i =? DRM_FORMAT_MOD_INVALID))
    by reflexivity.
  rewrite Hi.
  destruct (existsb (hasModifier d) (seq 0 i));
    destruct (planeModifier d i =? DRM_FORMAT_MOD_INVALID); reflexivity.
Qed.

Lemma resolvePlanes_arrays (d : AVDRMFrameDescriptor) (n : nat) :
  forall (i : nat) (a : FbArrays) (st : St) (done : list Event)
         (a' : FbArrays) (st' : St),
    length done = i ->
    (i + n <= 4)%nat ->
    ResolvedTo d done a ->
    resolvePlanes env d (layerAt d 0) n i a st = (Some a', st') ->
    exists lookups,
      st' = mkSt (self st) (trace st ++ lookups)
      /\ ResolvedTo d (done ++ lookups) a'
      /\ forallb isPrimeOk lookups = true
      /\ map lookedUp lookups = map (planeFd d) (seq i n).
Proof.
  induction n as [|n IH]; intros i a st done a' st' Hlen Hi Ha Hrun.
  - simpl in Hrun. unfold ret in Hrun. injection Hrun as <- <-.
    exists []. rewrite !app_nil_r, St_eta. auto.
  - cbn [resolvePlanes] in Hrun.
    unfold drmPrimeFDToHandle, unmapDrmPrimeFrame, SDL_Log, when, bind, ret, this,
      modify, history, emit in Hrun.
    cbn [self trace fst snd] in Hrun.
    set (fd := m_DrmFd (self st)) in *.
    fold (planeFd d i) in Hrun. fold (planeModifier d i) in Hrun.
    fold (planePitch d i) in Hrun. fold (planeOffset d i) in Hrun.
    set (r := env_drmPrimeFDToHandle env (trace st) fd (planeFd d i)) in *.
    destruct (fst r <? 0) eqn:Hr.
    + exfalso. destruct (m_BackendRenderer (self st)); discriminate Hrun.
    + destruct Ha as (Hh & Hp & Ho & Hm & Hf).
      assert (Ha1 : ResolvedTo d (done ++ [EvPrimeFDToHandle fd (planeFd d i) r])
                      (mkFbArrays
                         (<[i := storeOut (nth i (fb_handles a) 0) r]> (fb_handles a))
                         (<[i := planePitch d i]> (fb_pitches a))
                         (<[i := planeOffset d i]> (fb_offsets a))
                         (<[i := planeModifier d i]> (fb_modifiers a))
                         (if planeModifier d i =? DRM_FORMAT_MOD_INVALID then fb_flags a
                          else Z.lor (fb_flags a) DRM_MODE_FB_MODIFIERS))).
      { unfold ResolvedTo. rewrite length_app. cbn [length fb_handles fb_pitches
          fb_offsets fb_modifiers fb_flags].
        rewrite Hlen in *. replace (i + 1)%nat with (S i) by lia.
        rewrite Hh, Hp, Ho, Hm, Hf.
        rewrite nth_filled_next by (rewrite length_map; exact Hlen).
        rewrite insert_filled by (rewrite ?length_map; auto; lia).
        rewrite !filled_step by lia. rewrite flagsFor_step, map_app.
        repeat split. }
      assert (Hlen1 : length (done ++ [EvPrimeFDToHandle fd (planeFd d i) r]) = S i)
        by (rewrite length_app; cbn [length]; lia).
      assert (Hi1 : (S i + n <= 4)%nat) by lia.
      destruct (IH (S i) _ _ _ a' st' Hlen1 Hi1 Ha1 Hrun)
        as (lookups & Hst & Hres & Hok & Hfds).
      exists (EvPrimeFDToHandle fd (planeFd d i) r :: lookups).
      cbn [self trace] in Hst.
      split; [rewrite Hst, <- app_assoc; reflexivity|].
      split; [rewrite <- app_assoc in Hres; exact Hres|].
      split; [cbn [forallb isPrimeOk]; rewrite Hr; exact Hok|].
      cbn [map lookedUp seq]. rewrite Hfds. reflexivity.
Qed.

Lemma presentFrame_head (frame : AVFrame) (d : AVDRMFrameDescriptor) (dst : SDL_Rect)
    (a : FbArrays) (st0 : St) :
  exists res rest,
    trace (snd (presentFrame env getFrameColorspace isFrameFullRange frame d dst a st0))
    = trace st0
      ++ EvAddFB2WithModifiers (m_DrmFd (self st0)) (frame_width frame)
           (frame_height frame) (layer_format (layerAt d 0))
           (fb_handles a) (fb_pitches a) (fb_offsets a)
           (if Z.land (fb_flags a) DRM_MODE_FB_MODIFIERS =? 0 then None
            else Some (fb_modifiers a))
           (fb_flags a) res
      :: rest.
Proof.
  unfold presentFrame. unfold_calls. cbn [self trace fst snd].
  match goal with
  | |- context [EvAddFB2WithModifiers _ _ _ _ _ _ _ _ _ ?r] => set (res := r)
  end.
  exists res.
  destruct (fst res <? 0).
  - destruct (m_BackendRenderer (self st0)); cbn [self trace fst snd];
      eexists; rewrite <- ?app_assoc; cbn [app]; reflexivity.
  - destruct (m_BackendRenderer (self st0)); cbn [self trace fst snd];
      match goal with
      | |- context [updateColorRange env getFrameColorspace isFrameFullRange frame ?s] =>
          destruct (colorBlocks_run frame s) as (colors & HC & Hrun);
          destruct (colorRange frame s) as [[] s2]
      end;
      cbn [snd] in Hrun;
      destruct (colorEncoding frame s2) as [[] s3];
      cbn [snd self trace] in Hrun, HC; subst s3; cbn [self trace];
      match goal with
      | |- context [EvSetPlane _ _ _ _ _ _ _ _ _ _ _ _ _ ?e] => destruct (e <? 0)
      end;
      cbn [self trace fst snd]; eexists; rewrite <- ?app_assoc; cbn [app]; reflexivity.
Qed.

Lemma flagsFor_bit (d : AVDRMFrameDescriptor) (n : nat) :
  (Z.land (flagsFor d n) DRM_MODE_FB_MODIFIERS =? 0)
  = negb (existsb (hasModifier d) (seq 0 n)).
Proof. unfold flagsFor. destruct (existsb (hasModifier d) (seq 0 n)); reflexivity. Qed.

(** X7: when every handle lookup of a render call succeeds on a frame of
    at most four planes, the call makes one lookup per plane, in plane
    order, each for the file descriptor of the object the plane lies in,
    and then asks the kernel for a framebuffer of the frame's size and the
    layer's format whose arrays hold, plane by plane, the handle the lookup
    stored, the pitch, the offset and the modifier, with zeros in the unused
    slots; the modifiers and the modifier flag are passed exactly when some
    plane's object has a valid modifier. *)
Theorem renderFrame_framebuffer_request (st : St) (frame : AVFrame)
    (d : AVDRMFrameDescriptor) :
  let st' := snd (render frame st) in
  let evs := emitted st st' in
  let n := Z.to_nat (nb_planes (layerAt d 0)) in
  descriptorOf st frame = Some d ->
  nb_planes (layerAt d 0) <= 4 ->
  existsb isPrimeFail evs = false ->
  exists lookups res rest,
    evs = prelude (self st) frame d lookups
          ++ EvAddFB2WithModifiers (m_DrmFd (self st)) (frame_width frame)
               (frame_height frame) (layer_format (layerAt d 0))
               (map storedHandle lookups ++ replicate (4 - n) 0)
               (filled (planePitch d) n)
               (filled (planeOffset d) n)
               (if existsb (hasModifier d) (seq 0 n)
                then Some (filled (planeModifier d) n) else None)
               (if existsb (hasModifier d) (seq 0 n) then DRM_MODE_FB_MODIFIERS else 0)
               res
          :: rest
    /\ forallb isPrimeOk lookups = true
    /\ map lookedUp lookups = map (planeFd d) (seq 0 n).
Proof.
  intros st' evs n Hd Hn Hok.
  assert (Hn' : (0 + n <= 4)%nat) by (unfold n; lia).
  assert (Hz : ResolvedTo d [] zeroFbArrays) by (repeat split).
  subst evs st'. revert Hok. unfold descriptorOf in Hd.
  unfold renderFrame. unfold_calls. cbn [self trace fst snd].
  unfold prelude, mapEvents.
  destruct (m_BackendRenderer (self st)) eqn:Hb; cbn [self trace fst snd].
  - rewrite Hd. cbn [self trace fst snd]. fold n.
    match goal with
    | |- context [resolvePlanes env d (layerAt d 0) n 0 zeroFbArrays ?s] =>
        set (s1 := s);
        destruct (resolvePlanes_run d (layerAt d 0) n 0 zeroFbArrays s1)
          as (primes & Hp & [(a' & E) | (fd' & pfd' & r' & Hr' & E)])
    end; rewrite E.
    + destruct (resolvePlanes_arrays d n 0 zeroFbArrays s1 [] a' _ eq_refl Hn' Hz E)
        as (lookups & Hst & (Hh & Hpi & Ho & Hm & Hf) & Hlook & Hfds).
      apply (f_equal trace) in Hst. cbn [trace self] in Hst.
      apply app_inv_head in Hst. subst lookups.
      cbn [app] in Hh, Hpi, Ho, Hm, Hf.
      assert (Hlen : length primes = n).
      { rewrite <- (length_map lookedUp), Hfds, length_map, length_seq. reflexivity. }
      rewrite Hlen in *.
      match goal with
      | |- context [presentFrame _ _ _ ?f ?dd ?dst ?a ?s] =>
          destruct (presentFrame_head f dd dst a s) as (res & rest & Hhead)
      end.
      cbn [self trace] in Hhead. intros _.
      exists primes, res, rest.
      split; [|split; [exact Hlook | exact Hfds]].
      apply emitted_app. rewrite Hhead.
      rewrite Hh, Hpi, Ho, Hm, Hf, flagsFor_bit. unfold flagsFor.
      unfold s1. cbn [trace]. rewrite <- !app_assoc. cbn [app].
      destruct (existsb (hasModifier d) (seq 0 n)); reflexivity.
    + intros Hfail. exfalso. cbn [snd] in Hfail.
      unfold s1 in Hfail. cbn [trace] in Hfail.
      rewrite <- !app_assoc in Hfail.
      unfold emitted in Hfail. cbn [trace] in Hfail.
      rewrite drop_app_length in Hfail.
      rewrite !existsb_app in Hfail. cbn [existsb isPrimeFail] in Hfail.
      rewrite Hr' in Hfail. cbn in Hfail.
      rewrite ?orb_true_r in Hfail. discriminate Hfail.
  - injection Hd as <-. cbn [self trace fst snd]. fold n.
    match goal with
    | |- context [resolvePlanes env ?dd (layerAt ?dd 0) n 0 zeroFbArrays ?s] =>
        set (s1 := s);
        destruct (resolvePlanes_run dd (layerAt dd 0) n 0 zeroFbArrays s1)
          as (primes & Hp & [(a' & E) | (fd' & pfd' & r' & Hr' & E)])
    end; rewrite E.
    + destruct (resolvePlanes_arrays (data0 frame) n 0 zeroFbArrays s1 [] a' _
                  eq_refl Hn' Hz E)
        as (lookups & Hst & (Hh & Hpi & Ho & Hm & Hf) & Hlook & Hfds).
      apply (f_equal trace) in Hst. cbn [trace self] in Hst.
      apply app_inv_head in Hst. subst lookups.
      cbn [app] in Hh, Hpi, Ho, Hm, Hf.
      assert (Hlen : length primes = n).
      { rewrite <- (length_map lookedUp), Hfds, length_map, length_seq. reflexivity. }
      rewrite Hlen in *.
      match goal with
      | |- context [presentFrame _ _ _ ?f ?dd ?dst ?a ?s] =>
          destruct (presentFrame_head f dd dst a s) as (res & rest & Hhead)
      end.
      cbn [self trace] in Hhead. intros _.
      exists primes, res, rest.
      split; [|split; [exact Hlook | exact Hfds]].
      apply emitted_app. rewrite Hhead.
      rewrite Hh, Hpi, Ho, Hm, Hf, flagsFor_bit. unfold flagsFor.
      unfold s1. cbn [trace]. rewrite <- !app_assoc. cbn [app].
      destruct (existsb (hasModifier (data0 frame)) (seq 0 n)); reflexivity.
    + intros Hfail. exfalso. cbn [snd] in Hfail.
      unfold s1 in Hfail. cbn [trace] in Hfail.
      rewrite <- !app_assoc in Hfail.
      unfold emitted in Hfail. cbn [trace] in Hfail.
      rewrite drop_app_length in Hfail.
      rewrite !existsb_app in Hfail. cbn [existsb isPrimeFail] in Hfail.
      rewrite Hr' in Hfail. cbn in Hfail.
      rewrite ?orb_true_r in Hfail. discriminate Hfail.
Qed.

(** ** Entering HDR mode, and the destructor *)

(** X8: on a display that has HDR_OUTPUT_METADATA, a call that enables HDR
    destroys the blob held before (if any), asks for the session's metadata
    and creates exactly one blob from it (from all-zero metadata when the
    session has none), and then writes the connector property with the
    identifier that creation stored, or with 0 when creation failed or
    stored nothing; the value written is the one the renderer holds
    afterwards, and the identifier held before is never written. *)
Theorem setHdrMode_enable (st : St) (prop : drmModePropertyRes) :
  let st' := snd (setHdrMode env true st) in
  let me := self st in
  m_HdrOutputMetadataProp me = Some prop ->
  exists got r err outcome,
    let applied := if fst r <? 0 then 0 else storeOut 0 r in
    emitted st st'
    = (if m_HdrOutputMetadataBlobId me =? 0 then []
       else [EvDestroyPropertyBlob (m_DrmFd me) (m_HdrOutputMetadataBlobId me)])
      ++ [EvGetHdrMetadata got;
          EvCreatePropertyBlob (m_DrmFd me)
            (fillOutputMetadata (match got with Some m => m | None => zeroHdrMetadata end))
            r]
      ++ (if fst r <? 0
          then [EvLog LogError "drmModeCreatePropertyBlob() failed: %d" []] else [])
      ++ [EvObjectSetProperty (m_DrmFd me) (m_ConnectorId me) DRM_MODE_OBJECT_CONNECTOR
            (prop_id prop) applied err;
          outcome]
    /\ self st' = set_HdrOutputMetadataBlobId applied me.
Proof.
  intros st' me Hprop. subst st' me.
  unfold setHdrMode. unfold_calls. cbn -[fillOutputMetadata]. rewrite Hprop.
  destruct (m_HdrOutputMetadataBlobId (self st) =? 0) eqn:Hid;
    cbn -[fillOutputMetadata];
    try (apply Z.eqb_eq in Hid; rewrite ?Hid);
    match goal with
    | |- context [EvGetHdrMetadata ?g] => set (got := g)
    end;
    match goal with
    | |- context [EvCreatePropertyBlob _ _ ?x] => set (r := x)
    end;
    exists got, r;
    destruct (fst r <? 0) eqn:Hr; cbn -[fillOutputMetadata];
    match goal with
    | |- context [EvObjectSetProperty _ _ _ _ _ ?e] => set (err := e)
    end;
    exists err; destruct (err =? 0); cbn -[fillOutputMetadata];
    eexists;
    (split;
     [ apply emitted_app; cbn [trace]; rewrite <- ?app_assoc; cbn [app]; reflexivity
     | unfold storeOut; destruct (self st); cbn in *; subst; reflexivity ]).
Qed.

(** X9: when the trace so far has alive exactly the blob and the
    framebuffer the renderer holds, the destructor leaves no blob and no
    framebuffer alive: it removes the held framebuffer once and destroys
    the held blob once, whether or not the display has the HDR property
    (leaving HDR mode already destroys the blob and clears the identifier,
    so the destructor's own check finds nothing left), and makes neither
    call for an identifier of 0. *)
Theorem destructor_releases_kernel_objects (st : St) (hwContext : bool) :
  let st' := snd (DrmRenderer_delete env hwContext st) in
  let evs := emitted st st' in
  heldExactly (m_HdrOutputMetadataBlobId (self st)) (liveBlobs (trace st)) = true ->
  liveFramebuffers (trace st) = owned (m_CurrentFbId (self st)) ->
  liveBlobs (trace st') = []
  /\ liveFramebuffers (trace st') = []
  /\ countb isDestroyBlob evs
     = (if m_HdrOutputMetadataBlobId (self st) =? 0 then 0%nat else 1%nat)
  /\ countb isRmFb evs = (if m_CurrentFbId (self st) =? 0 then 0%nat else 1%nat)
  /\ countb isAddFb evs = 0%nat
  /\ countb isSetPlane evs = 0%nat.
Proof.
  intros st' evs Hblob Hfb. subst evs st'.
  unfold DrmRenderer_delete, setHdrMode. unfold_calls. cbn [self trace fst snd].
  unfold liveBlobs, liveFramebuffers in *.
  assert (Hlive : fold_left blobStep (trace st) []
                  = owned (m_HdrOutputMetadataBlobId (self st))).
  { unfold owned. destruct (fold_left blobStep (trace st) []) as [|x [|y l]];
      cbn in Hblob; try discriminate.
    - rewrite Hblob. reflexivity.
    - apply andb_true_iff in Hblob as [Hx Hv]. apply Z.eqb_eq in Hx. subst x.
      apply negb_true_iff in Hv. rewrite Hv. reflexivity. }
  clear Hblob. unfold owned in *.
  destruct (m_HdrOutputMetadataProp (self st)) as [prop|];
    destruct (m_HdrOutputMetadataBlobId (self st) =? 0) eqn:Hid;
    cbn [self trace fst snd negb m_HdrOutputMetadataBlobId set_HdrOutputMetadataBlobId
         m_CurrentFbId m_DrmFd Z.eqb];
    repeat match goal with
      | |- context [env_drmModeObjectSetProperty env ?h ?a ?b ?c ?d ?e =? 0] =>
          destruct (env_drmModeObjectSetProperty env h a b c d e =? 0);
          cbn [self trace fst snd]
      end;
    destruct (m_CurrentFbId (self st) =? 0) eqn:Hcur;
    cbn [self trace fst snd negb m_HdrOutputMetadataBlobId set_HdrOutputMetadataBlobId
         m_CurrentFbId m_DrmFd Z.eqb];
    rewrite ?Hid, ?Hcur; cbn [self trace fst snd negb];
    rewrite <- ?app_assoc; cbn [app];
    unfold emitted; cbn [trace]; rewrite ?drop_app_length, ?app_nil_r, ?drop_all;
    rewrite ?fold_left_app, ?Hlive, ?Hfb;
    cbn [fold_left blobStep fbStep removeId List.filter countb isDestroyBlob isRmFb
         isAddFb isSetPlane length];
    rewrite ?Z.eqb_refl; cbn; auto 10.
Qed.

(** X10: a renderer as the constructor leaves it, with or without a backend
    renderer and whatever the image path was set up with, has nothing to
    give back: the destructor makes no call and releases nothing (no
    property descriptor, no hardware context, and it does not close the
    device handle, which is -1). *)
Theorem destructor_of_unbound_renderer (backend dmaBuf c ck d dk : bool)
    (tr : list Event) :
  let r := set_EGL dmaBuf c ck d dk (DrmRenderer_new backend) in
  DrmRenderer_delete env false (mkSt r tr) = ([], mkSt r tr).
Proof. intros r. subst r. cbv. reflexivity. Qed.

(** ** The image path *)

Lemma nth_insert_other (l : list Z) (i j : nat) (v : Z) :
  i <> j -> nth j (<[i := v]> l) 0 = nth j l 0.
Proof.
  revert i j. induction l as [|x l IH]; intros [|i] [|j] Hij;
    cbn; try reflexivity; try congruence.
  apply IH. congruence.
Qed.

Lemma nth_insert_same (l : list Z) (i : nat) (v : Z) :
  (i < length l)%nat -> nth i (<[i := v]> l) 0 = v.
Proof.
  revert i. induction l as [|x l IH]; intros [|i] Hi; cbn in *;
    first [lia | reflexivity | apply IH; lia].
Qed.

Lemma putAttrib_within (k : nat) (v : Z) (a : AttribList) :
  AttribsWithin k a -> AttribsWithin (S k) (putAttrib v a).
Proof.
  intros (Hlen & Hidx & Hzero). unfold AttribsWithin, putAttrib.
  cbn [attribs attribIndex]. rewrite length_insert.
  split; [exact Hlen|]. split; [lia|].
  intros j Hj. rewrite nth_insert_other by lia. apply Hzero. lia.
Qed.

Lemma within_mono (k k' : nat) (a : AttribList) :
  (k <= k')%nat -> AttribsWithin k a -> AttribsWithin k' a.
Proof. intros Hk (Hlen & Hidx & Hzero). repeat split; auto. lia. Qed.

Lemma putPlane_within (me : DrmRenderer) (fdKey offsetKey pitchKey modLoKey modHiKey : Z)
    (plane : AVDRMPlaneDescriptor) (object : AVDRMObjectDescriptor)
    (k : nat) (a : AttribList) :
  AttribsWithin k a ->
  AttribsWithin (k + 10)
    (putPlane me fdKey offsetKey pitchKey modLoKey modHiKey plane object a).
Proof.
  intros Ha. unfold putPlane.
  destruct (m_EGLExtDmaBuf me && negb (format_modifier object =? DRM_FORMAT_MOD_INVALID)).
  - replace (k + 10)%nat with (S (S (S (S (S (S (S (S (S (S k)))))))))) by lia.
    repeat apply putAttrib_within. exact Ha.
  - apply (within_mono (S (S (S (S (S (S k))))))); [lia|].
    repeat apply putAttrib_within. exact Ha.
Qed.

Lemma exportPlanes_within (me : DrmRenderer) (d : AVDRMFrameDescriptor) (n : nat) :
  forall (i k : nat) (a : AttribList),
    AttribsWithin k a -> AttribsWithin (k + 10 * n) (exportPlanes me d n i a).
Proof.
  induction n as [|n IH]; intros i k a Ha.
  - cbn [exportPlanes]. apply (within_mono k); [lia | exact Ha].
  - cbn [exportPlanes].
    replace (k + 10 * S n)%nat with ((k + 10) + 10 * n)%nat by lia.
    apply IH.
    destruct i as [|[|[|[|i]]]];
      first [apply putPlane_within; exact Ha
            | apply (within_mono k); [lia | exact Ha]].
Qed.

Lemma exportPlanes_index (me : DrmRenderer) (d : AVDRMFrameDescriptor) (n : nat) :
  forall (i : nat) (a : AttribList),
    (attribIndex a <= attribIndex (exportPlanes me d n i a))%nat.
Proof.
  induction n as [|n IH]; intros i a; cbn [exportPlanes]; [lia|].
  etransitivity; [|apply IH].
  destruct i as [|[|[|[|i]]]]; try lia; unfold putPlane;
    destruct (m_EGLExtDmaBuf me && _); cbn [putAttrib attribIndex]; lia.
Qed.

Lemma nth_replicate_zero (n j : nat) : nth j (replicate n 0) 0 = 0.
Proof. revert j. induction n as [|n IH]; intros [|j]; cbn; auto. Qed.

(** X11: for a frame of at most four planes the attribute array handed to
    the image creation fits its sixty slots: the next free slot after the
    terminator is at most 51, so the assertion on the index holds; the
    terminator EGL_NONE is the last attribute written, and every slot from
    the next free one on is still zero. *)
Theorem exportAttribs_fits (me : DrmRenderer) (frame : AVFrame) :
  let a := exportAttribs getFrameColorspace isFrameFullRange me frame in
  nb_planes (layerAt (data0 frame) 0) <= 4 ->
  length (attribs a) = MAX_ATTRIB_COUNT
  /\ (9 <= attribIndex a <= 51)%nat
  /\ (attribIndex a <= MAX_ATTRIB_COUNT)%nat
  /\ nth (attribIndex a - 1) (attribs a) 0 = EGL_NONE
  /\ forall j, (attribIndex a <= j)%nat -> nth j (attribs a) 0 = 0.
Proof.
  intros a Hn. subst a. unfold exportAttribs.
  set (d := data0 frame) in *.
  set (n := Z.to_nat (nb_planes (layerAt d 0))).
  assert (Hn4 : (n <= 4)%nat) by (unfold n; lia).
  set (a0 := mkAttribList _ 6).
  assert (H0 : AttribsWithin 6 a0).
  { repeat split; [cbn; lia|].
    intros j Hj. cbn [attribIndex a0] in Hj. cbn [attribs a0].
    do 6 (destruct j as [|j]; [lia|]). cbn [app nth].
    apply nth_replicate_zero. }
  assert (Hlow0 : (6 <= attribIndex a0)%nat) by (cbn; lia).
  pose proof (exportPlanes_within me d n 0 6 a0 H0) as H1.
  assert (Hlow1 : (6 <= attribIndex (exportPlanes me d n 0 a0))%nat).
  { pose proof (exportPlanes_index me d n 0 a0). lia. }
  set (a1 := exportPlanes me d n 0 a0) in *.
  apply (within_mono _ 46) in H1; [|lia].
  match goal with
  | |- context [putAttrib EGL_SAMPLE_RANGE_HINT_EXT ?x] => set (a2 := x)
  end.
  assert (H2 : AttribsWithin 48 a2 /\ (6 <= attribIndex a2)%nat).
  { unfold a2.
    destruct (getFrameColorspace frame =? COLORSPACE_REC_601);
      [|destruct (getFrameColorspace frame =? COLORSPACE_REC_709);
        [|destruct (getFrameColorspace frame =? COLORSPACE_REC_2020)]];
      (split; [first [do 2 apply putAttrib_within; exact H1
                     | apply (within_mono 46); [lia | exact H1]]
             | cbn [putAttrib attribIndex]; lia]). }
  destruct H2 as [H2 Hlow2].
  match goal with
  | |- context [putAttrib EGL_NONE ?x] => set (a3 := x)
  end.
  assert (H3 : AttribsWithin 50 a3 /\ (8 <= attribIndex a3)%nat).
  { unfold a3. split; [do 2 apply putAttrib_within; exact H2|].
    cbn [putAttrib attribIndex]. lia. }
  destruct H3 as [H3 Hlow3].
  destruct (putAttrib_within 50 EGL_NONE a3 H3) as (Hlen & Hidx & Hzero).
  destruct H3 as (Hlen3 & Hidx3 & _).
  split; [exact Hlen|].
  split; [cbn [putAttrib attribIndex] in *; lia|].
  split; [unfold MAX_ATTRIB_COUNT; cbn [putAttrib attribIndex] in *; lia|].
  split; [|exact Hzero].
  cbn [putAttrib attribIndex attribs].
  replace (S (attribIndex a3) - 1)%nat with (attribIndex a3) by lia.
  apply nth_insert_same. rewrite Hlen3. unfold MAX_ATTRIB_COUNT. lia.
Qed.

Local Abbreviation exportImages :=
  (exportEGLImages env getFrameColorspace isFrameFullRange).

(** X12: an export makes exactly one image creation, through
    eglCreateImage when that entry point was resolved and through
    eglCreateImageKHR otherwise, and leaves the renderer as it was.  When
    the image is not null the result is 1 with the image in the first slot
    and zeros in the other three, and nothing else is called; when it is
    null the result is -1 with four zeros, one error is logged, and the
    destroy entry point is called once, on the null image. *)
Theorem exportEGLImages_result (st : St) (frame : AVFrame) :
  let r := exportImages frame st in
  let st' := snd r in
  let me := self st in
  exists attrs image,
    self st' = me
    /\ ((image <> 0
         /\ fst r = (1, [image; 0; 0; 0])
         /\ emitted st st' = [EvCreateImage (negb (m_eglCreateImage me)) attrs image])
        \/ (image = 0
            /\ fst r = (-1, [0; 0; 0; 0])
            /\ exists msg,
                 emitted st st'
                 = [EvCreateImage (negb (m_eglCreateImage me)) attrs 0;
                    EvLog LogError msg [];
                    EvDestroyImage (negb (m_eglDestroyImage me)) 0])).
Proof.
  intros r st' me. subst r st' me.
  unfold exportEGLImages, freeEGLImages. unfold_calls. cbn [self trace fst snd].
  destruct (m_eglCreateImage (self st)) eqn:Hc; cbn [self trace fst snd negb];
    match goal with
    | |- context [EvCreateImage ?k ?ats ?im] => set (image := im); exists ats, image
    end;
    (destruct (image =? 0) eqn:Hi; cbn [self trace fst snd];
     [ apply Z.eqb_eq in Hi; rewrite ?Hi;
       cbn [replicate EGL_MAX_PLANES nth];
       destruct (m_eglDestroyImage (self st)); cbn [self trace fst snd negb];
       (split; [reflexivity|]); right;
       (split; [first [exact Hi | reflexivity]|]); (split; [reflexivity|]);
       eexists; apply emitted_app; cbn [trace]; rewrite <- ?app_assoc; reflexivity
     | apply Z.eqb_neq in Hi;
       (split; [reflexivity|]); left;
       (split; [exact Hi|]); (split; [reflexivity|]);
       apply emitted_app; reflexivity ]).
Qed.

(** X13: when an export returned an image, freeing the array it filled
    destroys exactly that image, once: the two calls together make one
    creation and one destruction of the same image, and the renderer is as
    before. *)
Theorem export_then_free (st : St) (frame : AVFrame) :
  let r := exportImages frame st in
  let st1 := snd r in
  let st2 := snd (freeEGLImages (snd (fst r)) st1) in
  fst (fst r) = 1 ->
  exists attrs image,
    image <> 0
    /\ emitted st st2
       = [EvCreateImage (negb (m_eglCreateImage (self st))) attrs image;
          EvDestroyImage (negb (m_eglDestroyImage (self st))) image]
    /\ self st2 = self st.
Proof.
  intros r st1 st2. subst r st1 st2.
  unfold exportEGLImages, freeEGLImages. unfold_calls. cbn [self trace fst snd].
  destruct (m_eglCreateImage (self st)) eqn:Hc; cbn [self trace fst snd negb];
    match goal with
    | |- context [EvCreateImage ?k ?ats ?im] => set (image := im)
    end;
    (destruct (image =? 0) eqn:Hi; cbn [self trace fst snd];
     [ destruct (m_eglDestroyImage (self st)); cbn [self trace fst snd];
       intros Hone; discriminate Hone
     | intros _; apply Z.eqb_neq in Hi;
       destruct (m_eglDestroyImage (self st)); cbn [self trace fst snd negb];
       cbn [replicate EGL_MAX_PLANES nth];
       eexists _, image; (split; [exact Hi|]);
       (split; [apply emitted_app; cbn [trace]; rewrite <- ?app_assoc; reflexivity
               | reflexivity]) ]).
Qed.

Lemma findEnum_spec (desiredValue : string) (es : list drm_mode_property_enum) :
  match findEnum desiredValue es with
  | Some e =>
      exists before after,
        es = before ++ e :: after
        /\ enum_name e = desiredValue
        /\ Forall (fun x => enum_name x <> desiredValue) before
  | None => Forall (fun x => enum_name x <> desiredValue) es
  end.
Proof.
  induction es as [|x es IH]; cbn [findEnum]; [constructor|].
  destruct (String.eqb desiredValue (enum_name x)) eqn:Hx.
  - apply String.eqb_eq in Hx. exists [], es. repeat split; auto.
  - apply String.eqb_neq in Hx.
    destruct (findEnum desiredValue es) as [e|].
    + destruct IH as (before & after & -> & Hname & Hbefore).
      exists (x :: before), after. repeat split; auto.
    + constructor; auto.
Qed.

(** X14: the search of a property's enum entries stops at the first entry
    whose name is the wanted string: it finds an entry exactly when that
    entry has the name and no entry before it has, and finds nothing
    exactly when no entry has the name. *)
Theorem findEnum_first_match (desiredValue : string) (es : list drm_mode_property_enum) :
  (forall e,
     findEnum desiredValue es = Some e
     <-> exists before after,
           es = before ++ e :: after
           /\ enum_name e = desiredValue
           /\ Forall (fun x => enum_name x <> desiredValue) before)
  /\ (findEnum desiredValue es = None
      <-> Forall (fun x => enum_name x <> desiredValue) es).
Proof.
  assert (Hfound : forall before e after,
             enum_name e = desiredValue ->
             Forall (fun x => enum_name x <> desiredValue) before ->
             findEnum desiredValue (before ++ e :: after) = Some e).
  { induction before as [|x before IH]; intros e after He Hb; cbn [app findEnum].
    - rewrite <- He, String.eqb_refl. reflexivity.
    - inversion Hb as [|? ? Hx Hrest]; subst.
      apply not_eq_sym, String.eqb_neq in Hx. rewrite Hx. apply IH; auto. }
  pose proof (findEnum_spec desiredValue es) as Hspec.
  split.
  - intros e. split.
    + intros Hf. rewrite Hf in Hspec. exact Hspec.
    + intros (before & after & -> & He & Hb). apply Hfound; auto.
  - split.
    + intros Hf. rewrite Hf in Hspec. exact Hspec.
    + intros Hall. destruct (findEnum desiredValue es) as [e|]; [|reflexivity].
      destruct Hspec as (before & after & -> & He & _).
      apply Forall_app in Hall as [_ Hall]. inversion Hall; subst. contradiction.
Qed.

(** ** Format queries and the negotiation of the image path *)

Section Negotiation.

Variable backend_getPreferredPixelFormat : Z -> Z.
Variable backend_isPixelFormatSupported : Z -> Z -> bool.
Variable AV_PIX_FMT_DRM_PRIME : Z.
Variable qgetenv : string -> string.
Variable ext_isSupported : string -> bool.
Variable eglGetProcAddress : string -> bool.

Local Abbreviation formatSupported :=
  (isPixelFormatSupported backend_getPreferredPixelFormat
     backend_isPixelFormatSupported AV_PIX_FMT_DRM_PRIME).
Local Abbreviation preferredFormat :=
  (getPreferredPixelFormat backend_getPreferredPixelFormat AV_PIX_FMT_DRM_PRIME).
Local Abbreviation negotiate := (initializeEGL ext_isSupported eglGetProcAddress).

(** X15: without a backend renderer the format query does not compare the
    format it is asked about with anything: since the DRM PRIME format is
    not the zero enumerator, the returned preferred format converts to
    true, so every pixel format of every video format is reported as
    supported, the preferred one and all others alike; the call changes
    nothing and makes no outside call. *)
Theorem isPixelFormatSupported_without_backend (st : St) (videoFormat pixelFormat : Z) :
  m_BackendRenderer (self st) = false ->
  AV_PIX_FMT_DRM_PRIME <> 0 ->
  formatSupported videoFormat pixelFormat st = (true, st)
  /\ preferredFormat videoFormat st = (AV_PIX_FMT_DRM_PRIME, st).
Proof.
  intros Hb Hfmt. unfold isPixelFormatSupported, getPreferredPixelFormat.
  unfold_calls. cbn [self trace fst snd]. rewrite !Hb. cbn.
  apply Z.eqb_neq in Hfmt. rewrite Hfmt. split; reflexivity.
Qed.

(** X16: the image path is declined exactly when DRM_FORCE_DIRECT is "1",
    or when DRM_FORCE_EGL is not "1" and the renderer both supports direct
    rendering and plays 10-bit HDR; DRM_FORCE_DIRECT wins over
    DRM_FORCE_EGL.  Either way the call logs one informational line and
    leaves the renderer as it was. *)
Theorem canExportEGL_decision (st : St) :
  let r := canExportEGL qgetenv st in
  (fst r = false
   <-> qgetenv "DRM_FORCE_DIRECT" = "1"
       \/ (qgetenv "DRM_FORCE_EGL" <> "1"
           /\ m_SupportsDirectRendering (self st) = true
           /\ m_Main10Hdr (self st) = true))
  /\ self (snd r) = self st
  /\ exists msg, emitted st (snd r) = [EvLog LogInfo msg []].
Proof.
  intros r. subst r. unfold canExportEGL. unfold_calls. cbn [self trace fst snd].
  destruct (String.eqb (qgetenv "DRM_FORCE_DIRECT") "1") eqn:Hd;
    [apply String.eqb_eq in Hd | apply String.eqb_neq in Hd];
    cbn [self trace fst snd].
  - split; [tauto|]. split; [reflexivity|]. eexists. apply emitted_app. reflexivity.
  - destruct (String.eqb (qgetenv "DRM_FORCE_EGL") "1") eqn:He;
      [apply String.eqb_eq in He | apply String.eqb_neq in He];
      cbn [self trace fst snd].
    + split; [|split; [reflexivity|eexists; apply emitted_app; reflexivity]].
      split; [discriminate|]. intros [H|(H & _)]; contradiction.
    + destruct (m_SupportsDirectRendering (self st));
        destruct (m_Main10Hdr (self st)); cbn [andb self trace fst snd];
        (split; [|split; [reflexivity|eexists; apply emitted_app; reflexivity]]);
        (split; [first [discriminate | intros _; right; auto]
                | first [reflexivity
                        | intros [H|(_ & H1 & H2)];
                          [contradiction | discriminate]]]).
Qed.

(** X17: the setup of the image path succeeds exactly when the DMA-BUF
    import extension is supported and one complete pair of entry points
    was resolved, eglCreateImage with eglDestroyImage or eglCreateImageKHR
    with eglDestroyImageKHR.  When the extension is missing the renderer is
    left untouched; otherwise the five image members are overwritten with
    what was found, also when the call then fails.  A failure logs one
    error and a success logs nothing. *)
Theorem initializeEGL_result (st : St) :
  let r := negotiate st in
  let st' := snd r in
  let found :=
    set_EGL (ext_isSupported "EGL_EXT_image_dma_buf_import_modifiers")
      (eglGetProcAddress "eglCreateImage") (eglGetProcAddress "eglCreateImageKHR")
      (eglGetProcAddress "eglDestroyImage") (eglGetProcAddress "eglDestroyImageKHR")
      (self st) in
  (fst r = true
   <-> ext_isSupported "EGL_EXT_image_dma_buf_import" = true
       /\ hasImageEntryPoints found = true)
  /\ self st' = (if ext_isSupported "EGL_EXT_image_dma_buf_import" then found else self st)
  /\ (fst r = true -> emitted st st' = [])
  /\ (fst r = false -> exists msg, emitted st st' = [EvLog LogError msg []]).
Proof.
  intros r st' found. subst r st' found.
  unfold initializeEGL, hasImageEntryPoints. unfold_calls. cbn [self trace fst snd].
  destruct (ext_isSupported "EGL_EXT_image_dma_buf_import"); cbn [negb self trace fst snd].
  - cbn [set_EGL m_eglCreateImage m_eglDestroyImage m_eglCreateImageKHR
         m_eglDestroyImageKHR].
    destruct (eglGetProcAddress "eglCreateImage");
      destruct (eglGetProcAddress "eglDestroyImage");
      destruct (eglGetProcAddress "eglCreateImageKHR");
      destruct (eglGetProcAddress "eglDestroyImageKHR");
      cbn [andb orb negb self trace fst snd];
      (split; [split; [auto | intros [_ H]; first [exact H | reflexivity]]|]);
      (split; [reflexivity|]);
      (split; [intros H; first [discriminate H
                               | unfold emitted; cbn [trace]; apply drop_all]
              | intros H; first [discriminate H
                                | eexists; apply emitted_app; reflexivity]]).
  - split; [split; [discriminate | intros [H _]; discriminate H]|].
    split; [reflexivity|].
    split; [discriminate|]. intros _. eexists. apply emitted_app. reflexivity.
Qed.

Lemma initializeEGL_success (st : St) :
  fst (negotiate st) = true ->
  hasImageEntryPoints (self (snd (negotiate st))) = true.
Proof.
  unfold initializeEGL, hasImageEntryPoints. unfold_calls. cbn [self trace fst snd].
  destruct (ext_isSupported "EGL_EXT_image_dma_buf_import");
    cbn [negb self trace fst snd]; [|discriminate].
  cbn [set_EGL m_eglCreateImage m_eglDestroyImage m_eglCreateImageKHR
       m_eglDestroyImageKHR].
  destruct (eglGetProcAddress "eglCreateImage");
    destruct (eglGetProcAddress "eglDestroyImage");
    destruct (eglGetProcAddress "eglCreateImageKHR");
    destruct (eglGetProcAddress "eglDestroyImageKHR");
    cbn; auto.
Qed.

(** X18: after a successful setup of the image path, an export and a
    release only ever go through entry points that were resolved: no call
    is made through a missing one, whichever of them the driver has.  (The
    creation and the destruction need not come from the same pair.) *)
Theorem initializeEGL_then_images (st : St) (frame : AVFrame) (images : list Z) :
  let st1 := snd (negotiate st) in
  fst (negotiate st) = true ->
  forallb (entryPointResolved (self st1))
    (emitted st1 (snd (exportImages frame st1))) = true
  /\ forallb (entryPointResolved (self st1))
       (emitted st1 (snd (freeEGLImages images st1))) = true.
Proof.
  intros st1 Hok. apply initializeEGL_success in Hok. fold st1 in Hok.
  generalize dependent st1. intros st1 Hpair. unfold hasImageEntryPoints in Hpair.
  unfold exportEGLImages, freeEGLImages. unfold_calls. cbn [self trace fst snd].
  split.
  - destruct (m_eglCreateImage (self st1)) eqn:Hc; cbn [self trace fst snd];
      match goal with
      | |- context [EvCreateImage ?k ?ats ?im] => destruct (im =? 0)
      end; cbn [self trace fst snd];
      destruct (m_eglDestroyImage (self st1)) eqn:Hd;
      destruct (m_eglCreateImageKHR (self st1)) eqn:Hck;
      destruct (m_eglDestroyImageKHR (self st1)) eqn:Hdk;
      cbn in Hpair; try discriminate Hpair;
      cbn [self trace fst snd];
      unfold emitted; cbn [trace]; rewrite <- ?app_assoc, drop_app_length;
      cbn [app forallb entryPointResolved]; rewrite ?Hc, ?Hd, ?Hck, ?Hdk; reflexivity.
  - destruct (m_eglCreateImage (self st1)), (m_eglDestroyImage (self st1)) eqn:Hd,
      (m_eglCreateImageKHR (self st1)), (m_eglDestroyImageKHR (self st1)) eqn:Hk;
      cbn in Hpair; try discriminate Hpair;
      cbn [self trace fst snd];
      unfold emitted; cbn [trace]; rewrite drop_app_length;
      cbn [forallb entryPointResolved]; rewrite ?Hd, ?Hk; reflexivity.
Qed.

End Negotiation.

(** X19: for a frame whose colorspace is none of BT.601, BT.709 and
    BT.2020 there is no encoding name, and the color encoding block is
    silent: it writes no property and logs nothing, not even a warning,
    and only records the frame's colorspace as the cached one. *)
Theorem unknown_colorspace_is_silent (st : St) (frame : AVFrame) :
  getFrameColorspace frame <> COLORSPACE_REC_601 ->
  getFrameColorspace frame <> COLORSPACE_REC_709 ->
  getFrameColorspace frame <> COLORSPACE_REC_2020 ->
  getDrmColorEncodingValue getFrameColorspace frame = None
  /\ colorEncoding frame st
     = (tt, mkSt (set_LastColorSpace (getFrameColorspace frame) (self st)) (trace st)).
Proof.
  intros H601 H709 H2020.
  apply Z.eqb_neq in H601, H709, H2020.
  assert (Hnone : getDrmColorEncodingValue getFrameColorspace frame = None).
  { unfold getDrmColorEncodingValue. rewrite H601, H709, H2020. reflexivity. }
  split; [exact Hnone|].
  unfold updateColorEncoding. unfold_calls. cbn [self trace fst snd].
  rewrite Hnone.
  destruct (getFrameColorspace frame =? m_LastColorSpace (self st)) eqn:Hsame;
    cbn [negb].
  - apply Z.eqb_eq in Hsame. rewrite Hsame, set_LastColorSpace_same, St_eta.
    reflexivity.
  - destruct (m_ColorEncodingProp (self st)); reflexivity.
Qed.

End Verification.

(** ** The theorems at sample inputs *)

Section Witnesses.

Import Sample.

Local Abbreviation sampleRender env :=
  (renderFrame env colorspaceOf fullRangeOf scale).

(* a successful first frame through a backend renderer: framebuffer 5 is
   created, committed and recorded as current *)
Lemma renderFrame_success_witness :
  let st := start true in
  let st' := snd (sampleRender goodEnv frame709 st) in
  forallb callOk (emitted st st') = true
  /\ m_CurrentFbId (self st') = 5
  /\ liveFramebuffers (trace st') = [5]
  /\ planeFramebuffer (trace st') = 5.
Proof.
  split; [reflexivity|].
  destruct (renderFrame_success_replaces_framebuffer goodEnv colorspaceOf fullRangeOf
              scale (start true) frame709 nv12Descriptor)
    as (pre & newFbId & err & _ & _ & _ & _ & _ & Hcur & Hlive);
    [reflexivity | reflexivity | simpl; lia | reflexivity |].
  destruct Hlive as [Hl Hp]; [reflexivity | reflexivity |].
  cbv zeta. rewrite Hl, Hp, Hcur. 
  repeat split; f_equal; symmetry; exact Hcur.
Defined.

(* the second frame fails: its framebuffer cannot be created, or its commit
   is refused; framebuffer 5 of the first frame stays current and shown *)
Lemma renderFrame_failure_witness :
  let st := snd (sampleRender goodEnv frame709 (start true)) in
  let created := snd (sampleRender noFbEnv frame709 st) in
  let committed := snd (sampleRender noCommitEnv frame709 st) in
  (existsb isAddFbFail (emitted st created) = true
   /\ m_CurrentFbId (self created) = 5
   /\ planeFramebuffer (trace created) = 5)
  /\ (existsb isSetPlaneFail (emitted st committed) = true
      /\ m_CurrentFbId (self committed) = 5
      /\ planeFramebuffer (trace committed) = 5).
Proof.
  split.
  - split; [reflexivity|].
    destruct (renderFrame_failure_keeps_framebuffer noFbEnv colorspaceOf fullRangeOf scale
                (snd (sampleRender goodEnv frame709 (start true))) frame709)
      as (Hcur & Hshown & _); [left; reflexivity|].
    split; [exact Hcur | exact Hshown].
  - split; [reflexivity|].
    destruct (renderFrame_failure_keeps_framebuffer noCommitEnv colorspaceOf fullRangeOf
                scale (snd (sampleRender goodEnv frame709 (start true))) frame709)
      as (Hcur & Hshown & _); [right; reflexivity|].
    split; [exact Hcur | exact Hshown].
Defined.

(* BT.709 limited range, then BT.2020 limited range: the range property
   (40) is written again although the range flag did not change *)
Lemma color_reevaluation_witness :
  let st := start true in
  let st1 := snd (sampleRender goodEnv frame709 st) in
  let st2 := snd (sampleRender goodEnv frame2020 st1) in
  existsb isAddFbOk (emitted st st1) = true
  /\ existsb isAddFbOk (emitted st1 st2) = true
  /\ planePropertyWrites (emitted st1 st2) = [(33, 40, 0); (33, 41, 2)]
  /\ warnings (emitted st1 st2) = [].
Proof.
  split; [reflexivity|]. split; [reflexivity|].
  exact (color_properties_reevaluated_on_change goodEnv colorspaceOf fullRangeOf scale
           (start true) frame709 frame2020 eq_refl eq_refl).
Defined.

(* enable, enable, disable on a device with the property *)
Lemma setHdrMode_blob_discipline_witness :
  let st := start true in
  let st' := snd (setHdrModes goodEnv [true; true; false] st) in
  forallb blobStored (emitted st st') = true
  /\ hdrTraceOk (liveBlobs (trace st)) (emitted st st') = true
  /\ liveBlobs (trace st') = []
  /\ m_HdrOutputMetadataBlobId (self st') = 0.
Proof.
  split; [reflexivity|].
  destruct (setHdrMode_blob_discipline goodEnv (start true) [true; true; false] hdrProp)
    as (Hok & _ & Hoff); [reflexivity | reflexivity | reflexivity |].
  destruct (Hoff [true; true] eq_refl) as (Hzero & _).
  split; [exact Hok|]. split; [reflexivity | exact Hzero].
Defined.

(* a renderer that never found the property *)
Lemma setHdrMode_without_property_witness :
  m_HdrOutputMetadataProp (self (unbound false)) = None
  /\ trace (snd (setHdrMode goodEnv true (unbound false)))
     = [EvLog LogWarn
          "HDR_OUTPUT_METADATA is unavailable on this display. Unable to enter HDR mode!" []]
  /\ setHdrMode goodEnv false (unbound false) = (tt, unbound false).
Proof.
  split; [reflexivity|].
  destruct (setHdrMode_without_property goodEnv (unbound false) eq_refl) as [Hon Hoff].
  split; [rewrite Hon; reflexivity | exact Hoff].
Defined.

(* the NV12 frame: two planes on one object with the linear modifier *)
Lemma exportEGLImages_two_plane_witness :
  let a := exportAttribs colorspaceOf fullRangeOf (boundRenderer false) frame709 in
  nb_planes (layerAt (data0 frame709) 0) = 2
  /\ take (attribIndex a) (attribs a)
     = [EGL_LINUX_DRM_FOURCC_EXT; 0x3231564e; EGL_WIDTH; 1920; EGL_HEIGHT; 1080;
        EGL_DMA_BUF_PLANE0_FD_EXT; 7; EGL_DMA_BUF_PLANE0_OFFSET_EXT; 0;
        EGL_DMA_BUF_PLANE0_PITCH_EXT; 1920;
        EGL_DMA_BUF_PLANE0_MODIFIER_LO_EXT; 0; EGL_DMA_BUF_PLANE0_MODIFIER_HI_EXT; 0;
        EGL_DMA_BUF_PLANE1_FD_EXT; 7; EGL_DMA_BUF_PLANE1_OFFSET_EXT; 2073600;
        EGL_DMA_BUF_PLANE1_PITCH_EXT; 1920;
        EGL_DMA_BUF_PLANE1_MODIFIER_LO_EXT; 0; EGL_DMA_BUF_PLANE1_MODIFIER_HI_EXT; 0;
        EGL_YUV_COLOR_SPACE_HINT_EXT; EGL_ITU_REC709_EXT;
        EGL_SAMPLE_RANGE_HINT_EXT; EGL_YUV_NARROW_RANGE_EXT;
        EGL_NONE].
Proof.
  split; [reflexivity|].
  destruct (exportEGLImages_two_plane_attributes goodEnv colorspaceOf fullRangeOf
              (start false) frame709)
    as (_ & Htake & _); [reflexivity | reflexivity | discriminate | discriminate |].
  exact Htake.
Defined.

(* a frontend renderer: the mapped frame is unmapped once *)
Lemma map_unmap_paired_witness :
  let st := start true in
  m_BackendRenderer (self st) = true
  /\ countb isUnmap (emitted st (snd (sampleRender goodEnv frame709 st))) = 1%nat
  /\ countb isUnmap (emitted st (snd (testRenderFrame goodEnv frame709 st))) = 1%nat.
Proof.
  split; [reflexivity|].
  destruct (map_unmap_paired goodEnv colorspaceOf fullRangeOf scale (start true) frame709
              eq_refl)
    as ((_ & Hr & _) & (_ & Ht & _)).
  split; [rewrite Hr | rewrite Ht]; reflexivity.
Defined.

(** C6, the claim refuted: on a plane without color properties no property
    write is attempted, and yet the render call replaces the cached color
    state (false, -1) by the frame's (true, BT.709). *)
Lemma color_cache_updated_without_write :
  let st := startPlain in
  let st' := snd (sampleRender goodEnv frame709full st) in
  countb isSetProperty (emitted st st') = 0%nat
  /\ (m_LastFullRange (self st), m_LastColorSpace (self st)) = (false, -1)
  /\ (m_LastFullRange (self st'), m_LastColorSpace (self st')) = (true, COLORSPACE_REC_709).
Proof. repeat split. Qed.

(* two frames in a row: the framebuffer of the first frame is replaced by
   framebuffer 14 of the second, and the plane shows it *)
Lemma renderFrames_keep_one_framebuffer_witness :
  let st := start false in
  let st' := snd (renderFrames goodEnv colorspaceOf fullRangeOf scale
                    [frame709; frame2020] st) in
  liveFramebuffers (trace st') = owned (m_CurrentFbId (self st'))
  /\ liveFramebuffers (trace st') = [14]
  /\ fbBounded 2 (liveFramebuffers (trace st)) (emitted st st') = true.
Proof.
  destruct (renderFrames_keep_one_framebuffer goodEnv colorspaceOf fullRangeOf scale
              (start false) [frame709; frame2020] eq_refl eq_refl) as [Hlive Hbound].
  split; [exact Hlive|]. split; [reflexivity | exact Hbound].
Defined.

Lemma renderFrames_plane_shows_current_witness :
  let st := start false in
  let st' := snd (renderFrames goodEnv colorspaceOf fullRangeOf scale
                    [frame709; frame2020] st) in
  planeFramebuffer (trace st') = m_CurrentFbId (self st')
  /\ m_CurrentFbId (self st') = 14.
Proof.
  split; [|reflexivity].
  exact (renderFrames_plane_shows_current goodEnv colorspaceOf fullRangeOf scale
           (start false) [frame709; frame2020] eq_refl).
Defined.

(* a backend that cannot map the frame *)
Lemma renderFrame_mapping_failure_witness :
  sampleRender noMapEnv frame709 (start true)
  = (tt, mkSt (boundRenderer true)
           [EvLog LogDebug "1" []; EvMapDrmPrimeFrame frame709 None]).
Proof.
  exact (renderFrame_mapping_failure noMapEnv colorspaceOf fullRangeOf scale
           (start true) frame709 eq_refl).
Defined.

(* the lookup for the second plane of the NV12 frame fails *)
Lemma renderFrame_resolution_failure_witness :
  let st := start true in
  let st' := snd (sampleRender noHandleEnv frame709 st) in
  countb isPrime (emitted st st') = 2%nat
  /\ self st' = self st
  /\ countb isAddFb (emitted st st') = 0%nat
  /\ countb isSetProperty (emitted st st') = 0%nat.
Proof.
  split; [reflexivity|].
  destruct (renderFrame_resolution_failure noHandleEnv colorspaceOf fullRangeOf scale
              (start true) frame709 eq_refl) as (Hself & Hadd & _ & _ & Hprop & _).
  split; [exact Hself|]. split; [exact Hadd | exact Hprop].
Defined.

(* after a first BT.709 frame, two more of them *)
Lemma steady_stream_witness :
  let st := snd (sampleRender goodEnv frame709 (start false)) in
  let st' := snd (renderFrames goodEnv colorspaceOf fullRangeOf scale
                    [frame709; frame709] st) in
  planePropertyWrites (emitted (start false) st) = [(33, 40, 0); (33, 41, 1)]
  /\ planePropertyWrites (emitted st st') = []
  /\ warnings (emitted st st') = [].
Proof.
  split; [reflexivity|].
  destruct (steady_stream_leaves_color_properties goodEnv colorspaceOf fullRangeOf scale
              (snd (sampleRender goodEnv frame709 (start false))) [frame709; frame709])
    as (Hw & Hwarn & _).
  - repeat constructor.
  - split; [exact Hw | exact Hwarn].
Defined.

(* the NV12 frame: both planes lie in object 7, and the object's modifier
   (linear) is passed along *)
Lemma renderFrame_framebuffer_request_witness :
  let st := start false in
  let st' := snd (sampleRender goodEnv frame709 st) in
  exists lookups res rest,
    emitted st st'
    = [EvLog LogDebug "1" []] ++ lookups
      ++ EvAddFB2WithModifiers 5 1920 1080 0x3231564e
           (map storedHandle lookups ++ [0; 0])
           [1920; 1920; 0; 0] [0; 2073600; 0; 0]
           (Some [0; 0; 0; 0]) DRM_MODE_FB_MODIFIERS res
      :: rest
    /\ map lookedUp lookups = [7; 7].
Proof.
  destruct (renderFrame_framebuffer_request goodEnv colorspaceOf fullRangeOf scale
              (start false) frame709 nv12Descriptor)
    as (lookups & res & rest & Hevs & Hok & Hfds);
    [reflexivity | simpl; lia | reflexivity |].
  exists lookups, res, rest. split; [exact Hevs | exact Hfds].
Defined.

(* entering HDR on the sample display, which holds no blob yet: blob 2 is
   created and held *)
Lemma setHdrMode_enable_witness :
  let st := start false in
  let st' := snd (setHdrMode goodEnv true st) in
  m_HdrOutputMetadataBlobId (self st') = 2
  /\ exists got r err outcome,
       emitted st st'
       = [EvGetHdrMetadata got;
          EvCreatePropertyBlob 5
            (fillOutputMetadata (match got with Some m => m | None => zeroHdrMetadata end))
            r]
         ++ (if fst r <? 0
             then [EvLog LogError "drmModeCreatePropertyBlob() failed: %d" []] else [])
         ++ [EvObjectSetProperty 5 30 DRM_MODE_OBJECT_CONNECTOR 42
               (if fst r <? 0 then 0 else storeOut 0 r) err;
             outcome].
Proof.
  split; [reflexivity|].
  destruct (setHdrMode_enable goodEnv (start false) hdrProp eq_refl)
    as (got & r & err & outcome & Hevs & _).
  exists got, r, err, outcome. exact Hevs.
Defined.

(* a renderer that holds framebuffer 4 and blob 12 when it is destroyed *)
Lemma destructor_witness :
  let st := snd (setHdrMode goodEnv true (snd (sampleRender goodEnv frame709 (start false)))) in
  let st' := snd (DrmRenderer_delete goodEnv false st) in
  (liveFramebuffers (trace st), liveBlobs (trace st)) = ([4], [12])
  /\ liveBlobs (trace st') = []
  /\ liveFramebuffers (trace st') = []
  /\ countb isDestroyBlob (emitted st st') = 1%nat
  /\ countb isRmFb (emitted st st') = 1%nat.
Proof.
  split; [reflexivity|].
  destruct (destructor_releases_kernel_objects goodEnv
              (snd (setHdrMode goodEnv true
                      (snd (sampleRender goodEnv frame709 (start false))))) false
              eq_refl eq_refl)
    as (Hb & Hf & Hd & Hr & _).
  split; [exact Hb|]. split; [exact Hf|]. split; [exact Hd | exact Hr].
Defined.

(* the NV12 frame has two planes; 31 slots are used *)
Lemma exportAttribs_fits_witness :
  let a := exportAttribs colorspaceOf fullRangeOf (boundRenderer false) frame709 in
  attribIndex a = 31%nat
  /\ length (attribs a) = MAX_ATTRIB_COUNT
  /\ nth 30 (attribs a) 0 = EGL_NONE
  /\ forall j, (31 <= j)%nat -> nth j (attribs a) 0 = 0.
Proof.
  split; [reflexivity|].
  destruct (exportAttribs_fits colorspaceOf fullRangeOf (boundRenderer false) frame709)
    as (Hlen & _ & _ & Hnone & Hzero); [simpl; lia|].
  split; [exact Hlen|]. split; [exact Hnone | exact Hzero].
Defined.

(* the sample driver returns image 1 *)
Lemma export_then_free_witness :
  let st := start false in
  let r := exportEGLImages goodEnv colorspaceOf fullRangeOf frame709 st in
  let st2 := snd (freeEGLImages (snd (fst r)) (snd r)) in
  fst r = (1, [1; 0; 0; 0])
  /\ exists attrs image,
       image <> 0
       /\ emitted st st2 = [EvCreateImage false attrs image; EvDestroyImage false image].
Proof.
  split; [reflexivity|].
  destruct (export_then_free goodEnv colorspaceOf fullRangeOf (start false) frame709
              eq_refl) as (attrs & image & Hi & Hevs & _).
  exists attrs, image. split; [exact Hi | exact Hevs].
Defined.

(* without a backend renderer, asked about format 0 while DRM PRIME is 179 *)
Lemma isPixelFormatSupported_without_backend_witness :
  isPixelFormatSupported (fun _ => 0) (fun _ _ => false) 179 256 0 (start false)
  = (true, start false).
Proof.
  destruct (isPixelFormatSupported_without_backend (fun _ => 0) (fun _ _ => false) 179
              (start false) 256 0 eq_refl) as [H _]; [discriminate|].
  exact H.
Defined.

(* a driver with the KHR entry points only *)
Lemma initializeEGL_then_images_witness :
  let st1 := snd (initializeEGL allExtensions khrDriver (start false)) in
  (m_eglCreateImage (self st1), m_eglCreateImageKHR (self st1)) = (false, true)
  /\ forallb (entryPointResolved (self st1))
       (emitted st1 (snd (exportEGLImages goodEnv colorspaceOf fullRangeOf frame709 st1)))
     = true
  /\ forallb (entryPointResolved (self st1))
       (emitted st1 (snd (freeEGLImages [1; 0; 0; 0] st1))) = true.
Proof.
  split; [reflexivity|].
  exact (initializeEGL_then_images goodEnv colorspaceOf fullRangeOf allExtensions khrDriver
           (start false) frame709 [1; 0; 0; 0] eq_refl).
Defined.

(* an unspecified colorspace after a BT.709 frame *)
Lemma unknown_colorspace_witness :
  let st := snd (sampleRender goodEnv frame709 (start false)) in
  let st' := snd (updateColorEncoding goodEnv colorspaceOf frameUnspecified st) in
  colorspaceOf frameUnspecified = 3
  /\ trace st' = trace st
  /\ (m_LastColorSpace (self st), m_LastColorSpace (self st')) = (COLORSPACE_REC_709, 3).
Proof.
  split; [reflexivity|].
  destruct (unknown_colorspace_is_silent goodEnv colorspaceOf
              (snd (sampleRender goodEnv frame709 (start false))) frameUnspecified)
    as [_ Hrun]; [discriminate | discriminate | discriminate |].
  cbv zeta. rewrite Hrun. split; reflexivity.
Defined.

End Witnesses.
